(** * Loader generation pipeline: a shallow embedding and its properties

    The development follows [app/services/loader_generator.py],
    [app/services/openai_client.py], [app/utils/files.py] and
    [app/models/schemas.py].

    Conventions of the embedding.
    - Python [int] is [Z]; [len] returns a [Z].
    - Python [str] is [string]; characters are the 8-bit [ascii] of the
      standard library.  On that range the regular-expression class [\d]
      is exactly [0-9] and the white space removed by [str.strip()] is
      exactly the set listed in [is_py_space].
    - Python [float] is [spec_float] (IEEE 754 binary64 as specified in
      the standard library), so comparisons treat NaN and signed zeros as
      the interpreter does.
    - Dictionaries are [gmap]s; the file system is a set of directories
      and a finite map from paths to file contents.
    - Exceptions are values of [Exception]; effectful functions run in the
      state-and-error monad [SE]: over [FileSystem] for code that only
      touches files, over [World] for the rest. *)

From Stdlib Require Import ZArith Strings.String Strings.Ascii Lists.List.
From Stdlib Require Import Numbers.DecimalString Floats.SpecFloat.
From stdpp Require Import base option list gmap sets strings relations.

Local Open Scope string_scope.
Local Open Scope Z_scope.

(** ** Python strings *)

Module PyStr.

Definition len (s : string) : Z := Z.of_nat (String.length s).

(** [take n s] is the first [n] characters of [s] (all of [s] when it is
    shorter). *)
Fixpoint take (n : nat) (s : string) : string :=
  match n, s with
  | O, _ => ""
  | S _, "" => ""
  | S n', String c s' => String c (take n' s')
  end.

(** [s[:limit]].  A negative [limit] counts from the end, as in Python. *)
Definition slice_to (s : string) (limit : Z) : string :=
  if limit <? 0 then take (Z.to_nat (Z.max 0 (len s + limit))) s
  else take (Z.to_nat limit) s.

(** [s.replace(c, "")] for a one-character [c]. *)
Fixpoint remove_char (c : ascii) (s : string) : string :=
  match s with
  | "" => ""
  | String d s' =>
      if Ascii.eqb d c then remove_char c s' else String d (remove_char c s')
  end.

(** The characters [str.strip()] removes, among code points below 256. *)
Definition is_py_space (c : ascii) : bool :=
  let n := N_of_ascii c in
  ((9 <=? n) && (n <=? 13) || (28 <=? n) && (n <=? 32)
   || (n =? 133) || (n =? 160))%N.

(** [s.lstrip(chars)], [s.rstrip(chars)] and [s.strip(chars)] for the
    set of characters [p]. *)
Fixpoint lstrip_by (p : ascii -> bool) (s : string) : string :=
  match s with
  | "" => ""
  | String c s' => if p c then lstrip_by p s' else s
  end.

Fixpoint rstrip_by (p : ascii -> bool) (s : string) : string :=
  match s with
  | "" => ""
  | String c s' =>
      match rstrip_by p s' with
      | "" => if p c then "" else String c ""
      | r => String c r
      end
  end.

Definition strip_by (p : ascii -> bool) (s : string) : string :=
  rstrip_by p (lstrip_by p s).

(** [s.strip()] *)
Definition strip (s : string) : string := strip_by is_py_space s.

(** [sep.join(parts)] *)
Fixpoint join (sep : string) (parts : list string) : string :=
  match parts with
  | nil => ""
  | cons p nil => p
  | cons p rest => p ++ sep ++ join sep rest
  end.

(** [c * n]: the string of [n] copies of [c]. *)
Fixpoint repeat_char (n : nat) (c : ascii) : string :=
  match n with
  | O => ""
  | S n' => String c (repeat_char n' c)
  end.

(** [p] is an initial segment of [s]. *)
Definition is_prefix (p s : string) : Prop := exists t, s = p ++ t.

End PyStr.

Import PyStr.

(** ** ContextBudgeter ([loader_generator.py], lines 65-66 and 138-183) *)

Definition MAX_CHARS_PER_FILE : Z := 60000.
Definition MAX_TOTAL_CHARS : Z := 220000.

Definition _truncate (text : string) (limit : Z) : string * bool :=
  if len text <=? limit then (text, false) else (slice_to text limit, true).

Definition NUL : ascii := Ascii.zero.

Definition _normalize_text (text : string) : string :=
  strip (remove_char NUL text).

(** The truncation report, [meta] in the source. *)
Record TruncMeta := mkTruncMeta {
  max_chars_per_file : Z;
  max_total_chars : Z;
  truncated_agreement : bool;
  truncated_standards : gmap string bool
}.

(** First loop of [_truncate_inputs]: normalise and cap every standard,
    recording the flag under the file name and appending to the result. *)
Fixpoint cap_standards (standards : list (string * string))
    (flags : gmap string bool) (normalized : list (string * string))
    : gmap string bool * list (string * string) :=
  match standards with
  | [] => (flags, normalized)
  | (filename, text) :: rest =>
      let text := _normalize_text text in
      let '(text, trunc) := _truncate text MAX_CHARS_PER_FILE in
      cap_standards rest (<[filename := trunc]> flags)
                    (normalized ++ [(filename, text)])
  end.

(** [sum(len(t) for _, t in standards)]. *)
Definition sum_len (standards : list (string * string)) : Z :=
  foldr (fun p acc => len (snd p) + acc) 0 standards.

(** Second loop of [_truncate_inputs]: cut every standard to the shared
    budget.  [flags !!! filename] reads [meta[...][filename]]; the key was
    stored by the first loop (see [cap_standards_keys]), so the read never
    raises. *)
Fixpoint retruncate_standards (per_standard_budget : Z)
    (normalized : list (string * string))
    (flags : gmap string bool) (final : list (string * string))
    : gmap string bool * list (string * string) :=
  match normalized with
  | [] => (flags, final)
  | (filename, text) :: rest =>
      let '(text2, trunc2) := _truncate text per_standard_budget in
      retruncate_standards per_standard_budget rest
        (<[filename := (flags !!! filename) || trunc2]> flags)
        (final ++ [(filename, text2)])
  end.

Definition _truncate_inputs (agreement_text : string)
    (standards : list (string * string))
    : string * list (string * string) * TruncMeta :=
  let agreement_text := _normalize_text agreement_text in
  let '(agreement_text, truncated_agreement) :=
    _truncate agreement_text MAX_CHARS_PER_FILE in
  let '(flags, normalized_standards) := cap_standards standards ∅ [] in
  let meta flags :=
    mkTruncMeta MAX_CHARS_PER_FILE MAX_TOTAL_CHARS truncated_agreement flags in
  let total := len agreement_text + sum_len normalized_standards in
  if (total <=? MAX_TOTAL_CHARS) || bool_decide (normalized_standards = [])
  then (agreement_text, normalized_standards, meta flags)
  else
    let remaining_budget := Z.max 0 (MAX_TOTAL_CHARS - len agreement_text) in
    let per_standard_budget :=
      Z.max 5000 (remaining_budget / Z.of_nat (length normalized_standards)) in
    let '(flags2, final_standards) :=
      retruncate_standards per_standard_budget normalized_standards flags [] in
    (agreement_text, final_standards, meta flags2).

(** ** What the specification calls the per-file cap *)

(** The normalised text cut to the per-file ceiling, in the words of the
    specification (step 2 of the budgeter). *)
Definition per_file_capped (text : string) : string :=
  take (Z.to_nat MAX_CHARS_PER_FILE) (_normalize_text text).

(** Whether the per-file ceiling cut the normalised text. *)
Definition per_file_cut (text : string) : bool :=
  MAX_CHARS_PER_FILE <? len (_normalize_text text).

Definition cap_entry (p : string * string) : string * string :=
  (fst p, per_file_capped (snd p)).

(** The total the budgeter compares with the ceiling. *)
Definition capped_total (agreement_text : string)
    (standards : list (string * string)) : Z :=
  len (per_file_capped agreement_text) + sum_len (map cap_entry standards).

(** What the second loop does to one entry. *)
Definition cut_entry (budget : Z) (p : string * string) : string * string :=
  (fst p, fst (_truncate (snd p) budget)).


(** The size of a budgeted corpus:
    [len(agreement_text) + sum(len(t) for _, t in standards)]. *)
Definition budgeted_total
    (out : string * list (string * string) * TruncMeta) : Z :=
  len (fst (fst out)) + sum_len (snd (fst out)).

(** Test inputs: a text of [n] letters and [k] standards of [n] letters. *)
Definition filler (n : Z) : string := repeat_char (Z.to_nat n) "x"%char.

Definition standard_name (i : nat) : string :=
  "standard_" ++ NilZero.string_of_uint (Nat.to_uint i) ++ ".txt".

Definition filler_standards (k : nat) (n : Z) : list (string * string) :=
  map (fun i => (standard_name i, filler n)) (seq 0 k).

(** ** Exceptions and results *)

Definition str_of_Z (n : Z) : string := NilZero.string_of_int (Z.to_int n).

Inductive Exception : Type :=
| HTTPException (status_code : Z) (detail : string) (cause : option Exception)
| RuntimeError (msg : string)
| ValueError (msg : string)
| TextExtractionError (msg : string)
| APITimeoutError (msg : string)
| OpenAIError (msg : string)        (* any other [OpenAIError] *)
| TransportError (msg : string)     (* anything else the HTTP stack raises *)
| IndexError (msg : string)
| FileExistsError (path : string)
| FileNotFoundError (path : string)
| IsADirectoryError (path : string)
| SameFileError (path : string)
| InvalidFileException (msg : string)   (* openpyxl *)
| BadZipFile (msg : string)             (* zipfile *)
| IllegalCharacterError (value : string). (* openpyxl *)

(** [str(exc)]. *)
Definition exc_str (e : Exception) : string :=
  match e with
  | HTTPException status detail _ => str_of_Z status ++ ": " ++ detail
  | RuntimeError msg | ValueError msg | TextExtractionError msg
  | APITimeoutError msg | OpenAIError msg | TransportError msg
  | IndexError msg => msg
  | FileExistsError p | FileNotFoundError p | IsADirectoryError p
  | SameFileError p => p
  | InvalidFileException msg | BadZipFile msg => msg
  | IllegalCharacterError value => value ++ " cannot be used in worksheets."
  end.

Inductive Result (A : Type) : Type :=
| Ok (a : A)
| Raise (e : Exception).
Arguments Ok {A} a.
Arguments Raise {A} e.

(** ** Data model ([schemas.py]) *)

Inductive JSON : Type :=
| JNull
| JBool (b : bool)
| JInt (n : Z)
| JFloat (x : spec_float)
| JString (s : string)
| JArray (items : list JSON)
| JObject (fields : list (string * JSON)).

Inductive Direction := TI | TO.

Definition direction_str (d : Direction) : string :=
  match d with TI => "TI" | TO => "TO" end.

Record ExcelOutputPlan := mkPlan {
  direction : Direction;
  client_tadig : string;
  partner_tadig : string;
  start_date : string;
  end_date : string;
  currency : string;
  sms_mo_rate : spec_float;
  sms_mt_rate : spec_float;
  is_discount : bool;
  filename : string
}.

Record LoaderMapping := mkMapping {
  clause_id : string;
  clause_text : string;
  matched_standard : option string;
  confidence : spec_float;
  loader_fields : list (string * JSON)
}.

Record LoaderOutput := mkLoader {
  agreement_name : string;
  standards_used : list string;
  mappings : list LoaderMapping;
  missing_fields : list string;
  notes : string;
  excel_outputs : list ExcelOutputPlan
}.

(** ** The file system and spreadsheets *)

Record PatternFill := mkFill { fill_type : string; fgColor : string }.

Inductive CellValue :=
| CNone
| CStr (s : string)
| CInt (n : Z)
| CFloat (x : spec_float).

Record Cell := mkCell { cell_value : CellValue; cell_fill : option PatternFill }.

Definition empty_cell : Cell := mkCell CNone None.

(** The active worksheet, by (column letters, row number); a coordinate
    such as [H35] is the pair [("H", 35)].  A cell that was never created
    is absent and reads as [empty_cell]. *)
Notation Worksheet := (gmap (string * Z) Cell).

Definition ws_cell (ws : Worksheet) (col : string) (row : Z) : Cell :=
  default empty_cell (ws !! (col, row)).

(** [ws[coord] = v] *)
Definition ws_set_value (ws : Worksheet) (col : string) (row : Z)
    (v : CellValue) : Worksheet :=
  <[(col, row) := mkCell v (cell_fill (ws_cell ws col row))]> ws.

(** [ws[coord].fill = f] *)
Definition ws_set_fill (ws : Worksheet) (col : string) (row : Z)
    (f : PatternFill) : Worksheet :=
  <[(col, row) := mkCell (cell_value (ws_cell ws col row)) (Some f)]> ws.

(** The truncation report and the usage summary are parts of the journal
    [meta.json]; the usage summary is a JSON object. *)
Definition UsageDict := list (string * JSON).

Record JournalInputs := mkJournalInputs {
  j_agreement_file : string;
  j_standard_files : list string;
  j_truncation : TruncMeta;
  j_agreement_chars : Z;
  j_standards_chars : gmap string Z
}.

Record JournalOutputs := mkJournalOutputs {
  j_output_dir : string;
  j_loader_json : string;
  j_loader_txt : option string;
  j_loader_excel : list string;
  j_meta_json : string
}.

Record Journal := mkJournal {
  j_created_at : string;
  j_started_at : string;
  j_agreement_id : string;
  j_batch_id : string;
  j_model : string;
  j_inputs : JournalInputs;
  j_openai_usage : option UsageDict;
  j_outputs : JournalOutputs;
  j_excel_plans : list ExcelOutputPlan
}.

(** File contents.  [FJson d] is the pretty-printed serialisation of [d]
    followed by a newline, [FJournal j] that of the journal [j]. *)
Inductive File :=
| FWorkbook (ws : Worksheet)
| FJson (data : JSON)
| FJournal (j : Journal)
| FOther (content : string).

(** Existing directories and files, by path.  The ancestors of a path are
    not tracked separately. *)
Record FileSystem := mkFS {
  dirs : gset string;
  files : gmap string File
}.

Definition path_exists (fs : FileSystem) (p : string) : bool :=
  bool_decide (p ∈ dirs fs) || bool_decide (is_Some (files fs !! p)).

(** [parent / name] for a plain [name]: one path component, that is a
    string without a slash that is neither empty nor a single dot.  For any
    other string see [path_div]. *)
Definition path_join (parent name : string) : string :=
  parent ++ "/" ++ name.

(** Splits a path at its last slash. *)
Fixpoint split_last_slash (p : string) : option (string * string) :=
  match p with
  | "" => None
  | String c rest =>
      match split_last_slash rest with
      | Some (a, b) => Some (String c a, b)
      | None => if Ascii.eqb c "/" then Some ("", rest) else None
      end
  end.

(** [p.name] and [p.parent]. *)
Definition path_name (p : string) : string :=
  match split_last_slash p with Some (_, b) => b | None => p end.

Definition path_parent (p : string) : string :=
  match split_last_slash p with Some (a, _) => a | None => "." end.

(** [p.is_absolute()] *)
Definition is_absolute (p : string) : bool :=
  match p with String "/" _ => true | _ => false end.

(** [s.split(sep)] for a one-character separator. *)
Fixpoint split_on (sep : ascii) (s : string) : list string :=
  match s with
  | "" => [""]
  | String c r =>
      if Ascii.eqb c sep then "" :: split_on sep r
      else
        match split_on sep r with
        | x :: xs => String c x :: xs
        | [] => [String c ""]
        end
  end.

(** The components of a path given as a string, as [pathlib] reads it on a
    POSIX system: what stands between slashes, empty components and single
    dots left out. *)
Definition components (s : string) : list string :=
  List.filter (fun c => negb (String.eqb c "") && negb (String.eqb c "."))
              (split_on "/" s).

(** [Path(s).name] for any string: the last component, or the empty
    string. *)
Definition pathlib_name (s : string) : string :=
  List.last (components s) "".

(** The root of an absolute path: two leading slashes are kept, one and
    three or more are one. *)
Definition root_of (s : string) : string :=
  match s with
  | String "/" (String "/" (String "/" _)) => "/"
  | String "/" (String "/" _) => "//"
  | _ => "/"
  end.

(** [parent / child] for any string [child], where [parent] is a directory
    named by its path, other than [.] and the root: the components of
    [child] are appended, none leaves [parent] as it is, and an absolute
    [child] replaces [parent]. *)
Definition path_div (parent child : string) : string :=
  if is_absolute child then root_of child ++ join "/" (components child)
  else
    match components child with
    | [] => parent
    | cs => parent ++ "/" ++ join "/" cs
    end.

(** [c.lower()] on the 8-bit range. *)
Definition lower_char (c : ascii) : ascii :=
  let n := N_of_ascii c in
  if ((65 <=? n) && (n <=? 90)
      || (192 <=? n) && (n <=? 222) && negb (n =? 215))%N
  then ascii_of_N (n + 32) else c.

Fixpoint lower (s : string) : string :=
  match s with
  | "" => ""
  | String c r => String (lower_char c) (lower r)
  end.

(** Splits a name at its last dot. *)
Fixpoint split_last_dot (s : string) : option (string * string) :=
  match s with
  | "" => None
  | String c rest =>
      match split_last_dot rest with
      | Some (a, b) => Some (String c a, b)
      | None => if Ascii.eqb c "." then Some ("", rest) else None
      end
  end.

(** [os.path.splitext(p)[-1]]: from the last dot of what follows the last
    slash, when something other than dots stands before that dot. *)
Definition splitext_ext (p : string) : string :=
  let name := match split_last_slash p with Some (_, b) => b | None => p end in
  match split_last_dot name with
  | Some (a, b) =>
      if String.eqb (lstrip_by (fun c => Ascii.eqb c ".") a) "" then ""
      else "." ++ b
  | None => ""
  end.

(** ** The monad of effects: state passing with exceptions *)

Definition SE (S A : Type) : Type := S -> Result A * S.

Definition ret {S A} (a : A) : SE S A := fun s => (Ok a, s).

Definition raise {S A} (e : Exception) : SE S A := fun s => (Raise e, s).

Definition bind {S A B} (m : SE S A) (k : A -> SE S B) : SE S B :=
  fun s =>
    match m s with
    | (Ok a, s') => k a s'
    | (Raise e, s') => (Raise e, s')
    end.

(** [try: m except: handler] for a handler that receives every exception
    and re-raises what it does not handle. *)
Definition try_except {S A} (m : SE S A) (handler : Exception -> SE S A)
    : SE S A :=
  fun s =>
    match m s with
    | (Ok a, s') => (Ok a, s')
    | (Raise e, s') => handler e s'
    end.

Definition lift_result {S A} (r : Result A) : SE S A := fun s => (r, s).

Declare Scope monad_scope.
Delimit Scope monad_scope with monad.
Notation "x <- m ;; k" := (bind m (fun x => k))
  (at level 100, m at next level, right associativity) : monad_scope.
Notation "m ;;; k" := (bind m (fun _ => k))
  (at level 100, right associativity) : monad_scope.
Local Open Scope monad_scope.

(** Code that only touches the file system runs over [FileSystem]. *)
Notation FSM := (SE FileSystem).

Definition get_fs : FSM FileSystem := fun fs0 => (Ok fs0, fs0).

Definition put_fs (fs' : FileSystem) : FSM unit := fun _ => (Ok tt, fs').

(** *** File-system primitives *)

(** [p.mkdir(parents=True, exist_ok=True)] *)
Definition mkdir_exist_ok (p : string) : FSM unit :=
  fs0 <- get_fs ;;
  if bool_decide (is_Some (files fs0 !! p)) then raise (FileExistsError p)
  else put_fs (mkFS ({[p]} ∪ dirs fs0) (files fs0)).

(** [p.mkdir(parents=True, exist_ok=False)]: the exclusive creation. *)
Definition mkdir_exclusive (p : string) : FSM unit :=
  fs0 <- get_fs ;;
  if path_exists fs0 p then raise (FileExistsError p)
  else put_fs (mkFS ({[p]} ∪ dirs fs0) (files fs0)).

Definition write_file (p : string) (f : File) : FSM unit :=
  fs0 <- get_fs ;;
  if bool_decide (p ∈ dirs fs0) then raise (IsADirectoryError p)
  else put_fs (mkFS (dirs fs0) (<[p := f]> (files fs0))).

(** [shutil.copy(src, dst)]: into [dst] when it is a directory. *)
Definition shutil_copy (src dst : string) : FSM unit :=
  fs0 <- get_fs ;;
  match files fs0 !! src with
  | None =>
      if bool_decide (src ∈ dirs fs0) then raise (IsADirectoryError src)
      else raise (FileNotFoundError src)
  | Some content =>
      let target :=
        if bool_decide (dst ∈ dirs fs0) then path_join dst (path_name src)
        else dst in
      if bool_decide (target = src) then raise (SameFileError src)
      else write_file target content
  end.

(** The file formats [load_workbook] of openpyxl reads. *)
Definition SUPPORTED_FORMATS : list string := [".xlsx"; ".xlsm"; ".xltx"; ".xltm"].

Definition supported_format (p : string) : bool :=
  existsb (String.eqb (lower (splitext_ext p))) SUPPORTED_FORMATS.

Definition unsupported_format (file_format : string) : Exception :=
  InvalidFileException
    (if String.eqb file_format ".xls"
     then "openpyxl does not support the old .xls file format, please use xlrd to read this file, or convert it to the more recent .xlsx file format."
     else if String.eqb file_format ".xlsb"
     then "openpyxl does not support binary format .xlsb, please convert this file to XLSX format if you want to open it with OpenPyXL"
     else "openpyxl does not support " ++ file_format
          ++ " file format, please check you can open it with Excel first. Supported formats are: "
          ++ join "," SUPPORTED_FORMATS).

(** [load_workbook(p)], returning the active sheet.  The extension of the
    path is checked before the file is opened; a file of another kind is
    read as one that is no zip archive. *)
Definition load_workbook (p : string) : FSM Worksheet :=
  if negb (supported_format p)
  then raise (unsupported_format (lower (splitext_ext p)))
  else
    fs0 <- get_fs ;;
    match files fs0 !! p with
    | Some (FWorkbook ws) => ret ws
    | Some _ => raise (BadZipFile "File is not a zip file")
    | None =>
        if bool_decide (p ∈ dirs fs0) then raise (IsADirectoryError p)
        else raise (FileNotFoundError p)
    end.

(** [wb.save(p)] *)
Definition save_workbook (p : string) (ws : Worksheet) : FSM unit :=
  write_file p (FWorkbook ws).

(** ** SpreadsheetTemplater ([loader_generator.py], lines 67-135) *)

Definition SMS_MO_ROW : Z := 35.
Definition SMS_MT_ROW : Z := 53.
Definition SMS_RATE_COL : string := "J".
Definition SMS_DISCOUNT_COL : string := "I".
Definition SMS_CURRENCY_COL : string := "H".
Definition SMS_INITIAL_FEE_COL : string := "L".
Definition SMS_CHARGING_INTERVAL_COL : string := "K".

(** *** The file-name pattern

    [^(?P<client>[A-Za-z0-9]+)_(?P<partner>[A-Za-z0-9]+)_(?P<direction>TI|TO)_(?P<start>\d{8})_(?P<end>\d{8})_D\.xlsx$]

    The underscore is outside [[A-Za-z0-9]], so each greedy run ends at the
    only place where the match can go on and the pattern is matched left to
    right without backtracking.  [$] matches at the end of the string and
    also just before a final newline. *)

Definition in_range (lo hi c : ascii) : bool :=
  ((N_of_ascii lo <=? N_of_ascii c) && (N_of_ascii c <=? N_of_ascii hi))%N.

Definition is_alnum (c : ascii) : bool :=
  in_range "A" "Z" c || in_range "a" "z" c || in_range "0" "9" c.

Definition is_digit (c : ascii) : bool := in_range "0" "9" c.

(** The longest initial run of characters in the class, and the rest. *)
Fixpoint span (p : ascii -> bool) (s : string) : string * string :=
  match s with
  | "" => ("", "")
  | String c r =>
      if p c then let '(a, b) := span p r in (String c a, b) else ("", s)
  end.

(** Consumes the literal [lit] at the head of [s]. *)
Fixpoint expect (lit s : string) : option string :=
  match lit, s with
  | "", _ => Some s
  | String a lit', String b s' =>
      if Ascii.eqb a b then expect lit' s' else None
  | String _ _, "" => None
  end.

(** [\d{n}] *)
Fixpoint digits (n : nat) (s : string) : option (string * string) :=
  match n, s with
  | O, _ => Some ("", s)
  | S n', String c r =>
      if is_digit c then '(a, b) ← digits n' r; Some (String c a, b)
      else None
  | S _, "" => None
  end.

(** One or more characters of [[A-Za-z0-9]]. *)
Definition alnum_run (s : string) : option (string * string) :=
  let '(a, b) := span is_alnum s in
  if String.eqb a "" then None else Some (a, b).

(** [TI|TO] *)
Definition ti_or_to (s : string) : option (string * string) :=
  match expect "TI" s with
  | Some r => Some ("TI", r)
  | None => r ← expect "TO" s; Some ("TO", r)
  end.

(** [$] *)
Definition at_end (s : string) : bool :=
  String.eqb s "" || String.eqb s (String "010" "").

(** The named groups of a match. *)
Record FilenameMatch := mkMatch {
  g_client : string;
  g_partner : string;
  g_direction : string;
  g_start : string;
  g_end : string
}.

(** [FILENAME_PATTERN.match(s)] *)
Definition FILENAME_PATTERN_match (s : string) : option FilenameMatch :=
  '(client, r) ← alnum_run s;
  r ← expect "_" r;
  '(partner, r) ← alnum_run r;
  r ← expect "_" r;
  '(dir, r) ← ti_or_to r;
  r ← expect "_" r;
  '(start, r) ← digits 8 r;
  r ← expect "_" r;
  '(end_, r) ← digits 8 r;
  r ← expect "_D.xlsx" r;
  if at_end r then Some (mkMatch client partner dir start end_) else None.

(** The pattern, read as a description of the strings it accepts: what the
    regular expression denotes. *)
Definition all_chars (p : ascii -> bool) (s : string) : Prop :=
  Forall (fun c => p c = true) (list_ascii_of_string s).

Definition filename_shape (s : string) (m : FilenameMatch) : Prop :=
  exists tail,
    s = g_client m ++ "_" ++ g_partner m ++ "_" ++ g_direction m ++ "_"
        ++ g_start m ++ "_" ++ g_end m ++ "_D.xlsx" ++ tail
    /\ (tail = "" \/ tail = String "010" "")
    /\ g_client m <> "" /\ all_chars is_alnum (g_client m)
    /\ g_partner m <> "" /\ all_chars is_alnum (g_partner m)
    /\ (g_direction m = "TI" \/ g_direction m = "TO")
    /\ String.length (g_start m) = 8%nat /\ all_chars is_digit (g_start m)
    /\ String.length (g_end m) = 8%nat /\ all_chars is_digit (g_end m).

(** *** Validation of the plan's file name (lines 98-116) *)

Definition invalid_filename_detail (plan : ExcelOutputPlan) : string :=
  "Invalid output filename '" ++ filename plan
  ++ "'. Expected pattern <ClientTADIG>_<PartnerTADIG>_<TIorTO>_<StartDateYYYYMMDD>_<EndDateYYYYMMDD>_D.xlsx".

Definition direction_mismatch_detail (m : FilenameMatch)
    (plan : ExcelOutputPlan) : string :=
  "Filename direction " ++ g_direction m
  ++ " does not match plan direction " ++ direction_str (direction plan).

Definition date_mismatch_detail : string :=
  "Filename start/end dates must match plan start_date/end_date.".

Definition filename_validation (plan : ExcelOutputPlan)
    : Result FilenameMatch :=
  match FILENAME_PATTERN_match (filename plan) with
  | None => Raise (HTTPException 422 (invalid_filename_detail plan) None)
  | Some m =>
      if negb (String.eqb (g_direction m) (direction_str (direction plan)))
      then Raise (HTTPException 422 (direction_mismatch_detail m plan) None)
      else
        let start_digits := remove_char "-" (start_date plan) in
        let end_digits := remove_char "-" (end_date plan) in
        if negb (String.eqb (g_start m) start_digits)
           || negb (String.eqb (g_end m) end_digits)
        then Raise (HTTPException 422 date_mismatch_detail None)
        else Ok m
  end.

(** *** Writing the rows *)

(** What openpyxl makes of a string assigned to a cell ([Cell.check_string]):
    it keeps the first 32,767 characters and refuses them when a control
    character other than tab, line feed and carriage return is among
    them. *)
Definition is_illegal_char (c : ascii) : bool :=
  let n := N_of_ascii c in
  ((n <=? 8) || (11 <=? n) && (n <=? 12) || (14 <=? n) && (n <=? 31))%N.

Fixpoint has_illegal_char (s : string) : bool :=
  match s with
  | "" => false
  | String c r => is_illegal_char c || has_illegal_char r
  end.

Definition cell_text (value : string) : string := slice_to value 32767.

Definition check_string (value : string) : Result string :=
  let value := cell_text value in
  if has_illegal_char value then Raise (IllegalCharacterError value)
  else Ok value.

(** The statements on the open sheet run over the sheet as their state. *)
Notation SheetM := (SE Worksheet).

(** [ws[coord] = v] *)
Definition ws_assign (col : string) (row : Z) (v : CellValue) : SheetM unit :=
  fun ws =>
    match v with
    | CStr s =>
        match check_string s with
        | Ok s' => (Ok tt, ws_set_value ws col row (CStr s'))
        | Raise e => (Raise e, ws)
        end
    | _ => (Ok tt, ws_set_value ws col row v)
    end.

(** [ws[coord].fill = f] *)
Definition ws_fill (col : string) (row : Z) (f : PatternFill) : SheetM unit :=
  fun ws => (Ok tt, ws_set_fill ws col row f).

(** [for x in xs: body(x)] *)
Fixpoint for_each {S A} (xs : list A) (body : A -> SE S unit) : SE S unit :=
  match xs with
  | [] => ret tt
  | x :: rest => body x ;;; for_each rest body
  end.

Definition _write_sms_row (row_idx : Z) (rate : spec_float)
    (currency : string) (is_discount : bool) (highlight : PatternFill)
    : SheetM unit :=
  ws_assign SMS_CURRENCY_COL row_idx (CStr currency) ;;;
  ws_assign SMS_DISCOUNT_COL row_idx (CInt (if is_discount then 1 else 0)) ;;;
  ws_assign SMS_RATE_COL row_idx (CFloat rate) ;;;
  ws_assign SMS_INITIAL_FEE_COL row_idx (CStr "") ;;;
  for_each [SMS_RATE_COL; SMS_CHARGING_INTERVAL_COL]
           (fun col => ws_fill col row_idx highlight) ;;;
  for_each ["P"; "Q"; "R"] (fun col => ws_assign col row_idx CNone).

Definition float_zero : spec_float := S754_zero false.

(** [bool(x)] for a float: [x != 0.0]. *)
Definition float_truthy (x : spec_float) : bool := negb (SFeqb x float_zero).

(** [plan.sms_mt_rate and plan.sms_mt_rate > 0] *)
Definition mt_row_requested (plan : ExcelOutputPlan) : bool :=
  float_truthy (sms_mt_rate plan) && SFltb float_zero (sms_mt_rate plan).

Definition highlight_fill : PatternFill := mkFill "solid" "FFFF00".

(** Lines 122-133: the statements between [load_workbook] and [wb.save]. *)
Definition write_plan_cells (plan : ExcelOutputPlan) : SheetM unit :=
  ws_assign "C" 2 (CStr (partner_tadig plan)) ;;;
  _write_sms_row SMS_MO_ROW (sms_mo_rate plan) (currency plan)
    (is_discount plan) highlight_fill ;;;
  if mt_row_requested plan
  then _write_sms_row SMS_MT_ROW (sms_mt_rate plan) (currency plan)
         (is_discount plan) highlight_fill
  else ret tt.

(** The sheet a block of statements leaves, unless one of them raised. *)
Definition sheet_after (m : SheetM unit) (ws : Worksheet) : Result Worksheet :=
  match m ws with
  | (Ok _, ws') => Ok ws'
  | (Raise e, _) => Raise e
  end.

Definition _generate_excel_from_template (template_path dest_path : string)
    (plan : ExcelOutputPlan) : FSM unit :=
  _ <- lift_result (filename_validation plan) ;;
  mkdir_exist_ok (path_parent dest_path) ;;;
  shutil_copy template_path dest_path ;;;
  ws <- load_workbook dest_path ;;
  ws <- lift_result (sheet_after (write_plan_cells plan) ws) ;;
  save_workbook dest_path ws.

(** *** The sheet of a plan, as a function

    What the statements leave when none of them raises: the cells of an SMS
    row, and the whole sheet of a plan. *)
Definition sms_row (ws : Worksheet) (row_idx : Z) (rate : spec_float)
    (currency : string) (is_discount : bool) (highlight : PatternFill)
    : Worksheet :=
  let ws := ws_set_value ws SMS_CURRENCY_COL row_idx (CStr currency) in
  let ws := ws_set_value ws SMS_DISCOUNT_COL row_idx
              (CInt (if is_discount then 1 else 0)) in
  let ws := ws_set_value ws SMS_RATE_COL row_idx (CFloat rate) in
  let ws := ws_set_value ws SMS_INITIAL_FEE_COL row_idx (CStr "") in
  let ws := foldl (fun ws col => ws_set_fill ws col row_idx highlight) ws
              [SMS_RATE_COL; SMS_CHARGING_INTERVAL_COL] in
  foldl (fun ws col => ws_set_value ws col row_idx CNone) ws ["P"; "Q"; "R"].

Definition populate_sheet (ws : Worksheet) (plan : ExcelOutputPlan)
    : Worksheet :=
  let ws := ws_set_value ws "C" 2 (CStr (cell_text (partner_tadig plan))) in
  let ws := sms_row ws SMS_MO_ROW (sms_mo_rate plan)
              (cell_text (currency plan)) (is_discount plan) highlight_fill in
  if mt_row_requested plan
  then sms_row ws SMS_MT_ROW (sms_mt_rate plan) (cell_text (currency plan))
         (is_discount plan) highlight_fill
  else ws.


(** The two strings of a plan that go into cells are accepted. *)
Definition cells_accepted (plan : ExcelOutputPlan) : Prop :=
  has_illegal_char (cell_text (partner_tadig plan)) = false
  /\ has_illegal_char (cell_text (currency plan)) = false.

(** *** Test data: scenarios C and D of the specification *)

Definition scenario_plan (fname : string) (mt : spec_float) : ExcelOutputPlan :=
  mkPlan TI "ABCD" "WXYZ" "2024-01-01" "2024-12-31" "EUR"
         (S754_finite false 4503599627370496 (-53)) mt true fname.

Definition scenario_C_plan : ExcelOutputPlan :=
  scenario_plan "ABCD_WXYZ_TI_20240101_20241231_D.xlsx" float_zero.

Definition scenario_D_plan : ExcelOutputPlan :=
  scenario_plan "ABCD_WXYZ_TO_20240101_20241231_D.xlsx" float_zero.

(** A template whose two SMS rows and partner cell hold earlier values. *)
Definition template_sheet : Worksheet :=
  list_to_map
    [ (("C", 2), mkCell (CStr "OLDP") None);
      (("H", 35), mkCell (CStr "USD") None);
      (("K", 35), mkCell (CInt 60) None);
      (("L", 35), mkCell (CInt 7) None);
      (("P", 35), mkCell (CInt 1) None);
      (("H", 53), mkCell (CStr "USD") None);
      (("J", 53), mkCell (CInt 9) None);
      (("K", 53), mkCell (CInt 60) None);
      (("Q", 53), mkCell (CInt 2) None) ].

Definition template_fs : FileSystem :=
  mkFS {[ "/srv/output" ]}
       {[ "/srv/uploads/standards/b1/template.xlsx" := FWorkbook template_sheet ]}.

(** The file system after a successful run of the templater: the
    destination's directory exists and the destination holds the populated
    copy. *)
Definition templated_fs (fs0 : FileSystem) (dest_path : string)
    (ws : Worksheet) : FileSystem :=
  mkFS ({[path_parent dest_path]} ∪ dirs fs0)
       (<[dest_path := FWorkbook ws]> (files fs0)).



Definition template_path_ex : string := "/srv/uploads/standards/b1/template.xlsx".

Definition dest_path_ex (plan : ExcelOutputPlan) : string :=
  path_join "/srv/output/agreement" (filename plan).

(** ** Output directories ([files.py]) *)

Definition ensure_dir (path : string) : FSM unit := mkdir_exist_ok path.

(** [startswith] *)
Definition startswith (s prefix : string) : bool :=
  match expect prefix s with Some _ => true | None => false end.

(** What follows the first occurrence of [sep] in [s]:
    [s.split(sep, 1)[1]]. *)
Fixpoint after_first (sep s : string) : option string :=
  match expect sep s with
  | Some r => Some r
  | None =>
      match s with
      | "" => None
      | String _ s' => after_first sep s'
      end
  end.

(** The stem and the suffix of a file name: the last dot counts when it is
    neither the first nor the last character of the name. *)
Definition name_stem (name : string) : string :=
  match split_last_dot name with
  | Some (a, b) => if String.eqb a "" || String.eqb b "" then name else a
  | None => name
  end.

Definition name_suffix (name : string) : string :=
  match split_last_dot name with
  | Some (a, b) => if String.eqb a "" || String.eqb b "" then "" else "." ++ b
  | None => ""
  end.

(** [Path(s).stem] for any string [s]. *)
Definition path_stem (s : string) : string := name_stem (pathlib_name s).

(** [p.suffix] for a path [p]. *)
Definition path_suffix (p : string) : string := name_suffix (path_name p).

Definition is_safe_char (c : ascii) : bool :=
  is_alnum c || Ascii.eqb c "." || Ascii.eqb c "_" || Ascii.eqb c "-".

(** [re.sub(r"[^A-Za-z0-9._-]+", "_", s)]: every maximal run of other
    characters becomes one underscore. *)
Fixpoint squash_unsafe (in_run : bool) (s : string) : string :=
  match s with
  | "" => ""
  | String c r =>
      if is_safe_char c then String c (squash_unsafe false r)
      else if in_run then squash_unsafe true r
      else String "_" (squash_unsafe true r)
  end.

Definition is_trim_char (c : ascii) : bool :=
  Ascii.eqb c "." || Ascii.eqb c "_" || Ascii.eqb c "-".

Definition safe_agreement_base_name (stored_filename agreement_id : string)
    : string :=
  let original :=
    if startswith stored_filename (agreement_id ++ "__")
    then default stored_filename (after_first "__" stored_filename)
    else stored_filename in
  let stem := path_stem original in
  let stem := strip_by is_trim_char (squash_unsafe false stem) in
  if String.eqb stem "" then "agreement" else stem.

(** [range(2, 10_000)] *)
Definition version_numbers : list Z := Z.of_nat <$> seq 2 (Z.to_nat 9998).

(** [[base_name] + [f"{base_name}_v{i}" for i in range(2, 10_000)]] *)
Definition version_candidates (base_name : string) : list string :=
  base_name :: ((fun i => base_name ++ "_v" ++ str_of_Z i) <$> version_numbers).

Definition allocation_failure : Exception :=
  RuntimeError
    "Failed to allocate a versioned output directory (too many existing versions).".

(** The loop over the candidates: create the directory exclusively, go on
    to the next name on [FileExistsError]. *)
Fixpoint try_candidates (parent : string) (candidates : list string)
    : FSM string :=
  match candidates with
  | [] => raise allocation_failure
  | name :: rest =>
      let p := path_div parent name in
      try_except (mkdir_exclusive p ;;; ret p)
        (fun exc =>
           match exc with
           | FileExistsError _ => try_candidates parent rest
           | _ => raise exc
           end)
  end.

Definition create_versioned_output_dir (parent base_name : string)
    : FSM string :=
  ensure_dir parent ;;;
  try_candidates parent (version_candidates base_name).

(** *** Concurrent callers of the allocator

    Each caller runs the loop above; its exclusive [mkdir] attempts are the
    atomic steps, and the steps of different callers interleave in any
    order on the shared file system. *)
Inductive Caller :=
| Trying (parent : string) (candidates : list string)
| Allocated (p : string)
| Exhausted.

(** One loop iteration of a caller. *)
Definition attempt (fs0 : FileSystem) (c : Caller) : FileSystem * Caller :=
  match c with
  | Trying parent (name :: rest) =>
      let p := path_div parent name in
      if path_exists fs0 p then (fs0, Trying parent rest)
      else (mkFS ({[p]} ∪ dirs fs0) (files fs0), Allocated p)
  | Trying _ [] => (fs0, Exhausted)
  | Allocated _ | Exhausted => (fs0, c)
  end.


(** A caller run to the end on its own: the sequential loop. *)
Fixpoint run_caller (fuel : nat) (fs0 : FileSystem) (c : Caller)
    : FileSystem * Caller :=
  match fuel with
  | O => (fs0, c)
  | S fuel' =>
      let '(fs1, c1) := attempt fs0 c in run_caller fuel' fs1 c1
  end.

(** Test data: an output root in which the first two names are taken. *)
Definition crowded_fs : FileSystem :=
  mkFS {[ "/srv/output"; "/srv/output/agreement" ]}
       {[ "/srv/output/agreement_v2" := FOther "" ]}.

(** The first candidate whose path is free, in the words of the
    specification. *)
Fixpoint first_free (fs0 : FileSystem) (parent : string)
    (candidates : list string) : option string :=
  match candidates with
  | [] => None
  | name :: rest =>
      if path_exists fs0 (path_div parent name)
      then first_free fs0 parent rest
      else Some name
  end.

Definition taken (fs0 : FileSystem) (parent name : string) : Prop :=
  path_exists fs0 (path_div parent name) = true.

(** A plain name: one path component that names an entry of its directory,
    so not the empty string, [.], [..] or a string with a slash. *)
Definition plain_name (name : string) : Prop :=
  name <> "" /\ name <> "." /\ name <> ".."
  /\ ~ In "/"%char (list_ascii_of_string name).



(** ** GenerationClient ([openai_client.py]) *)

(** The [usage] attribute of a response, by the cases [_usage_to_dict]
    distinguishes: absent or [None], a dictionary, an object with
    [model_dump] (given by the dictionary that method returns), or any other
    object, of which only the three token counters are read.  Usage values
    are JSON data. *)
Inductive RawUsage :=
| UsageNone
| UsageIsDict (d : UsageDict)
| UsageModel (dump : UsageDict)
| UsageAttrs (prompt_tokens completion_tokens total_tokens : option JSON).

Definition attr_entry (key : string) (v : option JSON) : UsageDict :=
  match v with Some x => [(key, x)] | None => [] end.

Definition _usage_to_dict (usage : RawUsage) : option UsageDict :=
  match usage with
  | UsageNone => None
  | UsageIsDict d => Some d
  | UsageModel dump => Some dump
  | UsageAttrs p c t =>
      let out := (attr_entry "prompt_tokens" p
                  ++ attr_entry "completion_tokens" c
                  ++ attr_entry "total_tokens" t)%list in
      match out with [] => None | _ => Some out end
  end.

Record ChatRequest := mkRequest {
  req_model : string;
  req_temperature : Z;
  req_system : string;
  req_user : string;
  req_response_format : string;
  req_timeout : spec_float
}.

(** A response: the [message.content] of each choice, and the usage. *)
Record ChatResponse := mkResponse {
  choices : list (option string);
  usage : RawUsage
}.

(** What one call of [client.chat.completions.create] does. *)
Inductive ApiOutcome :=
| Returns (r : ChatResponse)
| Throws (e : Exception).

(** One invocation of [generate_json_object], as logged. *)
Record GenerationCall := mkGenerationCall {
  gc_model : string;
  gc_system_prompt : string;
  gc_user_prompt : string;
  gc_retries : Z
}.

Record World := mkWorld {
  fs : FileSystem;
  (** the environment variable [OPENAI_API_KEY] *)
  openai_api_key : option string;
  (** the module-level [_CLIENT] is set *)
  client_created : bool;
  (** the model service: what the [n]-th request of the run is answered *)
  api_oracle : nat -> ChatRequest -> ApiOutcome;
  (** the requests sent to the model so far, oldest first *)
  api_log : list ChatRequest;
  (** the invocations of [generate_json_object] so far, oldest first *)
  generation_log : list GenerationCall;
  (** how many times the clock was read *)
  clock_reads : nat
}.

Notation M := (SE World).

Definition with_fs (w : World) (fs' : FileSystem) : World :=
  mkWorld fs' (openai_api_key w) (client_created w) (api_oracle w)
          (api_log w) (generation_log w) (clock_reads w).

(** Runs file-system code in the world. *)
Definition lift_fs {A} (m : FSM A) : M A :=
  fun w => let '(r, fs') := m (fs w) in (r, with_fs w fs').

(** Constants and library functions the pipeline takes from outside. *)
Class Environment := {
  (** [SYSTEM_PROMPT], the fixed instruction text (lines 19-62) *)
  SYSTEM_PROMPT : string;
  (** [_DEFAULT_TIMEOUT], read from [OPENAI_TIMEOUT_SECONDS] *)
  _DEFAULT_TIMEOUT : spec_float;
  (** [BASE_DIR] *)
  BASE_DIR : string;
  (** [json.loads]: the value, or the message of the [JSONDecodeError] *)
  json_loads : string -> string + JSON;
  (** [LoaderOutput.model_validate]: the model, or the error message *)
  model_validate : JSON -> string + LoaderOutput;
  (** the four readers of [text_extract.py] *)
  _extract_txt : FileSystem -> string -> Result string;
  _extract_docx : FileSystem -> string -> Result string;
  _extract_pdf : FileSystem -> string -> Result string;
  _extract_xlsx : FileSystem -> string -> Result string;
  (** [datetime.now(timezone.utc).isoformat()] at the [n]-th reading *)
  utc_isoformat : nat -> string
}.

Definition missing_key_error : Exception :=
  RuntimeError
    "OPENAI_API_KEY is not set. Set it in the environment or add it to a .env file.".

Definition get_openai_client : M unit :=
  fun w =>
    if client_created w then (Ok tt, w)
    else
      match openai_api_key w with
      | None | Some "" => (Raise missing_key_error, w)
      | Some _ =>
          (Ok tt, mkWorld (fs w) (openai_api_key w) true (api_oracle w)
                          (api_log w) (generation_log w) (clock_reads w))
      end.

(** [await client.chat.completions.create(...)] *)
Definition chat_completions_create (req : ChatRequest) : M ChatResponse :=
  fun w =>
    let w' := mkWorld (fs w) (openai_api_key w) (client_created w)
                      (api_oracle w) (api_log w ++ [req]) (generation_log w)
                      (clock_reads w) in
    match api_oracle w (length (api_log w)) req with
    | Returns r => (Ok r, w')
    | Throws e => (Raise e, w')
    end.

Definition log_generation (c : GenerationCall) : M unit :=
  fun w =>
    (Ok tt, mkWorld (fs w) (openai_api_key w) (client_created w)
                    (api_oracle w) (api_log w) (generation_log w ++ [c])
                    (clock_reads w)).

(** What the body of the [try] makes of a response (lines 65-67);
    [response.choices[0]] raises [IndexError] on an empty list. *)
Definition read_response (r : ChatResponse)
    : Result (string * option UsageDict) :=
  match choices r with
  | [] => Raise (IndexError "list index out of range")
  | content :: _ =>
      Ok (strip (default "" content), _usage_to_dict (usage r))
  end.

(** The three [except] clauses after the last attempt. *)
Definition exhausted_error (exc : Exception) : Exception :=
  match exc with
  | APITimeoutError _ =>
      HTTPException 504 "OpenAI request timed out." (Some exc)
  | OpenAIError _ =>
      HTTPException 502 ("OpenAI API error: " ++ exc_str exc) (Some exc)
  | _ => HTTPException 502 ("OpenAI call failed: " ++ exc_str exc) (Some exc)
  end.

(** [str(last_error)] *)
Definition str_of_last_error (e : option Exception) : string :=
  match e with Some exc => exc_str exc | None => "None" end.

(** The loop [for attempt in range(retries + 1)], with [remaining]
    iterations to go. *)
Fixpoint generate_attempts (req : ChatRequest) (retries attempt : Z)
    (remaining : nat) (last_error : option Exception)
    : M (string * option UsageDict) :=
  match remaining with
  | O =>
      raise (HTTPException 502
               ("OpenAI call failed: " ++ str_of_last_error last_error) None)
  | S remaining' =>
      try_except
        (response <- chat_completions_create req ;;
         lift_result (read_response response))
        (fun exc =>
           if attempt <? retries
           then generate_attempts req retries (attempt + 1) remaining' (Some exc)
           else raise (exhausted_error exc))
  end.

Definition generate_json_object `{Environment} (model system_prompt
    user_prompt : string) (retries : Z) (timeout : option spec_float)
    : M (string * option UsageDict) :=
  log_generation (mkGenerationCall model system_prompt user_prompt retries) ;;;
  get_openai_client ;;;
  let timeout :=
    match timeout with
    | Some t => if float_truthy t then t else _DEFAULT_TIMEOUT
    | None => _DEFAULT_TIMEOUT
    end in
  let req := mkRequest model 0 system_prompt user_prompt "json_object" timeout in
  generate_attempts req retries 0 (Z.to_nat (retries + 1)) None.

(** The request [generate_json_object] sends, and what its [k]-th attempt
    yields in world [w]: the oracle's answer to request number
    [length (api_log w) + k], read as the body of the [try] reads it. *)
Definition request_of `{Environment} (model system_prompt user_prompt : string)
    (timeout : option spec_float) : ChatRequest :=
  mkRequest model 0 system_prompt user_prompt "json_object"
    match timeout with
    | Some t => if float_truthy t then t else _DEFAULT_TIMEOUT
    | None => _DEFAULT_TIMEOUT
    end.

Definition attempt_outcome (w : World) (req : ChatRequest) (k : nat)
    : Result (string * option UsageDict) :=
  match api_oracle w (length (api_log w) + k)%nat req with
  | Returns r => read_response r
  | Throws e => Raise e
  end.

Definition failed {A} (r : Result A) : Prop :=
  match r with Raise _ => True | Ok _ => False end.

(** [w'] is [w] with [calls] more copies of [req] in the request log; the
    file system, the key, the service and the clock are as before. *)
Definition sent (w w' : World) (req : ChatRequest) (calls : nat) : Prop :=
  api_log w' = (api_log w ++ replicate calls req)%list
  /\ fs w' = fs w
  /\ openai_api_key w' = openai_api_key w
  /\ api_oracle w' = api_oracle w
  /\ clock_reads w' = clock_reads w.

(** The world in which the attempts of [generate_json_object] run: the
    call is logged and the client exists. *)
Definition entered (w : World) (c : GenerationCall) : World :=
  mkWorld (fs w) (openai_api_key w) true (api_oracle w) (api_log w)
          (generation_log w ++ [c]) (clock_reads w).

Definition client_available (w : World) : Prop :=
  client_created w = true
  \/ exists key, openai_api_key w = Some key /\ key <> "".

(** ** TextExtractor, as far as the dispatch on the suffix
    ([text_extract.py], lines 14-24) *)

Definition extract_text `{Environment} (fs0 : FileSystem) (file_path : string)
    : Result string :=
  let suffix := lower (path_suffix file_path) in
  if String.eqb suffix ".txt" then _extract_txt fs0 file_path
  else if String.eqb suffix ".docx" then _extract_docx fs0 file_path
  else if String.eqb suffix ".pdf" then _extract_pdf fs0 file_path
  else if String.eqb suffix ".xlsx" then _extract_xlsx fs0 file_path
  else Raise (TextExtractionError
                ("Unsupported file type for text extraction: "
                 ++ path_suffix file_path)).

(** ** Orchestrator ([loader_generator.py], lines 79-81 and 186-370) *)

Definition nl : string := String "010" "".

Definition _utc_now `{Environment} : M string :=
  fun w =>
    (Ok (utc_isoformat (clock_reads w)),
     mkWorld (fs w) (openai_api_key w) (client_created w) (api_oracle w)
             (api_log w) (generation_log w) (S (clock_reads w))).

Definition _build_user_prompt (agreement_filename agreement_text : string)
    (standards : list (string * string)) : string :=
  let standards_block :=
    map (fun p => "--- STANDARD FILE: " ++ fst p ++ " ---" ++ nl ++ snd p)
        standards in
  let standards_text := join (nl ++ nl) standards_block in
  "Agreement filename: " ++ agreement_filename ++ nl ++ nl
  ++ "Agreement text:" ++ nl ++ agreement_text ++ nl ++ nl
  ++ "Standard IOT texts (each labeled by filename):" ++ nl
  ++ standards_text ++ nl ++ nl
  ++ "Instruction:" ++ nl
  ++ "Generate loader mapping between agreement clauses and standard templates."
  ++ nl ++ "Return JSON matching the required schema exactly." ++ nl.

Definition _parse_and_validate_loader_json `{Environment} (raw : string)
    : Result LoaderOutput :=
  match json_loads raw with
  | inl exc => Raise (ValueError ("Invalid JSON: " ++ exc))
  | inr data =>
      match model_validate data with
      | inr loader => Ok loader
      | inl exc => Raise (ValueError ("JSON did not match schema: " ++ exc))
      end
  end.

(** The instruction that precedes the invalid output in the repair
    prompt. *)
Definition fix_instruction : string :=
  "The previous output was invalid JSON or did not match the required schema."
  ++ nl
  ++ "Return ONLY the corrected JSON object (no markdown, no commentary)."
  ++ nl ++ nl ++ "Previous output:" ++ nl.

Definition fix_prompt (raw_json : string) : string :=
  fix_instruction ++ raw_json ++ nl.

(** Lines 276-279: what becomes of [usage] after the repair call. *)
Definition merge_usage (usage usage2 : option UsageDict) : option UsageDict :=
  match usage, usage2 with
  | Some (u :: us), Some (v :: vs) =>
      Some [("first_call", JObject (u :: us)); ("retry_call", JObject (v :: vs))]
  | _, Some (v :: vs) => Some [("retry_call", JObject (v :: vs))]
  | _, _ => usage
  end.


Definition repair_failure (last_error first_error : string) (exc : Exception)
    : Exception :=
  HTTPException 502
    ("Model returned invalid JSON after retry. Last error: " ++ last_error
     ++ ". First error: " ++ first_error)
    (Some exc).

(** Lines 250-288: the generation call, the validation and the one repair
    round; returns the model, the text it was parsed from and the usage. *)
Definition obtain_loader `{Environment} (model user_prompt : string)
    : M (LoaderOutput * string * option UsageDict) :=
  first <- generate_json_object model SYSTEM_PROMPT user_prompt 2 None ;;
  let raw_json := fst first in
  let usage := snd first in
  match _parse_and_validate_loader_json raw_json with
  | Ok loader => ret (loader, raw_json, usage)
  | Raise (ValueError parse_error) =>
      second <- generate_json_object model SYSTEM_PROMPT (fix_prompt raw_json)
                  1 None ;;
      let raw_json2 := fst second in
      let usage2 := snd second in
      let usage := merge_usage usage usage2 in
      match _parse_and_validate_loader_json raw_json2 with
      | Ok loader => ret (loader, raw_json2, usage)
      | Raise (ValueError last_error as exc) =>
          raise (repair_failure last_error parse_error exc)
      | Raise exc => raise exc
      end
  | Raise exc => raise exc
  end.

(** [extract_text] with the [except TextExtractionError] of lines 231-241. *)
Definition extract_or_422 `{Environment} (p : string) : M string :=
  fun w =>
    match extract_text (fs w) p with
    | Ok text => (Ok text, w)
    | Raise (TextExtractionError msg as exc) =>
        (Raise (HTTPException 422 (exc_str exc) (Some exc)), w)
    | Raise exc => (Raise exc, w)
    end.

Fixpoint extract_standards `{Environment} (standard_paths : list string)
    (standards : list (string * string)) : M (list (string * string)) :=
  match standard_paths with
  | [] => ret standards
  | p :: rest =>
      text <- extract_or_422 p ;;
      extract_standards rest (standards ++ [(path_name p, text)])
  end.

(** Lines 229-248: the clock, the extraction and the budgeting. *)
Record Prepared := mkPrepared {
  prep_started_at : string;
  prep_agreement_text : string;
  prep_standards : list (string * string);
  prep_trunc_meta : TruncMeta
}.

Definition prepare_inputs `{Environment} (agreement_path : string)
    (standard_paths : list string) : M Prepared :=
  started_at <- _utc_now ;;
  agreement_text <- extract_or_422 agreement_path ;;
  standards <- extract_standards standard_paths [] ;;
  let budgeted := _truncate_inputs agreement_text standards in
  ret (mkPrepared started_at (fst (fst budgeted)) (snd (fst budgeted))
                  (snd budgeted)).

Definition user_prompt_of (agreement_path : string) (p : Prepared) : string :=
  _build_user_prompt (path_name agreement_path) (prep_agreement_text p)
    (prep_standards p).

(** What the first half of the run hands to the second. *)
Record Generated := mkGenerated {
  gen_started_at : string;
  gen_agreement_text : string;
  gen_standards : list (string * string);
  gen_trunc_meta : TruncMeta;
  gen_loader : LoaderOutput;
  gen_raw_json : string;
  gen_usage : option UsageDict
}.

Definition generated_from (p : Prepared)
    (validated : LoaderOutput * string * option UsageDict) : Generated :=
  mkGenerated (prep_started_at p) (prep_agreement_text p) (prep_standards p)
    (prep_trunc_meta p) (fst (fst validated)) (snd (fst validated))
    (snd validated).

(** Lines 229-288: extraction, budgeting, prompt, generation, validation. *)
Definition generate_and_validate `{Environment} (agreement_path : string)
    (standard_paths : list string) (model : string) : M Generated :=
  p <- prepare_inputs agreement_path standard_paths ;;
  validated <- obtain_loader model (user_prompt_of agreement_path p) ;;
  ret (generated_from p validated).

Record Summary := mkSummary {
  s_agreement_name : string;
  s_standards_used : list string;
  s_mappings_count : Z;
  s_missing_fields_count : Z;
  s_excel_files_count : Z
}.

Record GenerateLoaderResponse := mkLoaderResponse {
  output_dir : string;
  loader_json_path : string;
  loader_txt_path : option string;
  loader_excel_paths : list string;
  meta_json_path : string;
  summary : Summary
}.

Definition OUTPUT_DIR `{Environment} : string := path_join BASE_DIR "output".

(** [str(p.relative_to(base))] *)
Definition relative_to (base p : string) : Result string :=
  if String.eqb p base then Ok "."
  else
    match expect (base ++ "/") p with
    | Some rest => Ok rest
    | None => Raise (ValueError (p ++ " is not in the subpath of " ++ base))
    end.

Fixpoint relative_all (base : string) (paths : list string)
    : Result (list string) :=
  match paths with
  | [] => Ok []
  | p :: rest =>
      match relative_to base p with
      | Ok r =>
          match relative_all base rest with
          | Ok rs => Ok (r :: rs)
          | Raise e => Raise e
          end
      | Raise e => Raise e
      end
  end.

(** [str(p.relative_to(BASE_DIR)) if p.is_absolute() else str(p)] *)
Definition rel_or_self `{Environment} (p : string) : Result string :=
  if is_absolute p then relative_to BASE_DIR p else Ok p.

Fixpoint rel_or_self_all `{Environment} (paths : list string)
    : Result (list string) :=
  match paths with
  | [] => Ok []
  | p :: rest =>
      match rel_or_self p with
      | Ok r =>
          match rel_or_self_all rest with
          | Ok rs => Ok (r :: rs)
          | Raise e => Raise e
          end
      | Raise e => Raise e
      end
  end.

(** The loop of lines 311-315. *)
Fixpoint write_excel_files (template_source output_dir : string)
    (plans : list ExcelOutputPlan) (loader_excel_paths : list string)
    : FSM (list string) :=
  match plans with
  | [] => ret loader_excel_paths
  | plan :: rest =>
      let dest_path := path_div output_dir (filename plan) in
      _generate_excel_from_template template_source dest_path plan ;;;
      write_excel_files template_source output_dir rest
        (loader_excel_paths ++ [dest_path])
  end.

(** [{fn: len(txt) for fn, txt in standards}] *)
Definition standards_chars (standards : list (string * string))
    : gmap string Z :=
  foldl (fun m p => <[fst p := len (snd p)]> m) ∅ standards.

Definition no_excel_outputs : Exception :=
  HTTPException 422
    "No excel_outputs were returned; cannot generate loader Excel files." None.

Definition no_template : Exception :=
  HTTPException 400
    "No standard template available to generate Excel output." None.

(** Lines 290-370: the output directory, the artifacts, the journal and the
    manifest. *)
Definition write_artifacts `{Environment} (agreement_path : string)
    (standard_paths : list string) (agreement_id batch_id model : string)
    (g : Generated) : M GenerateLoaderResponse :=
  let loader := gen_loader g in
  match excel_outputs loader with
  | [] => raise no_excel_outputs
  | _ :: _ =>
      let agreement_base :=
        safe_agreement_base_name (path_name agreement_path) agreement_id in
      output_dir <- lift_fs (create_versioned_output_dir OUTPUT_DIR agreement_base) ;;
      let loader_json_path := path_join output_dir "loader.json" in
      let meta_json_path := path_join output_dir "meta.json" in
      data <- lift_result
                match json_loads (gen_raw_json g) with
                | inr data => Ok data
                | inl exc => Raise (ValueError exc)
                end ;;
      lift_fs (write_file loader_json_path (FJson data)) ;;;
      match standard_paths with
      | [] => raise no_template
      | template_source :: _ =>
          loader_excel_paths <-
            lift_fs (write_excel_files template_source output_dir
                       (excel_outputs loader) []) ;;
          finished_at <- _utc_now ;;
          j_dir <- lift_result (relative_to BASE_DIR output_dir) ;;
          j_json <- lift_result (relative_to BASE_DIR loader_json_path) ;;
          j_excel <- lift_result (relative_all BASE_DIR loader_excel_paths) ;;
          j_meta <- lift_result (relative_to BASE_DIR meta_json_path) ;;
          let meta :=
            mkJournal finished_at (gen_started_at g) agreement_id batch_id model
              (mkJournalInputs (path_name agreement_path)
                 (map path_name standard_paths) (gen_trunc_meta g)
                 (len (gen_agreement_text g))
                 (standards_chars (gen_standards g)))
              (gen_usage g)
              (mkJournalOutputs j_dir j_json None j_excel j_meta)
              (excel_outputs loader) in
          lift_fs (write_file meta_json_path (FJournal meta)) ;;;
          rel_output_dir <- lift_result (rel_or_self output_dir) ;;
          rel_loader_json <- lift_result (rel_or_self loader_json_path) ;;
          rel_meta_json <- lift_result (rel_or_self meta_json_path) ;;
          rel_loader_excel <- lift_result (rel_or_self_all loader_excel_paths) ;;
          let summary :=
            mkSummary (agreement_name loader) (standards_used loader)
              (Z.of_nat (length (mappings loader)))
              (Z.of_nat (length (missing_fields loader)))
              (Z.of_nat (length loader_excel_paths)) in
          ret (mkLoaderResponse rel_output_dir rel_loader_json None
                 rel_loader_excel rel_meta_json summary)
      end
  end.

Definition generate_loader_artifacts `{Environment} (agreement_path : string)
    (standard_paths : list string) (agreement_id batch_id model : string)
    : M GenerateLoaderResponse :=
  g <- generate_and_validate agreement_path standard_paths model ;;
  write_artifacts agreement_path standard_paths agreement_id batch_id model g.

(** *** Test data for the pipeline *)

Definition example_loader (plans : list ExcelOutputPlan) : LoaderOutput :=
  mkLoader "Agreement" ["template.xlsx"] [] [] "" plans.

(** A stand-in for the libraries: two texts parse and validate, one into a
    model with the plan of scenario C and one into a model without plans;
    text files and workbooks can be read. *)
Definition example_environment : Environment := {|
  SYSTEM_PROMPT := "You are the DISCOUNT IOT PROCESSING ENGINE.";
  _DEFAULT_TIMEOUT := S754_finite false 8444249301319680 (-47);
  BASE_DIR := "/srv";
  json_loads := fun raw =>
    if String.eqb raw "{one plan}" then inr (JObject [("plans", JInt 1)])
    else if String.eqb raw "{no plans}" then inr (JObject [("plans", JInt 0)])
    else inl "Expecting value: line 1 column 1 (char 0)";
  model_validate := fun data =>
    match data with
    | JObject [(_, JInt 1)] => inr (example_loader [scenario_C_plan])
    | JObject [(_, JInt 0)] => inr (example_loader [])
    | _ => inl "1 validation error for LoaderOutput"
    end;
  _extract_txt := fun fs0 p =>
    match files fs0 !! p with
    | Some (FOther text) => Ok text
    | _ => Raise (TextExtractionError
                    ("Failed to read text file: " ++ path_name p))
    end;
  _extract_docx := fun _ p =>
    Raise (TextExtractionError ("Failed to read DOCX file: " ++ path_name p));
  _extract_pdf := fun _ p =>
    Raise (TextExtractionError ("Failed to read PDF file: " ++ path_name p));
  _extract_xlsx := fun fs0 p =>
    match files fs0 !! p with
    | Some (FWorkbook _) => Ok "SMS MO 0.5 EUR"
    | _ => Raise (TextExtractionError
                    ("Failed to read XLSX file: " ++ path_name p))
    end;
  utc_isoformat := fun n => "2024-01-01T00:00:0" ++ str_of_Z (Z.of_nat n) ++ "+00:00"
|}.

Definition agreement_path_ex : string := "/srv/uploads/agreements/a1__Agreement.txt".

Definition example_fs : FileSystem :=
  mkFS {[ "/srv/output" ]}
       {[ agreement_path_ex := FOther "  agreement text ";
          template_path_ex := FWorkbook template_sheet ]}.

Definition usage_of (total : Z) : RawUsage :=
  UsageModel [("total_tokens", JInt total)].

(** A model service that answers the [n]-th request with the [n]-th entry
    of a script, and times out once the script is over. *)
Definition scripted (script : list ApiOutcome) (n : nat) (_ : ChatRequest)
    : ApiOutcome :=
  default (Throws (APITimeoutError "Request timed out.")) (script !! n).

Definition example_world (script : list ApiOutcome) : World :=
  mkWorld example_fs (Some "sk-test") false (scripted script) [] [] 0.

Definition answer (content : string) (total : Z) : ApiOutcome :=
  Returns (mkResponse [Some content] (usage_of total)).

(** *** What a computation leaves alone *)

(** [m] never changes the file system. *)
Definition keeps_fs {A} (m : M A) : Prop :=
  forall w, fs (snd (m w)) = fs w.

(** [m] never talks to the model: the logs, the service, the key and the
    client are as before. *)
Definition keeps_api {A} (m : M A) : Prop :=
  forall w,
    generation_log (snd (m w)) = generation_log w
    /\ api_log (snd (m w)) = api_log w
    /\ api_oracle (snd (m w)) = api_oracle w
    /\ openai_api_key (snd (m w)) = openai_api_key w
    /\ client_created (snd (m w)) = client_created w.


Definition no_plans_world : World :=
  example_world [answer "{no plans}" 10].

(** The value of a result, or [d] when it is an exception. *)
Definition ok_value {A} (d : A) (r : Result A) : A :=
  match r with Ok a => a | Raise _ => d end.

Definition no_prepared : Prepared :=
  mkPrepared "" "" [] (mkTruncMeta 0 0 false ∅).

Definition no_generated : Generated :=
  generated_from no_prepared (example_loader [], "", None).

(** *** Runs that differ only in the usage the model reports *)

(** An answer of the model with its usage removed. *)
Definition blind_outcome (o : ApiOutcome) : ApiOutcome :=
  match o with
  | Returns r => Returns (mkResponse (choices r) UsageNone)
  | Throws e => Throws e
  end.

Definition blind_journal (j : Journal) : Journal :=
  mkJournal (j_created_at j) (j_started_at j) (j_agreement_id j) (j_batch_id j)
            (j_model j) (j_inputs j) None (j_outputs j) (j_excel_plans j).

(** A file with the usage field of a journal removed. *)
Definition blind_file (f : File) : File :=
  match f with
  | FJournal j => FJournal (blind_journal j)
  | _ => f
  end.

Definition blind_generated (g : Generated) : Generated :=
  mkGenerated (gen_started_at g) (gen_agreement_text g) (gen_standards g)
              (gen_trunc_meta g) (gen_loader g) (gen_raw_json g) None.

(** Two worlds with the same key, client, logs and clock, whose model
    services give the same answers up to the usage. *)
Definition same_service (w1 w2 : World) : Prop :=
  openai_api_key w1 = openai_api_key w2
  /\ client_created w1 = client_created w2
  /\ api_log w1 = api_log w2
  /\ generation_log w1 = generation_log w2
  /\ clock_reads w1 = clock_reads w2
  /\ forall n req,
       blind_outcome (api_oracle w1 n req) = blind_outcome (api_oracle w2 n req).

Definition same_but_usage (w1 w2 : World) : Prop :=
  fs w1 = fs w2 /\ same_service w1 w2.

(** ... and whose files agree up to the usage field of the journals. *)
Definition same_but_journal_usage (w1 w2 : World) : Prop :=
  dirs (fs w1) = dirs (fs w2)
  /\ blind_file <$> files (fs w1) = blind_file <$> files (fs w2)
  /\ same_service w1 w2.

(** The same outcome, in worlds that agree up to the journals' usage. *)
Definition agree {A} (r1 r2 : Result A * World) : Prop :=
  fst r1 = fst r2 /\ same_but_journal_usage (snd r1) (snd r2).

(** [m] does the same in worlds that differ only in the reported usage. *)
Definition respects {A} (m : M A) : Prop :=
  forall w1 w2,
    same_but_usage w1 w2 ->
    fst (m w1) = fst (m w2) /\ same_but_usage (snd (m w1)) (snd (m w2)).

(** The same text or the same exception; the usage may differ. *)
Definition same_text (r1 r2 : Result (string * option UsageDict)) : Prop :=
  match r1, r2 with
  | Ok a1, Ok a2 => fst a1 = fst a2
  | Raise e1, Raise e2 => e1 = e2
  | _, _ => False
  end.

Definition same_validated
    (r1 r2 : Result (LoaderOutput * string * option UsageDict)) : Prop :=
  match r1, r2 with
  | Ok v1, Ok v2 => fst v1 = fst v2
  | Raise e1, Raise e2 => e1 = e2
  | _, _ => False
  end.

Definition same_generated (r1 r2 : Result Generated) : Prop :=
  match r1, r2 with
  | Ok g1, Ok g2 => blind_generated g1 = blind_generated g2
  | Raise e1, Raise e2 => e1 = e2
  | _, _ => False
  end.

(** Two services that give the same text and report different usage. *)
Definition frugal_world : World := example_world [answer "{one plan}" 10].
Definition lavish_world : World := example_world [answer "{one plan}" 99].

(** ** Further notions used in the statements below *)

(** The characters of a string, and its first and last one. *)
Definition chars (s : string) : list ascii := list_ascii_of_string s.

Definition first_char (s : string) : option ascii :=
  match s with "" => None | String c _ => Some c end.

Fixpoint last_char (s : string) : option ascii :=
  match s with
  | "" => None
  | String c "" => Some c
  | String _ r => last_char r
  end.

(** [sub in s] *)
Definition is_substring (sub s : string) : Prop :=
  exists before after, s = before ++ sub ++ after.

(** One labelled block of the user prompt. *)
Definition standard_block (p : string * string) : string :=
  "--- STANDARD FILE: " ++ fst p ++ " ---" ++ nl ++ snd p.

(** [output_dir / plan.filename], the destination of a plan's workbook. *)
Definition dest_of (output_dir : string) (plan : ExcelOutputPlan) : string :=
  path_join output_dir (filename plan).

(** The files after the workbooks of [plans] were written one after the
    other, each the sheet [ws0] populated for its plan. *)
Definition written_files (output_dir : string) (ws0 : Worksheet)
    (plans : list ExcelOutputPlan) (fm : gmap string File) : gmap string File :=
  foldl (fun fm plan =>
           <[dest_of output_dir plan := FWorkbook (populate_sheet ws0 plan)]> fm)
        fm plans.

(** [^\d{4}-\d{2}-\d{2}$], the shape the schema demands of [start_date] and
    [end_date] ([schemas.py], lines 43-44). *)
Definition iso_date (s : string) : Prop :=
  exists y m d,
    s = y ++ "-" ++ m ++ "-" ++ d
    /\ String.length y = 4%nat /\ all_chars is_digit y
    /\ String.length m = 2%nat /\ all_chars is_digit m
    /\ String.length d = 2%nat /\ all_chars is_digit d.

(** The file name the error message of line 101 asks for:
    [<ClientTADIG>_<PartnerTADIG>_<TIorTO>_<StartDateYYYYMMDD>_<EndDateYYYYMMDD>_D.xlsx]. *)
Definition expected_filename (client partner : string) (plan : ExcelOutputPlan)
    : string :=
  client ++ "_" ++ partner ++ "_" ++ direction_str (direction plan) ++ "_"
  ++ remove_char "-" (start_date plan) ++ "_"
  ++ remove_char "-" (end_date plan) ++ "_D.xlsx".

(** The plan of scenario C with an SMS-MT rate of one half: same file name,
    another sheet. *)
Definition scenario_C_plan_mt : ExcelOutputPlan :=
  scenario_plan "ABCD_WXYZ_TI_20240101_20241231_D.xlsx"
    (S754_finite false 4503599627370496 (-53)).

(** The world after the clock was read once more. *)
Definition clock_read (w : World) : World :=
  mkWorld (fs w) (openai_api_key w) (client_created w) (api_oracle w)
          (api_log w) (generation_log w) (S (clock_reads w)).

(** What every request of a run for [model] has in common. *)
Definition request_of_run `{Environment} (model : string) (req : ChatRequest)
    : Prop :=
  req_model req = model
  /\ req_temperature req = 0
  /\ req_system req = SYSTEM_PROMPT
  /\ req_response_format req = "json_object"
  /\ req_timeout req = _DEFAULT_TIMEOUT.

(** [m] sends at most [n] requests to the model, each of them with [P]. *)
Definition sends_at_most {A} (P : ChatRequest -> Prop) (n : nat) (m : M A)
    : Prop :=
  forall w, exists requests,
    api_log (snd (m w)) = (api_log w ++ requests)%list
    /\ (length requests <= n)%nat
    /\ Forall P requests.

(** Test data: what the first half of a run hands over when the model
    planned the workbook of scenario C, and a manifest of nothing. *)
Definition one_plan_generated : Generated :=
  generated_from no_prepared (example_loader [scenario_C_plan], "{one plan}", None).

Definition no_response : GenerateLoaderResponse :=
  mkLoaderResponse "" "" None [] "" (mkSummary "" [] 0 0 0).

(** ** Uploads ([files.py], lines 30-36 and 50-108) *)

(** [s.replace(a, b)] for one-character [a] and [b]. *)
Fixpoint replace_char (a b : ascii) (s : string) : string :=
  match s with
  | "" => ""
  | String c r =>
      String (if Ascii.eqb c a then b else c) (replace_char a b r)
  end.

(** [re.sub(r"[^A-Za-z0-9._-]+", "", s)] *)
Fixpoint drop_unsafe (s : string) : string :=
  match s with
  | "" => ""
  | String c r =>
      if is_safe_char c then String c (drop_unsafe r) else drop_unsafe r
  end.

(** [sanitize_filename]; [fresh_hex] is the [uuid.uuid4().hex] drawn when
    nothing usable is left of the name. *)
Definition sanitize_filename (fresh_hex filename : string) : string :=
  let name := pathlib_name filename in
  let name := replace_char " " "_" name in
  let name := drop_unsafe name in
  if String.eqb name "" || String.eqb name "." || String.eqb name ".."
  then "file_" ++ fresh_hex ++ ".bin"
  else slice_to name 180.

(** [sorted(ALLOWED_EXTENSIONS)]; the set is used for membership and for
    this listing only. *)
Definition ALLOWED_EXTENSIONS : list string := [".docx"; ".pdf"; ".txt"; ".xlsx"].

Definition MAX_UPLOAD_BYTES : Z := 15 * 1024 * 1024.

Definition validate_extension (filename : string) : Result string :=
  let suffix := lower (name_suffix (pathlib_name filename)) in
  if existsb (String.eqb suffix) ALLOWED_EXTENSIONS then Ok suffix
  else Raise (HTTPException 400
                ("Unsupported file type '" ++ suffix ++ "'. Allowed: "
                 ++ join ", " ALLOWED_EXTENSIONS)
                None).

(** An upload: its file name, and what the successive
    [read(CHUNK_SIZE)] calls return; once the list is over, [read] returns
    the empty chunk.  Reading does not fail, and closing the upload does
    nothing to the file system. *)
Record UploadFile := mkUpload {
  upload_filename : option string;
  upload_reads : list string
}.

Definition too_large (max_bytes : Z) : Exception :=
  HTTPException 413
    ("File too large. Max allowed is " ++ str_of_Z max_bytes ++ " bytes.") None.

(** The loop of lines 80-90: the size counted and the bytes written when
    the loop ends, by the empty chunk or by the 413 error. *)
Fixpoint receive (reads : list string) (max_bytes size : Z) (written : string)
    : Result Z * string :=
  match reads with
  | [] => (Ok size, written)
  | chunk :: rest =>
      if String.eqb chunk "" then (Ok size, written)
      else
        let size := size + len chunk in
        if max_bytes <? size then (Raise (too_large max_bytes), written)
        else receive rest max_bytes size (written ++ chunk)
  end.

(** [p.open("wb")]: the file is created or emptied. *)
Definition open_wb (p : string) : FSM unit :=
  fs0 <- get_fs ;;
  if bool_decide (p ∈ dirs fs0) then raise (IsADirectoryError p)
  else put_fs (mkFS (dirs fs0) (<[p := FOther ""]> (files fs0))).

(** Leaving the [with] block: the bytes written are in the file. *)
Definition close_file (p content : string) : FSM unit :=
  fs0 <- get_fs ;;
  put_fs (mkFS (dirs fs0) (<[p := FOther content]> (files fs0))).

(** [p.unlink(missing_ok=True)] *)
Definition unlink_missing_ok (p : string) : FSM unit :=
  fs0 <- get_fs ;;
  if bool_decide (p ∈ dirs fs0) then raise (IsADirectoryError p)
  else put_fs (mkFS (dirs fs0) (delete p (files fs0))).

(** [if p.exists(): p.unlink(missing_ok=True)] *)
Definition unlink_if_exists (p : string) : FSM unit :=
  fs0 <- get_fs ;;
  if path_exists fs0 p then unlink_missing_ok p else ret tt.

Definition missing_filename : Exception :=
  HTTPException 400 "Uploaded file must have a filename." None.

Definition empty_upload : Exception :=
  HTTPException 400 "Uploaded file is empty." None.

(** [id_prefix or uuid.uuid4().hex[:10]] *)
Definition unique_prefix_of (prefix_hex : string) (id_prefix : option string)
    : string :=
  match id_prefix with
  | Some (String c r) => String c r
  | _ => slice_to prefix_hex 10
  end.

(** [f"{unique_prefix}__{safe_name}"] *)
Definition stored_name_of (name_hex prefix_hex filename : string)
    (id_prefix : option string) : string :=
  unique_prefix_of prefix_hex id_prefix ++ "__"
  ++ sanitize_filename name_hex filename.

(** [save_multipart_upload]; [name_hex] and [prefix_hex] are the two
    [uuid4().hex] values the call may draw. *)
Definition save_multipart_upload (name_hex prefix_hex : string)
    (upload_file : UploadFile) (dest_dir : string) (id_prefix : option string)
    (max_bytes : Z) : FSM string :=
  match upload_filename upload_file with
  | None | Some "" => raise missing_filename
  | Some filename =>
      _ <- lift_result (validate_extension filename) ;;
      ensure_dir dest_dir ;;;
      let stored_name := stored_name_of name_hex prefix_hex filename id_prefix in
      let dest_path := path_div dest_dir stored_name in
      size <- try_except
                (open_wb dest_path ;;;
                 let received := receive (upload_reads upload_file) max_bytes 0 "" in
                 close_file dest_path (snd received) ;;;
                 lift_result (fst received))
                (fun exc =>
                   unlink_if_exists dest_path ;;;
                   match exc with
                   | HTTPException _ _ _ => raise exc
                   | _ =>
                       raise (HTTPException 500
                                ("Failed to store upload: " ++ exc_str exc)
                                (Some exc))
                   end) ;;
      if size =? 0
      then unlink_missing_ok dest_path ;;; raise empty_upload
      else ret stored_name
  end.


(** [uuid.uuid4().hex]: thirty-two hexadecimal digits. *)
Definition is_hex_digit (c : ascii) : bool :=
  in_range "0" "9" c || in_range "a" "f" c.

Definition uuid_hex (h : string) : Prop :=
  String.length h = 32%nat /\ all_chars is_hex_digit h.

(** The reader [extract_text] hands a file with this lowered suffix to. *)
Definition reader_for `{Environment} (suffix : string)
    : option (FileSystem -> string -> Result string) :=
  if String.eqb suffix ".txt" then Some _extract_txt
  else if String.eqb suffix ".docx" then Some _extract_docx
  else if String.eqb suffix ".pdf" then Some _extract_pdf
  else if String.eqb suffix ".xlsx" then Some _extract_xlsx
  else None.
(** Scenario A of the specification: short inputs come back unmodified. *)
Example scenario_A :
  _truncate_inputs "  agreement text " [("std.txt", "standard text")]
  = ("agreement text", [("std.txt", "standard text")],
     mkTruncMeta 60000 220000 false {[ "std.txt" := false ]}).
Proof. vm_compute. reflexivity. Qed.

(** ** Facts about Python strings *)

Section PyStrFacts.

Lemma len_nonneg s : 0 <= len s.
Proof. unfold len. lia. Qed.

Lemma take_length n s : String.length (take n s) = Nat.min n (String.length s).
Proof.
  revert s. induction n as [|n IH]; intros [|c s]; simpl; try reflexivity.
  now rewrite IH.
Qed.

Lemma take_all n s : (String.length s <= n)%nat -> take n s = s.
Proof.
  revert s. induction n as [|n IH]; intros [|c s]; simpl; intros H;
    try reflexivity; try lia.
  rewrite IH; [reflexivity | lia].
Qed.

Lemma take_take n m s : take n (take m s) = take (Nat.min n m) s.
Proof.
  revert m s. induction n as [|n IH]; intros [|m] [|c s]; simpl;
    try reflexivity.
  now rewrite IH.
Qed.

Lemma append_nil_l (s : string) : "" ++ s = s.
Proof. reflexivity. Qed.

Lemma append_cons c (s t : string) : String c s ++ t = String c (s ++ t).
Proof. reflexivity. Qed.

Lemma take_is_prefix n s : is_prefix (take n s) s.
Proof.
  revert s. induction n as [|n IH]; intros s.
  - exists s. reflexivity.
  - destruct s as [|c s]; simpl.
    + exists "". reflexivity.
    + destruct (IH s) as [t Ht]. exists t.
      rewrite append_cons. f_equal. exact Ht.
Qed.

Lemma append_nil_r (s : string) : s ++ "" = s.
Proof.
  induction s as [|c s IH]; [reflexivity|].
  rewrite append_cons. f_equal. exact IH.
Qed.

Lemma is_prefix_refl s : is_prefix s s.
Proof. exists "". symmetry. apply append_nil_r. Qed.

Lemma append_assoc (a b c : string) : (a ++ b) ++ c = a ++ (b ++ c).
Proof.
  induction a as [|x a IH]; [reflexivity|].
  rewrite !append_cons. f_equal. exact IH.
Qed.

Lemma is_prefix_trans a b c : is_prefix a b -> is_prefix b c -> is_prefix a c.
Proof.
  intros [t ->] [u ->]. exists (t ++ u). apply append_assoc.
Qed.

Lemma len_append (a b : string) : len (a ++ b) = len a + len b.
Proof.
  unfold len. induction a as [|c a IH].
  - rewrite append_nil_l. simpl. lia.
  - rewrite append_cons. simpl String.length. lia.
Qed.

Lemma len_take n s : len (take n s) = Z.min (Z.of_nat n) (len s).
Proof. unfold len. rewrite take_length. lia. Qed.

Lemma slice_to_take s limit :
  0 <= limit -> slice_to s limit = take (Z.to_nat limit) s.
Proof.
  intros H. unfold slice_to. destruct (Z.ltb_spec limit 0); [lia | reflexivity].
Qed.

Lemma slice_to_is_prefix s limit : is_prefix (slice_to s limit) s.
Proof. unfold slice_to. destruct (limit <? 0); apply take_is_prefix. Qed.

End PyStrFacts.

(** ** Facts about [_truncate] *)

Lemma _truncate_fst text limit :
  0 <= limit -> fst (_truncate text limit) = take (Z.to_nat limit) text.
Proof.
  intros H. unfold _truncate. destruct (Z.leb_spec (len text) limit); simpl.
  - symmetry. apply take_all. unfold len in *. lia.
  - now apply slice_to_take.
Qed.

Lemma _truncate_snd text limit :
  snd (_truncate text limit) = (limit <? len text).
Proof.
  unfold _truncate.
  destruct (Z.leb_spec (len text) limit), (Z.ltb_spec limit (len text));
    simpl; auto; lia.
Qed.

Lemma _truncate_len text limit :
  0 <= limit -> len (fst (_truncate text limit)) <= limit.
Proof.
  intros H. rewrite _truncate_fst by assumption. rewrite len_take. lia.
Qed.

Lemma _truncate_is_prefix text limit :
  is_prefix (fst (_truncate text limit)) text.
Proof.
  unfold _truncate. destruct (len text <=? limit); simpl.
  - apply is_prefix_refl.
  - apply slice_to_is_prefix.
Qed.

Lemma _truncate_fits text limit :
  len text <= limit -> _truncate text limit = (text, false).
Proof.
  intros H. unfold _truncate. destruct (Z.leb_spec (len text) limit);
    [reflexivity | lia].
Qed.


Lemma per_file_capped_truncate text :
  _truncate (_normalize_text text) MAX_CHARS_PER_FILE
  = (per_file_capped text, per_file_cut text).
Proof.
  rewrite (surjective_pairing (_truncate _ _)).
  rewrite _truncate_fst, _truncate_snd by (unfold MAX_CHARS_PER_FILE; lia).
  reflexivity.
Qed.

Lemma per_file_capped_len text : len (per_file_capped text) <= MAX_CHARS_PER_FILE.
Proof.
  unfold per_file_capped. rewrite len_take. unfold MAX_CHARS_PER_FILE. lia.
Qed.

Lemma per_file_capped_is_prefix text :
  is_prefix (per_file_capped text) (_normalize_text text).
Proof. apply take_is_prefix. Qed.

(** ** The two loops of the budgeter *)

Lemma cap_standards_snd standards flags normalized :
  snd (cap_standards standards flags normalized)
  = (normalized ++ map cap_entry standards)%list.
Proof.
  revert flags normalized.
  induction standards as [|[filename text] rest IH]; intros flags normalized;
    simpl.
  - now rewrite app_nil_r.
  - rewrite per_file_capped_truncate. rewrite IH. now rewrite <- app_assoc.
Qed.

Lemma cap_standards_flags_other standards flags normalized name :
  name ∉ map fst standards ->
  fst (cap_standards standards flags normalized) !! name = flags !! name.
Proof.
  revert flags normalized.
  induction standards as [|[filename text] rest IH]; intros flags normalized Hn;
    simpl in *; [reflexivity|].
  rewrite per_file_capped_truncate.
  apply not_elem_of_cons in Hn as [Hne Hn].
  rewrite IH by assumption. now apply lookup_insert_ne.
Qed.

(** The flag stored under a name is that of the last standard of that
    name. *)
Lemma cap_standards_flags standards flags normalized i name text :
  standards !! i = Some (name, text) ->
  name ∉ map fst (drop (S i) standards) ->
  fst (cap_standards standards flags normalized) !! name
  = Some (per_file_cut text).
Proof.
  revert flags normalized i.
  induction standards as [|[filename t] rest IH]; intros flags normalized i Hi Hlater.
  - discriminate.
  - simpl. rewrite per_file_capped_truncate. destruct i as [|i]; simpl in *.
    + injection Hi as -> ->.
      rewrite cap_standards_flags_other by assumption.
      apply lookup_insert_eq.
    + eapply IH; eassumption.
Qed.

Lemma cap_standards_keys standards flags normalized name :
  name ∈ map fst standards ->
  is_Some (fst (cap_standards standards flags normalized) !! name).
Proof.
  revert flags normalized.
  induction standards as [|[filename t] rest IH]; intros flags normalized Hn;
    simpl in *.
  - inversion Hn.
  - rewrite per_file_capped_truncate.
    destruct (decide (name ∈ map fst rest)) as [Hin|Hnin].
    + now apply IH.
    + rewrite cap_standards_flags_other by assumption.
      apply elem_of_cons in Hn as [->|Hn]; [|contradiction].
      rewrite lookup_insert_eq. eauto.
Qed.

Lemma cap_standards_dom standards flags normalized :
  dom (fst (cap_standards standards flags normalized))
  = dom flags ∪ list_to_set (map fst standards).
Proof.
  revert flags normalized.
  induction standards as [|[filename t] rest IH]; intros flags normalized;
    simpl.
  - set_solver.
  - rewrite per_file_capped_truncate, IH, dom_insert_L. set_solver.
Qed.


Lemma retruncate_standards_snd budget normalized flags final :
  snd (retruncate_standards budget normalized flags final)
  = (final ++ map (cut_entry budget) normalized)%list.
Proof.
  revert flags final.
  induction normalized as [|[filename text] rest IH]; intros flags final; simpl.
  - now rewrite app_nil_r.
  - rewrite (surjective_pairing (_truncate text budget)).
    rewrite IH. now rewrite <- app_assoc.
Qed.

Lemma retruncate_standards_dom budget normalized flags final :
  dom (fst (retruncate_standards budget normalized flags final))
  = dom flags ∪ list_to_set (map fst normalized).
Proof.
  revert flags final.
  induction normalized as [|[filename text] rest IH]; intros flags final; simpl.
  - set_solver.
  - rewrite (surjective_pairing (_truncate text budget)).
    rewrite IH, dom_insert_L. set_solver.
Qed.

Lemma sum_len_app (l1 l2 : list (string * string)) :
  sum_len (l1 ++ l2) = sum_len l1 + sum_len l2.
Proof.
  unfold sum_len. induction l1 as [|p l1 IH]; simpl; [lia|].
  rewrite IH. lia.
Qed.

Lemma sum_len_cut_entry budget (l : list (string * string)) :
  0 <= budget ->
  sum_len (map (cut_entry budget) l) <= Z.of_nat (length l) * budget.
Proof.
  intros Hb. induction l as [|p l IH]; [simpl; lia|].
  change (sum_len (map (cut_entry budget) (p :: l)))
    with (len (fst (_truncate (snd p) budget))
          + sum_len (map (cut_entry budget) l)).
  pose proof (_truncate_len (snd p) budget Hb).
  rewrite length_cons, Nat2Z.inj_succ. lia.
Qed.

(** [_truncate_inputs] with its two loops replaced by their closed forms. *)
Lemma _truncate_inputs_unfold agreement_text standards :
  _truncate_inputs agreement_text standards =
  let a := per_file_capped agreement_text in
  let normalized := map cap_entry standards in
  let flags := fst (cap_standards standards ∅ []) in
  let meta := mkTruncMeta MAX_CHARS_PER_FILE MAX_TOTAL_CHARS
                (per_file_cut agreement_text) in
  if (capped_total agreement_text standards <=? MAX_TOTAL_CHARS)
     || bool_decide (standards = [])
  then (a, normalized, meta flags)
  else
    let budget :=
      Z.max 5000 (Z.max 0 (MAX_TOTAL_CHARS - len a)
                  / Z.of_nat (length standards)) in
    (a, map (cut_entry budget) normalized,
     meta (fst (retruncate_standards budget normalized flags []))).
Proof.
  unfold _truncate_inputs. rewrite per_file_capped_truncate.
  rewrite (surjective_pairing (cap_standards standards ∅ [])).
  rewrite cap_standards_snd. simpl app.
  fold (capped_total agreement_text standards).
  assert (Hnil : bool_decide (map cap_entry standards = [])
                 = bool_decide (standards = [])).
  { destruct standards; reflexivity. }
  rewrite Hnil. cbv zeta.
  destruct ((capped_total agreement_text standards <=? MAX_TOTAL_CHARS)
            || bool_decide (standards = [])); [reflexivity|].
  rewrite (surjective_pairing (retruncate_standards _ _ _ _)).
  rewrite retruncate_standards_snd, length_map. reflexivity.
Qed.

(** ** Properties of the budgeter *)

(** C7. When the per-file-capped texts fit the total ceiling, or when there
    is no standard, the budgeter returns exactly the normalised texts cut
    at the per-file ceiling of 60,000 characters, and every truncation flag
    is the per-file one: the agreement's flag, and under each file name the
    flag of the (last) standard stored under that name. *)
Theorem budgeter_per_file_cap_only agreement_text standards :
  capped_total agreement_text standards <= MAX_TOTAL_CHARS \/ standards = [] ->
  exists meta,
    _truncate_inputs agreement_text standards
    = (per_file_capped agreement_text, map cap_entry standards, meta)
    /\ max_chars_per_file meta = 60000
    /\ max_total_chars meta = 220000
    /\ truncated_agreement meta = per_file_cut agreement_text
    /\ dom (truncated_standards meta) = list_to_set (map fst standards)
    /\ forall i name text,
         standards !! i = Some (name, text) ->
         name ∉ map fst (drop (S i) standards) ->
         truncated_standards meta !! name = Some (per_file_cut text).
Proof.
  intros Hfit. rewrite _truncate_inputs_unfold. cbv zeta.
  assert (Hc : (capped_total agreement_text standards <=? MAX_TOTAL_CHARS)
               || bool_decide (standards = []) = true).
  { destruct Hfit as [Hle | ->].
    - apply Z.leb_le in Hle. now rewrite Hle.
    - rewrite bool_decide_eq_true_2 by reflexivity. apply orb_true_r. }
  rewrite Hc. eexists. split; [reflexivity|]. simpl.
  repeat split.
  - rewrite cap_standards_dom. set_solver.
  - intros i name text Hi Hlast. eapply cap_standards_flags; eassumption.
Qed.

Lemma budgeter_per_file_cap_only_witness :
  capped_total "  agreement text " [("std.txt", "standard text")]
    <= MAX_TOTAL_CHARS
  /\ exists meta,
       _truncate_inputs "  agreement text " [("std.txt", "standard text")]
       = ("agreement text", [("std.txt", "standard text")], meta)
       /\ truncated_standards meta !! "std.txt" = Some false.
Proof.
  assert (H : capped_total "  agreement text " [("std.txt", "standard text")]
              <= MAX_TOTAL_CHARS) by (vm_compute; discriminate).
  split; [exact H|].
  destruct (budgeter_per_file_cap_only
              "  agreement text " [("std.txt", "standard text")] (or_introl H))
    as (meta & Heq & _ & _ & _ & _ & Hflags).
  exists meta. split; [exact Heq|].
  apply (Hflags 0%nat "std.txt" "standard text"); [reflexivity|].
  simpl. apply not_elem_of_nil.
Defined.

(** C10. Every text the budgeter returns is an initial segment of its
    normalised input and has at most 60,000 characters, whether or not the
    second (proportional) cut runs; the agreement text is always its
    per-file-capped form, and the standards come back under the same names
    in the same order, each an initial segment of its per-file-capped
    text. *)
Theorem budgeter_outputs_are_bounded_prefixes agreement_text standards :
  let out := _truncate_inputs agreement_text standards in
  fst (fst out)
    = fst (_truncate (_normalize_text agreement_text) MAX_CHARS_PER_FILE)
  /\ is_prefix (fst (fst out)) (_normalize_text agreement_text)
  /\ len (fst (fst out)) <= 60000
  /\ Forall2 (fun inp res =>
                fst res = fst inp
                /\ is_prefix (snd res) (per_file_capped (snd inp))
                /\ is_prefix (snd res) (_normalize_text (snd inp))
                /\ len (snd res) <= 60000)
             standards (snd (fst out)).
Proof.
  cbv zeta. rewrite _truncate_inputs_unfold. cbv zeta.
  rewrite per_file_capped_truncate.
  destruct ((capped_total agreement_text standards <=? MAX_TOTAL_CHARS)
            || bool_decide (standards = [])); simpl.
  - repeat split.
    + apply per_file_capped_is_prefix.
    + apply per_file_capped_len.
    + induction standards as [|[name text] rest IH]; constructor; [|exact IH].
      simpl. repeat split.
      * apply is_prefix_refl.
      * apply per_file_capped_is_prefix.
      * apply per_file_capped_len.
  - repeat split.
    + apply per_file_capped_is_prefix.
    + apply per_file_capped_len.
    + generalize (Z.max 5000 (Z.max 0 (MAX_TOTAL_CHARS
                    - len (per_file_capped agreement_text))
                    / Z.of_nat (length standards))) as budget.
      intros budget.
      induction standards as [|[name text] rest IH]; constructor; [|exact IH].
      simpl.
      pose proof (_truncate_is_prefix (per_file_capped text) budget) as Hp.
      repeat split.
      * exact Hp.
      * eapply is_prefix_trans; [exact Hp | apply per_file_capped_is_prefix].
      * destruct Hp as [t Ht].
        pose proof (per_file_capped_len text) as Hl. rewrite Ht in Hl.
        rewrite len_append in Hl. pose proof (len_nonneg t).
        unfold MAX_CHARS_PER_FILE in Hl. lia.
Qed.

(** C2, as stated, fails: with an empty agreement and 45 standards of 5,000
    characters each the capped texts total 225,000 > 220,000, the shared
    budget is [max(5000, 220000 // 45) = 5000], nothing is cut, and the
    budgeted corpus still has 225,000 characters. *)
Lemma budget_ceiling_exceeded :
  let standards := filler_standards 45 5000 in
  standards <> []
  /\ MAX_TOTAL_CHARS < capped_total "" standards
  /\ budgeted_total (_truncate_inputs "" standards) = 225000
  /\ ~ budgeted_total (_truncate_inputs "" standards) <= MAX_TOTAL_CHARS.
Proof.
  cbv zeta. split; [discriminate|].
  split; [vm_compute; reflexivity|].
  assert (H : budgeted_total (_truncate_inputs "" (filler_standards 45 5000))
              = 225000) by (vm_compute; reflexivity).
  split; [exact H|]. rewrite H. unfold MAX_TOTAL_CHARS. lia.
Qed.

(** The bound the second loop does give: the standards together take at
    most [n * max(5000, (220000 - len(agreement)) // n)] characters. *)
Lemma budgeted_total_bound agreement_text standards :
  standards <> [] ->
  MAX_TOTAL_CHARS < capped_total agreement_text standards ->
  budgeted_total (_truncate_inputs agreement_text standards)
  <= len (per_file_capped agreement_text)
     + Z.of_nat (length standards)
       * Z.max 5000 ((MAX_TOTAL_CHARS - len (per_file_capped agreement_text))
                     / Z.of_nat (length standards)).
Proof.
  intros Hne Hover. rewrite _truncate_inputs_unfold. cbv zeta.
  apply Z.leb_gt in Hover. rewrite Hover.
  rewrite bool_decide_eq_false_2 by assumption. simpl orb. cbv iota.
  unfold budgeted_total. simpl fst. simpl snd.
  pose proof (per_file_capped_len agreement_text) as Hl.
  rewrite (Z.max_r 0 (MAX_TOTAL_CHARS - len (per_file_capped agreement_text)))
    by (unfold MAX_TOTAL_CHARS, MAX_CHARS_PER_FILE in *; lia).
  set (budget := Z.max 5000 _).
  pose proof (sum_len_cut_entry budget (map cap_entry standards)) as Hs.
  rewrite length_map in Hs. specialize (Hs ltac:(lia)). lia.
Qed.

(** C2, amended. For a non-empty list of standards whose capped texts
    exceed the total ceiling, the budgeted corpus has at most 220,000
    characters provided the floor of 5,000 characters per standard fits the
    budget left by the agreement: [5000 * n <= 220000 - len(agreement)].
    (As the agreement has at most 60,000 characters, up to 32 standards
    always qualify.) *)
Theorem budget_ceiling_when_floor_fits agreement_text standards :
  standards <> [] ->
  MAX_TOTAL_CHARS < capped_total agreement_text standards ->
  5000 * Z.of_nat (length standards)
    <= MAX_TOTAL_CHARS - len (per_file_capped agreement_text) ->
  budgeted_total (_truncate_inputs agreement_text standards) <= 220000.
Proof.
  intros Hne Hover Hfloor.
  pose proof (budgeted_total_bound agreement_text standards Hne Hover) as Hb.
  assert (Hn : 0 < Z.of_nat (length standards)).
  { destruct standards; [congruence | simpl; lia]. }
  set (n := Z.of_nat (length standards)) in *.
  set (r := MAX_TOTAL_CHARS - len (per_file_capped agreement_text)) in *.
  assert (Hq : 5000 <= r / n) by (apply Z.div_le_lower_bound; lia).
  rewrite Z.max_r in Hb by assumption.
  pose proof (Z.mul_div_le r n Hn). unfold r, MAX_TOTAL_CHARS in *. lia.
Qed.

Lemma budget_ceiling_when_floor_fits_witness :
  let agreement_text := filler 60000 in
  let standards := filler_standards 3 60000 in
  MAX_TOTAL_CHARS < capped_total agreement_text standards
  /\ budgeted_total (_truncate_inputs agreement_text standards) <= 220000.
Proof.
  cbv zeta.
  assert (Hover : MAX_TOTAL_CHARS
                  < capped_total (filler 60000) (filler_standards 3 60000))
    by (vm_compute; reflexivity).
  split; [exact Hover|].
  apply (budget_ceiling_when_floor_fits
           (filler 60000) (filler_standards 3 60000)).
  - discriminate.
  - exact Hover.
  - vm_compute. discriminate.
Defined.

(** ** The file-name pattern *)

Lemma expect_spec lit s r : expect lit s = Some r <-> s = lit ++ r.
Proof.
  revert s. induction lit as [|a lit IH]; intros s; simpl.
  - rewrite append_nil_l. split; congruence.
  - destruct s as [|b s].
    + split; [discriminate|]. rewrite append_cons. discriminate.
    + rewrite append_cons. destruct (Ascii.eqb_spec a b) as [->|Hne].
      * rewrite IH. split; [congruence|]. intros [= ->]. reflexivity.
      * split; [discriminate|]. intros [= <- _]. contradiction.
Qed.

Lemma all_chars_nil p : all_chars p "".
Proof. constructor. Qed.

Lemma all_chars_cons p c s :
  all_chars p (String c s) <-> p c = true /\ all_chars p s.
Proof.
  unfold all_chars. simpl. split.
  - intros H. inversion H; subst. auto.
  - intros [Hc Hs]. constructor; assumption.
Qed.

Lemma span_spec p s a b :
  span p s = (a, b) ->
  s = a ++ b /\ all_chars p a
  /\ match b with "" => True | String c _ => p c = false end.
Proof.
  revert a b. induction s as [|c s IH]; intros a b; simpl.
  - intros [= <- <-]. repeat split. apply all_chars_nil.
  - destruct (p c) eqn:Hc.
    + destruct (span p s) as [a' b'] eqn:Hs. intros [= <- <-].
      destruct (IH a' b' eq_refl) as (-> & Ha & Hb).
      rewrite append_cons. repeat split; [|exact Hb].
      apply all_chars_cons. auto.
    + intros [= <- <-]. rewrite append_nil_l. repeat split.
      * apply all_chars_nil.
      * exact Hc.
Qed.

Lemma span_complete p a b :
  all_chars p a ->
  match b with "" => True | String c _ => p c = false end ->
  span p (a ++ b) = (a, b).
Proof.
  intros Ha Hb. induction a as [|c a IH].
  - rewrite append_nil_l. destruct b as [|c b]; simpl; [reflexivity|].
    now rewrite Hb.
  - apply all_chars_cons in Ha as [Hc Ha]. rewrite append_cons. simpl.
    rewrite Hc, (IH Ha). reflexivity.
Qed.

Lemma digits_spec n s a b :
  digits n s = Some (a, b) <->
  s = a ++ b /\ String.length a = n /\ all_chars is_digit a.
Proof.
  revert s a b. induction n as [|n IH]; intros s a b.
  - simpl. split.
    + destruct s; intros [= <- <-]; repeat split; apply all_chars_nil.
    + intros (-> & Hl & _). destruct a; [|discriminate].
      rewrite append_nil_l. now destruct b.
  - destruct s as [|c s]; simpl.
    + split; [discriminate|]. intros (Hs & Hl & _).
      destruct a; [discriminate|]. rewrite append_cons in Hs. discriminate.
    + destruct (is_digit c) eqn:Hc.
      * destruct (digits n s) as [[a' b']|] eqn:Hd; simpl.
        -- apply IH in Hd as (-> & Hl & Ha). split.
           ++ intros [= <- <-]. rewrite append_cons. simpl.
              repeat split; [congruence|]. apply all_chars_cons. auto.
           ++ intros (Hs & Hl' & Ha'). destruct a as [|x a]; [discriminate|].
              rewrite append_cons in Hs. injection Hs as <- Hs.
              apply all_chars_cons in Ha' as [_ Ha'].
              assert (Hd : digits n (a' ++ b') = Some (a, b)).
              { apply IH. repeat split; [exact Hs | simpl in Hl'; lia | exact Ha']. }
              assert (Hd' : digits n (a' ++ b') = Some (a', b')).
              { apply IH. auto. }
              congruence.
        -- split; [discriminate|]. intros (Hs & Hl' & Ha').
           destruct a as [|x a]; [discriminate|].
           rewrite append_cons in Hs. injection Hs as <- Hs.
           apply all_chars_cons in Ha' as [_ Ha'].
           assert (Hd' : digits n s = Some (a, b)).
           { apply IH. repeat split; [exact Hs | simpl in Hl'; lia | exact Ha']. }
           congruence.
      * split; [discriminate|]. intros (Hs & Hl' & Ha').
        destruct a as [|x a]; [discriminate|].
        rewrite append_cons in Hs. injection Hs as <- Hs.
        apply all_chars_cons in Ha' as [Hx _]. congruence.
Qed.

Lemma alnum_run_spec s a b :
  alnum_run s = Some (a, b) ->
  s = a ++ b /\ a <> "" /\ all_chars is_alnum a.
Proof.
  unfold alnum_run. destruct (span is_alnum s) as [a' b'] eqn:Hs.
  destruct (String.eqb_spec a' ""); [discriminate|].
  intros [= <- <-]. apply span_spec in Hs as (-> & Ha & _). auto.
Qed.

Lemma alnum_run_complete a b :
  a <> "" -> all_chars is_alnum a ->
  alnum_run (a ++ "_" ++ b) = Some (a, "_" ++ b).
Proof.
  intros Hne Ha. unfold alnum_run.
  rewrite span_complete by (auto; reflexivity).
  destruct (String.eqb_spec a ""); [contradiction | reflexivity].
Qed.

Lemma ti_or_to_spec s d r :
  ti_or_to s = Some (d, r) <-> s = d ++ r /\ (d = "TI" \/ d = "TO").
Proof.
  unfold ti_or_to. split.
  - destruct (expect "TI" s) as [r1|] eqn:E1.
    + intros [= <- <-]. apply expect_spec in E1. auto.
    + destruct (expect "TO" s) as [r2|] eqn:E2; simpl; [|discriminate].
      intros [= <- <-]. apply expect_spec in E2. auto.
  - intros (-> & [-> | ->]); reflexivity.
Qed.

Lemma at_end_spec r : at_end r = true <-> r = "" \/ r = String "010" "".
Proof.
  unfold at_end. rewrite orb_true_iff, !String.eqb_eq. reflexivity.
Qed.

(** The matcher accepts exactly the strings of the pattern's shape, with
    the groups the pattern names. *)
Lemma FILENAME_PATTERN_match_sound s m :
  FILENAME_PATTERN_match s = Some m -> filename_shape s m.
Proof.
  unfold FILENAME_PATTERN_match. intros H.
  destruct (alnum_run s) as [[client r1]|] eqn:E1; [|discriminate].
  cbn [mbind option_bind] in H.
  destruct (expect "_" r1) as [r2|] eqn:E2; [|discriminate].
  cbn [mbind option_bind] in H.
  destruct (alnum_run r2) as [[partner r3]|] eqn:E3; [|discriminate].
  cbn [mbind option_bind] in H.
  destruct (expect "_" r3) as [r4|] eqn:E4; [|discriminate].
  cbn [mbind option_bind] in H.
  destruct (ti_or_to r4) as [[dir r5]|] eqn:E5; [|discriminate].
  cbn [mbind option_bind] in H.
  destruct (expect "_" r5) as [r6|] eqn:E6; [|discriminate].
  cbn [mbind option_bind] in H.
  destruct (digits 8 r6) as [[start r7]|] eqn:E7; [|discriminate].
  cbn [mbind option_bind] in H.
  destruct (expect "_" r7) as [r8|] eqn:E8; [|discriminate].
  cbn [mbind option_bind] in H.
  destruct (digits 8 r8) as [[end_ r9]|] eqn:E9; [|discriminate].
  cbn [mbind option_bind] in H.
  destruct (expect "_D.xlsx" r9) as [r10|] eqn:E10; [|discriminate].
  cbn [mbind option_bind] in H.
  destruct (at_end r10) eqn:E11; [|discriminate].
  injection H as <-.
  apply alnum_run_spec in E1 as (-> & Hc1 & Hc2).
  apply expect_spec in E2 as ->.
  apply alnum_run_spec in E3 as (-> & Hp1 & Hp2).
  apply expect_spec in E4 as ->.
  apply ti_or_to_spec in E5 as (-> & Hd).
  apply expect_spec in E6 as ->.
  apply digits_spec in E7 as (-> & Hs1 & Hs2).
  apply expect_spec in E8 as ->.
  apply digits_spec in E9 as (-> & He1 & He2).
  apply expect_spec in E10 as ->.
  apply at_end_spec in E11.
  exists r10. simpl. repeat split; auto.
Qed.

Lemma FILENAME_PATTERN_match_complete s m :
  filename_shape s m -> FILENAME_PATTERN_match s = Some m.
Proof.
  intros (tail & -> & Htail & Hc1 & Hc2 & Hp1 & Hp2 & Hd & Hs1 & Hs2 & He1 & He2).
  destruct m as [client partner dir start end_]. simpl in *.
  unfold FILENAME_PATTERN_match.
  rewrite alnum_run_complete by assumption. cbn [mbind option_bind].
  rewrite (proj2 (expect_spec "_" _ _) eq_refl). cbn [mbind option_bind].
  rewrite alnum_run_complete by assumption. cbn [mbind option_bind].
  rewrite (proj2 (expect_spec "_" _ _) eq_refl). cbn [mbind option_bind].
  rewrite (proj2 (ti_or_to_spec _ dir _) (conj eq_refl Hd)).
  cbn [mbind option_bind].
  rewrite (proj2 (expect_spec "_" _ _) eq_refl). cbn [mbind option_bind].
  rewrite (proj2 (digits_spec 8 _ start _) (conj eq_refl (conj Hs1 Hs2))).
  cbn [mbind option_bind].
  rewrite (proj2 (expect_spec "_" _ _) eq_refl). cbn [mbind option_bind].
  rewrite (proj2 (digits_spec 8 _ end_ _) (conj eq_refl (conj He1 He2))).
  cbn [mbind option_bind].
  rewrite (proj2 (expect_spec "_D.xlsx" _ _) eq_refl). cbn [mbind option_bind].
  rewrite (proj2 (at_end_spec tail) Htail). reflexivity.
Qed.

(** ** Properties of the templater *)

Lemma filename_validation_ok plan m :
  filename_validation plan = Ok m <->
  FILENAME_PATTERN_match (filename plan) = Some m
  /\ g_direction m = direction_str (direction plan)
  /\ g_start m = remove_char "-" (start_date plan)
  /\ g_end m = remove_char "-" (end_date plan).
Proof.
  unfold filename_validation.
  destruct (FILENAME_PATTERN_match (filename plan)) as [m'|].
  - destruct (String.eqb_spec (g_direction m') (direction_str (direction plan)));
      simpl.
    + destruct (String.eqb_spec (g_start m') (remove_char "-" (start_date plan)));
        destruct (String.eqb_spec (g_end m') (remove_char "-" (end_date plan)));
        simpl; split;
        try (intros [= <-]; auto);
        try discriminate;
        try (intros ([= ->] & ? & ? & ?); congruence).
    + split; [discriminate|]. intros ([= ->] & ? & _). contradiction.
  - split; [discriminate|]. intros ([=] & _).
Qed.

Lemma filename_validation_raises plan e :
  filename_validation plan = Raise e ->
  exists detail, e = HTTPException 422 detail None.
Proof.
  unfold filename_validation.
  destruct (FILENAME_PATTERN_match (filename plan)) as [m|];
    [|intros [= <-]; eauto].
  destruct (negb _); [intros [= <-]; eauto|].
  destruct (_ || _); [intros [= <-]; eauto | discriminate].
Qed.

(** A rejected plan leaves the world as it was: the exception is raised
    before [mkdir], [shutil.copy] and every cell write. *)
Lemma rejected_plan_touches_nothing template_path dest_path plan e w :
  filename_validation plan = Raise e ->
  _generate_excel_from_template template_path dest_path plan w = (Raise e, w).
Proof.
  intros H. unfold _generate_excel_from_template, bind, lift_result.
  now rewrite H.
Qed.

(** *** Cells of a worksheet *)








(** *** The file-system primitives when they succeed *)

Lemma mkdir_exist_ok_run p fs0 :
  files fs0 !! p = None ->
  mkdir_exist_ok p fs0
  = (Ok tt, mkFS ({[p]} ∪ dirs fs0) (files fs0)).
Proof.
  intros H. unfold mkdir_exist_ok, bind, get_fs.
  case_bool_decide as Hc; [|reflexivity].
  rewrite H in Hc. now destruct Hc.
Qed.




(** *** The statements on the sheet *)


Lemma check_string_run s :
  check_string s
  = if has_illegal_char (cell_text s)
    then Raise (IllegalCharacterError (cell_text s))
    else Ok (cell_text s).
Proof. reflexivity. Qed.

Lemma ws_assign_str col row s ws :
  has_illegal_char (cell_text s) = false ->
  ws_assign col row (CStr s) ws
  = (Ok tt, ws_set_value ws col row (CStr (cell_text s))).
Proof. intros Hs. unfold ws_assign. now rewrite check_string_run, Hs. Qed.

Lemma ws_assign_str_raises col row s ws :
  has_illegal_char (cell_text s) = true ->
  ws_assign col row (CStr s) ws
  = (Raise (IllegalCharacterError (cell_text s)), ws).
Proof. intros Hs. unfold ws_assign. now rewrite check_string_run, Hs. Qed.

Lemma cell_text_empty : cell_text "" = "".
Proof. reflexivity. Qed.

(** The row statements either all run, leaving [sms_row], or stop at the
    currency. *)
Lemma _write_sms_row_run row rate cur disc h ws :
  _write_sms_row row rate cur disc h ws
  = if has_illegal_char (cell_text cur)
    then (Raise (IllegalCharacterError (cell_text cur)), ws)
    else (Ok tt, sms_row ws row rate (cell_text cur) disc h).
Proof.
  unfold _write_sms_row. unfold bind at 1.
  destruct (has_illegal_char (cell_text cur)) eqn:Hc.
  - now rewrite ws_assign_str_raises.
  - rewrite ws_assign_str by exact Hc.
    unfold bind at 1. cbn [ws_assign]. unfold bind at 1. cbn [ws_assign].
    unfold bind at 1. rewrite ws_assign_str by reflexivity.
    rewrite cell_text_empty. reflexivity.
Qed.

Lemma sheet_after_write_plan_cells plan ws :
  sheet_after (write_plan_cells plan) ws
  = if has_illegal_char (cell_text (partner_tadig plan))
    then Raise (IllegalCharacterError (cell_text (partner_tadig plan)))
    else if has_illegal_char (cell_text (currency plan))
    then Raise (IllegalCharacterError (cell_text (currency plan)))
    else Ok (populate_sheet ws plan).
Proof.
  unfold sheet_after, write_plan_cells, populate_sheet. unfold bind at 1.
  destruct (has_illegal_char (cell_text (partner_tadig plan))) eqn:Hp.
  - now rewrite ws_assign_str_raises.
  - rewrite ws_assign_str by exact Hp. unfold bind at 1.
    rewrite _write_sms_row_run.
    destruct (has_illegal_char (cell_text (currency plan))) eqn:Hc;
      [reflexivity|].
    destruct (mt_row_requested plan); [|reflexivity].
    now rewrite _write_sms_row_run, Hc.
Qed.



(** *** The templater on an accepted plan *)








(** C1, as stated, fails: the validation never compares the client and
    partner groups of the file name with the plan.  A plan for client ABCD
    and partner WXYZ whose file name says XXXX and YYYY is accepted, and the
    templater goes on to copy the template and write the sheet. *)
Lemma filename_validation_ignores_tadigs :
  let plan := scenario_plan "XXXX_YYYY_TI_20240101_20241231_D.xlsx" float_zero in
  exists m,
    filename_validation plan = Ok m
    /\ FILENAME_PATTERN_match (filename plan) = Some m
    /\ g_client m = "XXXX" /\ client_tadig plan = "ABCD"
    /\ g_partner m = "YYYY" /\ partner_tadig plan = "WXYZ"
    /\ g_client m <> client_tadig plan
    /\ g_partner m <> partner_tadig plan
    /\ fst (_generate_excel_from_template template_path_ex (dest_path_ex plan)
              plan template_fs) = Ok tt.
Proof.
  cbv zeta. exists (mkMatch "XXXX" "YYYY" "TI" "20240101" "20241231").
  repeat split; try (vm_compute; reflexivity); vm_compute; discriminate.
Qed.

(** C1, amended. A plan the validation accepts has a file name of the fixed
    pattern whose direction group is the plan's direction and whose two date
    groups are the plan's dates without their dashes (the client and partner
    groups are non-empty alphanumeric runs, not compared with the plan); a
    file name that does not match the pattern, or whose direction or dates
    differ from the plan's, makes the templater raise a 422 error with the
    world untouched: no directory made, no file copied, no cell written. *)
Theorem filename_validation_cross_check plan :
  (forall m,
     filename_validation plan = Ok m ->
     FILENAME_PATTERN_match (filename plan) = Some m
     /\ filename_shape (filename plan) m
     /\ g_direction m = direction_str (direction plan)
     /\ g_start m = remove_char "-" (start_date plan)
     /\ g_end m = remove_char "-" (end_date plan))
  /\ (forall template_path dest_path fs0,
        (FILENAME_PATTERN_match (filename plan) = None
         \/ exists m, FILENAME_PATTERN_match (filename plan) = Some m
              /\ (g_direction m <> direction_str (direction plan)
                  \/ g_start m <> remove_char "-" (start_date plan)
                  \/ g_end m <> remove_char "-" (end_date plan))) ->
        exists detail,
          _generate_excel_from_template template_path dest_path plan fs0
          = (Raise (HTTPException 422 detail None), fs0)).
Proof.
  split.
  - intros m Hv. apply filename_validation_ok in Hv as (Hm & Hd & Hs & He).
    repeat split; try assumption. now apply FILENAME_PATTERN_match_sound.
  - intros template_path dest_path fs0 Hbad.
    destruct (filename_validation plan) as [m|e] eqn:Hv.
    + exfalso. apply filename_validation_ok in Hv as (Hm & Hd & Hs & He).
      destruct Hbad as [Hnone | (m' & Hm' & Hdiff)]; [congruence|].
      assert (m' = m) as -> by congruence. tauto.
    + destruct (filename_validation_raises plan e Hv) as [detail ->].
      exists detail. now apply rejected_plan_touches_nothing.
Qed.

(** Scenario C is accepted with the plan's direction and dates; scenario D
    (direction TO in the name, TI in the plan) is rejected before any file
    is touched. *)
Lemma filename_validation_cross_check_witness :
  (filename_validation scenario_C_plan
     = Ok (mkMatch "ABCD" "WXYZ" "TI" "20240101" "20241231")
   /\ g_direction (mkMatch "ABCD" "WXYZ" "TI" "20240101" "20241231")
      = direction_str (direction scenario_C_plan)
   /\ g_start (mkMatch "ABCD" "WXYZ" "TI" "20240101" "20241231")
      = remove_char "-" (start_date scenario_C_plan)
   /\ g_end (mkMatch "ABCD" "WXYZ" "TI" "20240101" "20241231")
      = remove_char "-" (end_date scenario_C_plan))
  /\ exists detail,
       _generate_excel_from_template template_path_ex
         (dest_path_ex scenario_D_plan) scenario_D_plan template_fs
       = (Raise (HTTPException 422 detail None), template_fs).
Proof.
  assert (Hv : filename_validation scenario_C_plan
               = Ok (mkMatch "ABCD" "WXYZ" "TI" "20240101" "20241231"))
    by (vm_compute; reflexivity).
  split.
  - destruct (proj1 (filename_validation_cross_check scenario_C_plan) _ Hv)
      as (_ & _ & Hd & Hs & He).
    repeat split; assumption.
  - apply (proj2 (filename_validation_cross_check scenario_D_plan)).
    right. exists (mkMatch "ABCD" "WXYZ" "TO" "20240101" "20241231").
    split; [vm_compute; reflexivity|]. left. vm_compute. discriminate.
Defined.

(** Scenario D, evaluated. *)
Example scenario_D_rejected :
  _generate_excel_from_template template_path_ex
    (dest_path_ex scenario_D_plan) scenario_D_plan template_fs
  = (Raise (HTTPException 422
              "Filename direction TO does not match plan direction TI" None),
     template_fs).
Proof. vm_compute. reflexivity. Qed.

(** A trailing newline passes the pattern: [$] matches before it. *)
Example trailing_newline_accepted :
  FILENAME_PATTERN_match
    ("ABCD_WXYZ_TI_20240101_20241231_D.xlsx" ++ String "010" "")
  = Some (mkMatch "ABCD" "WXYZ" "TI" "20240101" "20241231").
Proof. vm_compute. reflexivity. Qed.

(** Such a name passes the validation and the template is copied under
    it, but the copy is not opened: what follows its last dot is not the
    extension of a workbook.  The copy stays as the template was. *)
Example trailing_newline_not_opened :
  let plan := scenario_plan
                ("ABCD_WXYZ_TI_20240101_20241231_D.xlsx" ++ String "010" "")
                float_zero in
  let dest := path_div "/srv/output/agreement" (filename plan) in
  let run := _generate_excel_from_template template_path_ex dest plan
               template_fs in
  filename_validation plan
    = Ok (mkMatch "ABCD" "WXYZ" "TI" "20240101" "20241231")
  /\ fst run = Raise (unsupported_format (".xlsx" ++ String "010" ""))
  /\ files (snd run) !! dest = Some (FWorkbook template_sheet).
Proof. vm_compute. repeat split; reflexivity. Qed.

(** A control character in the partner TADIG is refused by the cell: the
    templater raises after the copy, before any cell is written. *)
Example control_character_refused :
  let plan := mkPlan TI "ABCD" ("WXYZ" ++ String "007" "") "2024-01-01"
                "2024-12-31" "EUR" float_zero float_zero true
                "ABCD_WXYZ_TI_20240101_20241231_D.xlsx" in
  let run := _generate_excel_from_template template_path_ex
               (dest_path_ex plan) plan template_fs in
  fst run = Raise (IllegalCharacterError ("WXYZ" ++ String "007" ""))
  /\ files (snd run) !! dest_path_ex plan = Some (FWorkbook template_sheet).
Proof. vm_compute. repeat split; reflexivity. Qed.

(** ** The allocator of output directories *)

Example safe_agreement_base_name_ex :
  safe_agreement_base_name "a1__My Agreement (v2).pdf" "a1" = "My_Agreement_v2".
Proof. vm_compute. reflexivity. Qed.

Example safe_agreement_base_name_empty :
  safe_agreement_base_name "a1__---.txt" "a1" = "agreement".
Proof. vm_compute. reflexivity. Qed.

Lemma path_join_ne_parent parent name : path_join parent name <> parent.
Proof.
  unfold path_join. intros H. apply (f_equal len) in H.
  rewrite !len_append in H. pose proof (len_nonneg name).
  change (len "/") with 1 in H. lia.
Qed.

Lemma chars_append a b : chars (a ++ b) = (chars a ++ chars b)%list.
Proof.
  induction a as [|c a IH]; [now rewrite append_nil_l|].
  rewrite append_cons. simpl. now rewrite <- IH.
Qed.

Lemma split_on_no_sep sep s : ~ In sep (chars s) -> split_on sep s = [s].
Proof.
  induction s as [|c s IH]; simpl; [reflexivity|]. intros Hn.
  destruct (Ascii.eqb_spec c sep) as [->|_]; [exfalso; auto|].
  rewrite IH by tauto. reflexivity.
Qed.

Lemma is_absolute_no_slash s : ~ In "/"%char (chars s) -> is_absolute s = false.
Proof.
  destruct s as [|c s]; [reflexivity|]. simpl. intros Hn.
  destruct (Ascii.eqb_spec c "/") as [->|Hc]; [exfalso; auto|].
  destruct c as [[] [] [] [] [] [] [] []]; try reflexivity. congruence.
Qed.

Lemma components_plain s :
  ~ In "/"%char (chars s) -> s <> "" -> s <> "." -> components s = [s].
Proof.
  intros Hn He Hd. unfold components. rewrite split_on_no_sep by assumption.
  simpl. apply String.eqb_neq in He, Hd. now rewrite He, Hd.
Qed.

(** For a plain name [parent / name] is [parent], a slash and the name. *)
Lemma path_div_plain parent name :
  plain_name name -> path_div parent name = path_join parent name.
Proof.
  intros (He & Hd & _ & Hn). unfold path_div.
  rewrite is_absolute_no_slash, components_plain by assumption. reflexivity.
Qed.

Lemma string_of_uint_no_slash d :
  ~ In "/"%char (chars (NilZero.string_of_uint d)).
Proof.
  assert (Hraw : forall u, ~ In "/"%char (chars (NilEmpty.string_of_uint u))).
  { induction u; simpl; [tauto | ..]; intros [Heq | Hin];
      (discriminate Heq || exact (IHu Hin)). }
  destruct d; try apply Hraw. simpl. intuition discriminate.
Qed.

Lemma str_of_Z_no_slash i : ~ In "/"%char (chars (str_of_Z i)).
Proof.
  unfold str_of_Z. destruct (Z.to_int i) as [d|d]; simpl.
  - apply string_of_uint_no_slash.
  - intros [Heq | Hin]; [discriminate | exact (string_of_uint_no_slash d Hin)].
Qed.

Lemma version_candidates_no_slash base_name name :
  ~ In "/"%char (chars base_name) ->
  name ∈ version_candidates base_name ->
  ~ In "/"%char (chars name) /\ is_prefix base_name name.
Proof.
  intros Hbase Hin. unfold version_candidates in Hin.
  apply elem_of_cons in Hin as [-> | Hin].
  - split; [exact Hbase | apply is_prefix_refl].
  - apply list_elem_of_fmap in Hin as (i & -> & Hi). split.
    + rewrite !chars_append, !in_app_iff.
      pose proof (str_of_Z_no_slash i).
      simpl. intuition discriminate.
    + now exists ("_v" ++ str_of_Z i).
Qed.

(** The candidates made from a plain name are plain. *)
Lemma version_candidates_plain base_name :
  plain_name base_name -> Forall plain_name (version_candidates base_name).
Proof.
  intros Hplain. apply Forall_forall. intros name Hin.
  pose proof Hplain as (He & Hd & Hdd & Hn).
  destruct (version_candidates_no_slash _ _ Hn Hin) as [Hname _].
  unfold version_candidates in Hin.
  apply elem_of_cons in Hin as [-> | Hin]; [exact Hplain|].
  apply list_elem_of_fmap in Hin as (i & -> & _).
  assert (Hlen : 3 <= len (base_name ++ "_v" ++ str_of_Z i)).
  { rewrite !len_append. change (len "_v") with 2.
    pose proof (len_nonneg (str_of_Z i)).
    destruct base_name; [congruence|].
    unfold len at 1. simpl String.length. lia. }
  repeat split; try exact Hname;
    intros Heq; rewrite Heq in Hlen; vm_compute in Hlen; auto.
Qed.

Lemma path_exists_mkdir fs0 p q :
  q <> p ->
  path_exists (mkFS ({[p]} ∪ dirs fs0) (files fs0)) q = path_exists fs0 q.
Proof.
  intros Hne. unfold path_exists. simpl. f_equal.
  apply bool_decide_ext. rewrite elem_of_union, elem_of_singleton. tauto.
Qed.


Lemma first_free_mkdir fs0 parent candidates :
  Forall plain_name candidates ->
  first_free (mkFS ({[parent]} ∪ dirs fs0) (files fs0)) parent candidates
  = first_free fs0 parent candidates.
Proof.
  induction 1 as [|name rest Hname _ IH]; simpl; [reflexivity|].
  rewrite path_exists_mkdir
    by (rewrite path_div_plain by assumption; apply path_join_ne_parent).
  now rewrite IH.
Qed.

Lemma first_free_some fs0 parent candidates name :
  first_free fs0 parent candidates = Some name <->
  exists earlier later,
    candidates = (earlier ++ name :: later)%list
    /\ Forall (taken fs0 parent) earlier
    /\ ~ taken fs0 parent name.
Proof.
  unfold taken. induction candidates as [|c rest IH]; simpl.
  - split; [discriminate|]. intros (earlier & later & H & _).
    destruct earlier; discriminate.
  - destruct (path_exists fs0 (path_div parent c)) eqn:Hc.
    + rewrite IH. split.
      * intros (earlier & later & -> & He & Hn).
        exists (c :: earlier), later. repeat split; auto.
      * intros (earlier & later & Heq & He & Hn).
        destruct earlier as [|e earlier]; simpl in Heq.
        -- injection Heq as -> _. congruence.
        -- injection Heq as -> ->. inversion He; subst.
           exists earlier, later. auto.
    + split.
      * intros [= ->]. exists [], rest. repeat split; auto. congruence.
      * intros (earlier & later & Heq & He & Hn).
        destruct earlier as [|e earlier]; simpl in Heq.
        -- now injection Heq as -> _.
        -- injection Heq as -> ->. inversion He; subst. congruence.
Qed.


Lemma mkdir_exclusive_run p fs0 :
  mkdir_exclusive p fs0
  = if path_exists fs0 p then (Raise (FileExistsError p), fs0)
    else (Ok tt, mkFS ({[p]} ∪ dirs fs0) (files fs0)).
Proof.
  unfold mkdir_exclusive, bind, get_fs.
  destruct (path_exists fs0 p); reflexivity.
Qed.

Lemma try_candidates_run parent candidates fs0 :
  try_candidates parent candidates fs0 =
  match first_free fs0 parent candidates with
  | Some name =>
      (Ok (path_div parent name),
       mkFS ({[path_div parent name]} ∪ dirs fs0) (files fs0))
  | None => (Raise allocation_failure, fs0)
  end.
Proof.
  induction candidates as [|name rest IH]; simpl; [reflexivity|].
  unfold try_except, bind. rewrite mkdir_exclusive_run.
  destruct (path_exists fs0 (path_div parent name)); [exact IH | reflexivity].
Qed.

Lemma first_free_in fs0 parent candidates name :
  first_free fs0 parent candidates = Some name -> name ∈ candidates.
Proof.
  intros Hf. apply first_free_some in Hf as (earlier & later & -> & _).
  apply elem_of_app. right. apply elem_of_cons. now left.
Qed.

Lemma create_versioned_output_dir_run parent base_name fs0 :
  plain_name base_name ->
  files fs0 !! parent = None ->
  create_versioned_output_dir parent base_name fs0 =
  match first_free fs0 parent (version_candidates base_name) with
  | Some name =>
      (Ok (path_join parent name),
       mkFS ({[path_join parent name]} ∪ ({[parent]} ∪ dirs fs0)) (files fs0))
  | None =>
      (Raise allocation_failure, mkFS ({[parent]} ∪ dirs fs0) (files fs0))
  end.
Proof.
  intros Hplain Hp. apply version_candidates_plain in Hplain.
  unfold create_versioned_output_dir, ensure_dir, bind.
  rewrite mkdir_exist_ok_run by assumption.
  rewrite try_candidates_run, first_free_mkdir by assumption.
  destruct (first_free fs0 parent _) as [name|] eqn:Hf; [|reflexivity].
  apply first_free_in in Hf. rewrite Forall_forall in Hplain.
  rewrite path_div_plain by auto. reflexivity.
Qed.

Lemma path_exists_mkdir_mono fs0 p q :
  path_exists fs0 q = true ->
  path_exists (mkFS ({[p]} ∪ dirs fs0) (files fs0)) q = true.
Proof.
  unfold path_exists. simpl. rewrite !orb_true_iff, !bool_decide_eq_true.
  set_solver.
Qed.

Lemma mkdir_exist_ok_fail p fs0 :
  is_Some (files fs0 !! p) ->
  mkdir_exist_ok p fs0 = (Raise (FileExistsError p), fs0).
Proof.
  intros H. unfold mkdir_exist_ok, bind, get_fs.
  case_bool_decide; [reflexivity | contradiction].
Qed.

(** A successful call returns a path that was free and is a directory
    afterwards; directories are never removed. *)
Lemma create_versioned_output_dir_fresh parent base_name fs0 p fs1 :
  create_versioned_output_dir parent base_name fs0 = (Ok p, fs1) ->
  path_exists fs0 p = false /\ p ∈ dirs fs1 /\ dirs fs0 ⊆ dirs fs1.
Proof.
  destruct (files fs0 !! parent) as [f|] eqn:Hfile.
  { unfold create_versioned_output_dir, ensure_dir, bind.
    rewrite mkdir_exist_ok_fail by (rewrite Hfile; eauto). discriminate. }
  unfold create_versioned_output_dir, ensure_dir, bind.
  rewrite mkdir_exist_ok_run by assumption. rewrite try_candidates_run.
  destruct (first_free _ parent (version_candidates base_name)) as [name|] eqn:Hf;
    [|discriminate].
  intros [= <- <-]. simpl.
  apply first_free_some in Hf as (earlier & later & _ & _ & Hn).
  unfold taken in Hn. split; [|split; set_solver].
  destruct (path_exists fs0 (path_div parent name)) eqn:He; [|reflexivity].
  exfalso. apply Hn. now apply path_exists_mkdir_mono.
Qed.



(** *** Interleaved callers *)






(** A caller left alone for as many steps as it has candidates (and one
    more) does what the sequential loop does. *)
Lemma run_caller_try_candidates parent candidates fs0 :
  run_caller (S (length candidates)) fs0 (Trying parent candidates)
  = match try_candidates parent candidates fs0 with
    | (Ok p, fs1) => (fs1, Allocated p)
    | (Raise _, fs1) => (fs1, Exhausted)
    end.
Proof.
  rewrite try_candidates_run.
  induction candidates as [|name rest IH]; [reflexivity|].
  cbn [length run_caller attempt first_free].
  destruct (path_exists fs0 (path_div parent name)).
  - exact IH.
  - clear IH. generalize (length rest). intros n.
    induction n as [|n IHn]; [reflexivity | exact IHn].
Qed.



(** An empty base name is not a plain name: [parent / base_name] is then the
    parent itself, which exists, so the allocator goes on to [_v2]. *)
Example empty_base_name_skipped :
  fst (create_versioned_output_dir "/srv/output" "" crowded_fs)
  = Ok "/srv/output/_v2".
Proof. vm_compute. reflexivity. Qed.

(** ** The generation client *)

Lemma chat_completions_create_run req w :
  chat_completions_create req w
  = (match api_oracle w (length (api_log w)) req with
     | Returns r => Ok r
     | Throws e => Raise e
     end,
     mkWorld (fs w) (openai_api_key w) (client_created w) (api_oracle w)
             (api_log w ++ [req]) (generation_log w) (clock_reads w)).
Proof.
  unfold chat_completions_create.
  destruct (api_oracle w (length (api_log w)) req); reflexivity.
Qed.

(** One iteration of the loop, before the handler. *)
Lemma attempt_body_run req w :
  (response <- chat_completions_create req ;;
   lift_result (read_response response)) w
  = (attempt_outcome w req 0,
     mkWorld (fs w) (openai_api_key w) (client_created w) (api_oracle w)
             (api_log w ++ [req]) (generation_log w) (clock_reads w)).
Proof.
  unfold bind, attempt_outcome. rewrite chat_completions_create_run.
  rewrite Nat.add_0_r.
  destruct (api_oracle w (length (api_log w)) req) as [r|e]; [|reflexivity].
  unfold lift_result. destruct (read_response r); reflexivity.
Qed.

Lemma attempt_outcome_shift w req k :
  attempt_outcome
    (mkWorld (fs w) (openai_api_key w) (client_created w) (api_oracle w)
             (api_log w ++ [req]) (generation_log w) (clock_reads w)) req k
  = attempt_outcome w req (S k).
Proof.
  unfold attempt_outcome. simpl. rewrite length_app. simpl.
  replace (length (api_log w) + 1 + k)%nat with (length (api_log w) + S k)%nat
    by lia.
  reflexivity.
Qed.

Lemma sent_step w w' req calls :
  sent (mkWorld (fs w) (openai_api_key w) (client_created w) (api_oracle w)
                (api_log w ++ [req]) (generation_log w) (clock_reads w))
       w' req calls ->
  sent w w' req (S calls).
Proof.
  unfold sent. simpl. intros (Hlog & Hfs & Hkey & Hor & Hclock).
  repeat split; try assumption.
  rewrite Hlog, <- app_assoc. reflexivity.
Qed.

(** The loop, with [remaining] iterations to go and [attempt] the index of
    the next one: it stops at the first attempt that succeeds, and after the
    last one it raises the classified error of the last failure. *)
Lemma generate_attempts_spec req retries remaining :
  forall attempt last_error w,
    attempt + Z.of_nat remaining = retries + 1 ->
    let run := generate_attempts req retries attempt remaining last_error w in
    (exists calls, (calls <= remaining)%nat /\ sent w (snd run) req calls
                   /\ client_created (snd run) = client_created w
                   /\ generation_log (snd run) = generation_log w)
    /\ (forall k res,
          (k < remaining)%nat ->
          (forall j, (j < k)%nat -> failed (attempt_outcome w req j)) ->
          attempt_outcome w req k = Ok res ->
          fst run = Ok res /\ sent w (snd run) req (S k))
    /\ (forall e,
          (forall j, (j < remaining)%nat -> failed (attempt_outcome w req j)) ->
          attempt_outcome w req (pred remaining) = Raise e ->
          (0 < remaining)%nat ->
          fst run = Raise (exhausted_error e) /\ sent w (snd run) req remaining).
Proof.
  induction remaining as [|remaining IH]; intros attempt last_error w Hinv.
  - cbv zeta. simpl. split.
    + exists 0%nat. split; [lia|]. unfold sent. simpl.
      rewrite app_nil_r. repeat split; reflexivity.
    + split; intros; lia.
  - cbv zeta. cbn [generate_attempts]. unfold try_except.
    rewrite attempt_body_run.
    set (w1 := mkWorld (fs w) (openai_api_key w) (client_created w)
                 (api_oracle w) (api_log w ++ [req]) (generation_log w)
                 (clock_reads w)).
    destruct (attempt_outcome w req 0) as [res0|exc] eqn:H0.
    + cbn [fst snd]. split.
      * exists 1%nat. split; [lia|]. unfold sent, w1. simpl. repeat split; reflexivity.
      * split.
        -- intros k res Hk Hfail Hres. destruct k as [|k].
           ++ split; [congruence|]. unfold sent, w1. simpl. repeat split; reflexivity.
           ++ specialize (Hfail 0%nat ltac:(lia)). rewrite H0 in Hfail.
              contradiction.
        -- intros e Hfail. specialize (Hfail 0%nat ltac:(lia)).
           rewrite H0 in Hfail. contradiction.
    + destruct (Z.ltb_spec attempt retries) as [Hlt|Hge].
      * assert (Hinv' : attempt + 1 + Z.of_nat remaining = retries + 1) by lia.
        destruct (IH (attempt + 1) (Some exc) w1 Hinv') as (Hcalls & Hok & Hall).
        cbv zeta in Hcalls, Hok, Hall.
        set (run := generate_attempts req retries (attempt + 1) remaining
                      (Some exc) w1) in *.
        split.
        -- destruct Hcalls as (calls & Hle & Hsent & Hcl & Hgl).
           exists (S calls). split; [lia|].
           split; [now apply sent_step | auto].
        -- split.
           ++ intros k res Hk Hfail Hres. destruct k as [|k]; [congruence|].
              destruct (Hok k res) as [Hr Hs].
              ** lia.
              ** intros j Hj. unfold w1. rewrite attempt_outcome_shift.
                 apply Hfail. lia.
              ** unfold w1. now rewrite attempt_outcome_shift.
              ** split; [exact Hr | now apply sent_step].
           ++ intros e Hfail Hlast _.
              assert (Hpos : (0 < remaining)%nat) by lia.
              destruct (Hall e) as [Hr Hs].
              ** intros j Hj. unfold w1. rewrite attempt_outcome_shift.
                 apply Hfail. lia.
              ** unfold w1. rewrite attempt_outcome_shift.
                 replace (S (pred remaining)) with remaining by lia.
                 exact Hlast.
              ** exact Hpos.
              ** split; [exact Hr | now apply sent_step].
      * assert (remaining = 0%nat) as -> by lia.
        cbn [fst snd raise]. split.
        -- exists 1%nat. split; [lia|]. unfold sent, w1. simpl. repeat split; reflexivity.
        -- split.
           ++ intros k res Hk Hfail Hres. assert (k = 0%nat) as -> by lia.
              congruence.
           ++ intros e Hfail Hlast _. simpl in Hlast.
              assert (e = exc) as -> by congruence.
              split; [reflexivity|]. unfold sent, w1. simpl. repeat split; reflexivity.
Qed.

Lemma attempt_outcome_ext w w' req k :
  api_oracle w' = api_oracle w -> api_log w' = api_log w ->
  attempt_outcome w' req k = attempt_outcome w req k.
Proof. unfold attempt_outcome. now intros -> ->. Qed.

Lemma sent_ext w0 w w' req calls :
  api_log w0 = api_log w -> fs w0 = fs w ->
  openai_api_key w0 = openai_api_key w -> api_oracle w0 = api_oracle w ->
  clock_reads w0 = clock_reads w ->
  sent w0 w' req calls -> sent w w' req calls.
Proof.
  unfold sent. intros <- <- <- <- <-. auto.
Qed.

Lemma client_available_dec w : client_available w \/ ~ client_available w.
Proof.
  unfold client_available. destruct (client_created w); [left; left; reflexivity|].
  destruct (openai_api_key w) as [[|c key]|].
  - right. intros [Hc | (key & [= <-] & Hne)]; [discriminate | contradiction].
  - left. right. eexists. split; [reflexivity | discriminate].
  - right. intros [Hc | (key & [=] & _)]. discriminate.
Qed.

Lemma generate_json_object_run `{Environment} model system_prompt user_prompt
    retries timeout w :
  client_available w ->
  generate_json_object model system_prompt user_prompt retries timeout w
  = generate_attempts (request_of model system_prompt user_prompt timeout)
      retries 0 (Z.to_nat (retries + 1)) None
      (entered w (mkGenerationCall model system_prompt user_prompt retries)).
Proof.
  intros Hc. unfold generate_json_object, bind at 1, log_generation.
  unfold bind at 1, get_openai_client. cbn [client_created openai_api_key].
  unfold entered, request_of.
  destruct (client_created w) eqn:Hcc; [reflexivity|].
  destruct Hc as [Hc | (key & Hkey & Hne)]; [congruence|].
  rewrite Hkey. destruct key; [contradiction | reflexivity].
Qed.

Lemma generate_json_object_no_client `{Environment} model system_prompt
    user_prompt retries timeout w :
  ~ client_available w ->
  generate_json_object model system_prompt user_prompt retries timeout w
  = (Raise missing_key_error,
     mkWorld (fs w) (openai_api_key w) (client_created w) (api_oracle w)
             (api_log w)
             (generation_log w
              ++ [mkGenerationCall model system_prompt user_prompt retries])
             (clock_reads w)).
Proof.
  intros Hc. unfold generate_json_object, bind at 1, log_generation.
  unfold bind at 1, get_openai_client. cbn [client_created openai_api_key].
  destruct (client_created w) eqn:Hcc.
  { exfalso. apply Hc. now left. }
  destruct (openai_api_key w) as [key|] eqn:Hkey; [|reflexivity].
  destruct key; [reflexivity|].
  exfalso. apply Hc. right. eexists. split; [exact Hkey | discriminate].
Qed.

(** In every world and for every [retries], the loop sends the request at
    most [remaining] times. *)
Lemma generate_attempts_call_bound req retries remaining :
  forall attempt last_error w,
  exists calls,
    (calls <= remaining)%nat
    /\ api_log (snd (generate_attempts req retries attempt remaining
                       last_error w))
       = (api_log w ++ replicate calls req)%list.
Proof.
  induction remaining as [|remaining IH]; intros attempt last_error w.
  - exists 0%nat. simpl. now rewrite app_nil_r.
  - cbn [generate_attempts]. unfold try_except. rewrite attempt_body_run.
    destruct (attempt_outcome w req 0) as [res|exc].
    + exists 1%nat. split; [lia | reflexivity].
    + destruct (attempt <? retries).
      * destruct (IH (attempt + 1) (Some exc)
                    (mkWorld (fs w) (openai_api_key w) (client_created w)
                       (api_oracle w) (api_log w ++ [req]) (generation_log w)
                       (clock_reads w))) as (calls & Hle & Hlog).
        exists (S calls). split; [lia|]. rewrite Hlog. simpl.
        now rewrite <- app_assoc.
      * exists 1%nat. split; [lia | reflexivity].
Qed.

Lemma generate_json_object_call_bound `{Environment} model system_prompt
    user_prompt retries timeout w :
  exists calls,
    (calls <= Z.to_nat (retries + 1))%nat
    /\ api_log (snd (generate_json_object model system_prompt user_prompt
                       retries timeout w))
       = (api_log w
          ++ replicate calls
               (request_of model system_prompt user_prompt timeout))%list.
Proof.
  destruct (client_available_dec w) as [Hc|Hc].
  - rewrite generate_json_object_run by assumption.
    apply (generate_attempts_call_bound _ retries _ 0 None
             (entered w (mkGenerationCall model system_prompt user_prompt
                           retries))).
  - rewrite generate_json_object_no_client by assumption.
    exists 0%nat. split; [lia|]. simpl. now rewrite app_nil_r.
Qed.

(** C8. With a usable client and [retries >= 0], [generate_json_object]
    sends the same request at most [retries + 1] times, one after the other
    (nothing else in the world changes).  It returns at the first attempt
    that succeeds, with the stripped text of the first choice and the usage
    summary; an attempt that fails (time-out, API error, anything else) is
    followed by another while [attempt < retries]; when all [retries + 1]
    attempts fail it raises the error of the last failure's class - 504 for
    a time-out, 502 [OpenAI API error] for another API error, 502
    [OpenAI call failed] for anything else - with that failure as its cause.
    A usage object that is absent or has none of the counters gives the
    usage [None], not an error. *)
Theorem generate_json_object_retry_policy `{Environment} model system_prompt
    user_prompt retries timeout w :
  0 <= retries ->
  client_available w ->
  let req := request_of model system_prompt user_prompt timeout in
  let run :=
    generate_json_object model system_prompt user_prompt retries timeout w in
  (exists calls : nat,
      Z.of_nat calls <= retries + 1 /\ sent w (snd run) req calls)
  /\ (forall (k : nat) res,
        Z.of_nat k <= retries ->
        (forall j, (j < k)%nat -> failed (attempt_outcome w req j)) ->
        attempt_outcome w req k = Ok res ->
        fst run = Ok res /\ sent w (snd run) req (S k))
  /\ (forall e,
        (forall j : nat, Z.of_nat j <= retries ->
                         failed (attempt_outcome w req j)) ->
        attempt_outcome w req (Z.to_nat retries) = Raise e ->
        fst run = Raise (exhausted_error e)
        /\ sent w (snd run) req (Z.to_nat (retries + 1)))
  /\ (forall msg,
        exhausted_error (APITimeoutError msg)
        = HTTPException 504 "OpenAI request timed out."
            (Some (APITimeoutError msg))
        /\ exhausted_error (OpenAIError msg)
           = HTTPException 502 ("OpenAI API error: " ++ msg)
               (Some (OpenAIError msg))
        /\ exhausted_error (TransportError msg)
           = HTTPException 502 ("OpenAI call failed: " ++ msg)
               (Some (TransportError msg)))
  /\ (forall e, exists status detail,
        exhausted_error e = HTTPException status detail (Some e))
  /\ (forall content others u,
        read_response (mkResponse (content :: others) u)
        = Ok (strip (default "" content), _usage_to_dict u))
  /\ _usage_to_dict UsageNone = None
  /\ _usage_to_dict (UsageAttrs None None None) = None.
Proof.
  intros Hretries Hclient req run.
  set (c := mkGenerationCall model system_prompt user_prompt retries).
  assert (Hrun : run = generate_attempts req retries 0 (Z.to_nat (retries + 1))
                         None (entered w c)).
  { unfold run. now apply generate_json_object_run. }
  assert (Hinv : 0 + Z.of_nat (Z.to_nat (retries + 1)) = retries + 1) by lia.
  destruct (generate_attempts_spec req retries (Z.to_nat (retries + 1)) 0 None
              (entered w c) Hinv) as (Hcalls & Hok & Hall).
  cbv zeta in Hcalls, Hok, Hall. rewrite <- Hrun in Hcalls, Hok, Hall.
  assert (Hsent : forall n, sent (entered w c) (snd run) req n ->
                            sent w (snd run) req n).
  { intros n. now apply sent_ext. }
  assert (Hout : forall k, attempt_outcome (entered w c) req k
                           = attempt_outcome w req k).
  { intros k. now apply attempt_outcome_ext. }
  split.
  { destruct Hcalls as (calls & Hle & Hs & _). exists calls. split; [lia|auto]. }
  split.
  { intros k res Hk Hfail Hres. destruct (Hok k res) as [Hr Hs].
    - lia.
    - intros j Hj. rewrite Hout. now apply Hfail.
    - now rewrite Hout.
    - auto. }
  split.
  { intros e Hfail Hlast. destruct (Hall e) as [Hr Hs].
    - intros j Hj. rewrite Hout. apply Hfail. lia.
    - rewrite Hout. replace (pred (Z.to_nat (retries + 1)))
        with (Z.to_nat retries) by lia. exact Hlast.
    - lia.
    - auto. }
  split; [intros msg; repeat split|].
  split; [intros e; destruct e; simpl; eauto|].
  split; [reflexivity|]. split; reflexivity.
Qed.

(** ** What each stage of the run can change *)

Lemma lift_fs_run {A} (m : FSM A) w :
  lift_fs m w = (fst (m (fs w)), with_fs w (snd (m (fs w)))).
Proof. unfold lift_fs. destruct (m (fs w)); reflexivity. Qed.

Lemma bind_run {S A B} (m : SE S A) (k : A -> SE S B) s :
  bind m k s
  = match fst (m s) with
    | Ok a => k a (snd (m s))
    | Raise e => (Raise e, snd (m s))
    end.
Proof. unfold bind. destruct (m s) as [[a|e] s']; reflexivity. Qed.

Lemma keeps_fs_ret {A} (a : A) : keeps_fs (ret a).
Proof. intros w. reflexivity. Qed.

Lemma keeps_fs_raise {A} e : keeps_fs (@raise World A e).
Proof. intros w. reflexivity. Qed.

Lemma keeps_fs_lift_result {A} (r : Result A) : keeps_fs (lift_result r).
Proof. intros w. reflexivity. Qed.

Lemma keeps_fs_bind {A B} (m : M A) (k : A -> M B) :
  keeps_fs m -> (forall a, keeps_fs (k a)) -> keeps_fs (bind m k).
Proof.
  intros Hm Hk w. rewrite bind_run. specialize (Hm w).
  destruct (fst (m w)) as [a|e]; simpl; [|exact Hm].
  rewrite Hk. exact Hm.
Qed.

Lemma keeps_fs_try_except {A} (m : M A) handler :
  keeps_fs m -> (forall e, keeps_fs (handler e)) -> keeps_fs (try_except m handler).
Proof.
  intros Hm Hh w. unfold try_except. specialize (Hm w).
  destruct (m w) as [[a|e] w']; simpl in *; [exact Hm|].
  rewrite Hh. exact Hm.
Qed.

Lemma keeps_api_ret {A} (a : A) : keeps_api (ret a).
Proof. intros w. repeat split. Qed.

Lemma keeps_api_raise {A} e : keeps_api (@raise World A e).
Proof. intros w. repeat split. Qed.

Lemma keeps_api_lift_result {A} (r : Result A) : keeps_api (lift_result r).
Proof. intros w. repeat split. Qed.

Lemma keeps_api_lift_fs {A} (m : FSM A) : keeps_api (lift_fs m).
Proof. intros w. rewrite lift_fs_run. repeat split. Qed.

Lemma keeps_api_bind {A B} (m : M A) (k : A -> M B) :
  keeps_api m -> (forall a, keeps_api (k a)) -> keeps_api (bind m k).
Proof.
  intros Hm Hk w. rewrite bind_run. specialize (Hm w).
  destruct (fst (m w)) as [a|e]; simpl; [|exact Hm].
  destruct (Hk a (snd (m w))) as (H1 & H2 & H3 & H4 & H5).
  destruct Hm as (G1 & G2 & G3 & G4 & G5).
  repeat split; congruence.
Qed.

Section Stages.
Context `{Environment}.

Lemma keeps_fs_utc_now : keeps_fs _utc_now.
Proof. intros w. reflexivity. Qed.

Lemma keeps_api_utc_now : keeps_api _utc_now.
Proof. intros w. repeat split. Qed.

Lemma keeps_fs_extract_or_422 p : keeps_fs (extract_or_422 p).
Proof.
  intros w. unfold extract_or_422.
  destruct (extract_text (fs w) p) as [t|[]]; reflexivity.
Qed.

Lemma extract_or_422_world p w : snd (extract_or_422 p w) = w.
Proof.
  unfold extract_or_422.
  destruct (extract_text (fs w) p) as [t|[]]; reflexivity.
Qed.

Lemma keeps_api_extract_or_422 p : keeps_api (extract_or_422 p).
Proof. intros w. rewrite extract_or_422_world. repeat split. Qed.

Lemma keeps_fs_extract_standards paths acc : keeps_fs (extract_standards paths acc).
Proof.
  revert acc. induction paths as [|p rest IH]; intros acc; simpl.
  - apply keeps_fs_ret.
  - apply keeps_fs_bind; [apply keeps_fs_extract_or_422 | intros; apply IH].
Qed.

Lemma keeps_api_extract_standards paths acc :
  keeps_api (extract_standards paths acc).
Proof.
  revert acc. induction paths as [|p rest IH]; intros acc; simpl.
  - apply keeps_api_ret.
  - apply keeps_api_bind; [apply keeps_api_extract_or_422 | intros; apply IH].
Qed.

Lemma keeps_fs_prepare_inputs ap sps : keeps_fs (prepare_inputs ap sps).
Proof.
  unfold prepare_inputs.
  apply keeps_fs_bind; [apply keeps_fs_utc_now | intros].
  apply keeps_fs_bind; [apply keeps_fs_extract_or_422 | intros].
  apply keeps_fs_bind; [apply keeps_fs_extract_standards | intros].
  apply keeps_fs_ret.
Qed.

Lemma keeps_api_prepare_inputs ap sps : keeps_api (prepare_inputs ap sps).
Proof.
  unfold prepare_inputs.
  apply keeps_api_bind; [apply keeps_api_utc_now | intros].
  apply keeps_api_bind; [apply keeps_api_extract_or_422 | intros].
  apply keeps_api_bind; [apply keeps_api_extract_standards | intros].
  apply keeps_api_ret.
Qed.

Lemma keeps_fs_chat_completions_create req : keeps_fs (chat_completions_create req).
Proof. intros w. rewrite chat_completions_create_run. reflexivity. Qed.

Lemma keeps_fs_generate_attempts req retries remaining :
  forall attempt last_error,
    keeps_fs (generate_attempts req retries attempt remaining last_error).
Proof.
  induction remaining as [|remaining IH]; intros attempt last_error; simpl.
  - apply keeps_fs_raise.
  - apply keeps_fs_try_except.
    + apply keeps_fs_bind; [apply keeps_fs_chat_completions_create|].
      intros r. apply keeps_fs_lift_result.
    + intros e. destruct (attempt <? retries); [apply IH | apply keeps_fs_raise].
Qed.

Lemma keeps_fs_generate_json_object model system_prompt user_prompt retries timeout :
  keeps_fs (generate_json_object model system_prompt user_prompt retries timeout).
Proof.
  unfold generate_json_object.
  apply keeps_fs_bind; [intros w; reflexivity | intros _].
  apply keeps_fs_bind.
  - intros w. unfold get_openai_client.
    destruct (client_created w); [reflexivity|].
    destruct (openai_api_key w) as [[|c k]|]; reflexivity.
  - intros _. apply keeps_fs_generate_attempts.
Qed.



End Stages.

(** ** The validation and the repair round *)

Ltac bind_inv H :=
  rewrite bind_run in H;
  match type of H with
  | match fst ?x with Ok _ => _ | Raise _ => _ end = _ =>
      let a := fresh "a" in
      let e := fresh "e" in
      let w := fresh "w" in
      let E := fresh "E" in
      destruct x as [[a|e] w] eqn:E; cbn [fst snd] in H; [|discriminate H]
  end.

Section Orchestrator.
Context `{Environment}.

Lemma _parse_and_validate_loader_json_raises raw e :
  _parse_and_validate_loader_json raw = Raise e -> exists msg, e = ValueError msg.
Proof.
  unfold _parse_and_validate_loader_json.
  destruct (json_loads raw) as [msg|data]; [intros [= <-]; eauto|].
  destruct (model_validate data) as [msg|loader]; [intros [= <-]; eauto|].
  discriminate.
Qed.

Lemma obtain_loader_valid model user_prompt w raw1 u1 w1 loader :
  generate_json_object model SYSTEM_PROMPT user_prompt 2 None w
    = (Ok (raw1, u1), w1) ->
  _parse_and_validate_loader_json raw1 = Ok loader ->
  obtain_loader model user_prompt w = (Ok (loader, raw1, u1), w1).
Proof.
  intros Hfirst Hparse. unfold obtain_loader. rewrite bind_run, Hfirst.
  cbn [fst snd]. rewrite Hparse. reflexivity.
Qed.


Lemma keeps_fs_obtain_loader model user_prompt :
  keeps_fs (obtain_loader model user_prompt).
Proof.
  unfold obtain_loader.
  apply keeps_fs_bind; [apply keeps_fs_generate_json_object | intros first].
  destruct (_parse_and_validate_loader_json (fst first)) as [loader|e].
  - apply keeps_fs_ret.
  - destruct e; try apply keeps_fs_raise.
    apply keeps_fs_bind; [apply keeps_fs_generate_json_object | intros second].
    destruct (_parse_and_validate_loader_json (fst second)) as [loader|[]];
      (apply keeps_fs_ret || apply keeps_fs_raise).
Qed.

Lemma keeps_fs_generate_and_validate ap sps model :
  keeps_fs (generate_and_validate ap sps model).
Proof.
  unfold generate_and_validate.
  apply keeps_fs_bind; [apply keeps_fs_prepare_inputs | intros p].
  apply keeps_fs_bind; [apply keeps_fs_obtain_loader | intros v].
  apply keeps_fs_ret.
Qed.

Lemma keeps_api_write_artifacts ap sps aid bid model g :
  keeps_api (write_artifacts ap sps aid bid model g).
Proof.
  unfold write_artifacts.
  destruct (excel_outputs (gen_loader g)); [apply keeps_api_raise|].
  apply keeps_api_bind; [apply keeps_api_lift_fs | intros out_dir].
  apply keeps_api_bind; [apply keeps_api_lift_result | intros data].
  apply keeps_api_bind; [apply keeps_api_lift_fs | intros _].
  destruct sps as [|template_source rest]; [apply keeps_api_raise|].
  apply keeps_api_bind; [apply keeps_api_lift_fs | intros paths].
  apply keeps_api_bind; [apply keeps_api_utc_now | intros finished_at].
  do 4 (apply keeps_api_bind; [apply keeps_api_lift_result | intros ?]).
  apply keeps_api_bind; [apply keeps_api_lift_fs | intros _].
  do 4 (apply keeps_api_bind; [apply keeps_api_lift_result | intros ?]).
  apply keeps_api_ret.
Qed.





Lemma generate_and_validate_ok ap sps model w0 g wg :
  generate_and_validate ap sps model w0 = (Ok g, wg) ->
  exists p wp validated,
    prepare_inputs ap sps w0 = (Ok p, wp)
    /\ obtain_loader model (user_prompt_of ap p) wp = (Ok validated, wg)
    /\ g = generated_from p validated.
Proof.
  unfold generate_and_validate. intros Hrun.
  bind_inv Hrun. bind_inv Hrun. injection Hrun as <- <-. eauto 6.
Qed.

(** The model handed to the second half is the one the validator returned
    for the text handed over with it. *)
Lemma obtain_loader_validated model user_prompt w loader raw usage w' :
  obtain_loader model user_prompt w = (Ok (loader, raw, usage), w') ->
  _parse_and_validate_loader_json raw = Ok loader.
Proof.
  unfold obtain_loader. intros Hrun. bind_inv Hrun.
  destruct (_parse_and_validate_loader_json (fst a)) as [l|e0] eqn:Hp.
  - injection Hrun as <- <- _ _. exact Hp.
  - destruct e0; try discriminate Hrun. bind_inv Hrun.
    destruct (_parse_and_validate_loader_json (fst a0)) as [l|[]] eqn:Hp2;
      try discriminate Hrun.
    injection Hrun as <- <- _ _. exact Hp2.
Qed.

(** C4. When the validated model has no entry in [excel_outputs], the run
    raises the 422 error [No excel_outputs were returned; ...] in the world
    the validation left, whose file system is that of the start of the run:
    no output directory was allocated and no [loader.json], [meta.json] or
    spreadsheet was written. *)
Theorem no_excel_outputs_fails_before_any_artifact ap sps aid bid model w0 g wg :
  generate_and_validate ap sps model w0 = (Ok g, wg) ->
  excel_outputs (gen_loader g) = [] ->
  _parse_and_validate_loader_json (gen_raw_json g) = Ok (gen_loader g)
  /\ generate_loader_artifacts ap sps aid bid model w0
     = (Raise (HTTPException 422
                 "No excel_outputs were returned; cannot generate loader Excel files."
                 None),
        wg)
  /\ fs wg = fs w0.
Proof.
  intros Hgen Hempty. split; [|split].
  - apply generate_and_validate_ok in Hgen
      as (p & wp & [[loader raw] usage] & _ & Hobtain & ->).
    simpl. eapply obtain_loader_validated. exact Hobtain.
  - unfold generate_loader_artifacts. rewrite bind_run, Hgen. cbn [fst snd].
    unfold write_artifacts. rewrite Hempty. reflexivity.
  - pose proof (keeps_fs_generate_and_validate ap sps model w0) as Hfs.
    rewrite Hgen in Hfs. exact Hfs.
Qed.



End Orchestrator.

(** ** The theorems on concrete runs *)

(** Closes [l = r] by evaluating both sides, keeping the proof term small. *)
Ltac by_evaluation :=
  match goal with
  | |- ?l = _ => vm_cast_no_check (@eq_refl _ l)
  end.

(** A time-out followed by an answer, with one retry allowed: the second
    attempt's stripped text and usage are returned. *)
Lemma generate_json_object_retry_policy_witness :
  let w := example_world [Throws (APITimeoutError "Request timed out.");
                          answer "  {one plan} " 20] in
  fst (@generate_json_object example_environment "gpt-4.1-mini" "system"
         "user" 1 None w)
  = Ok ("{one plan}", Some [("total_tokens", JInt 20)]).
Proof.
  cbv zeta.
  set (w := example_world [Throws (APITimeoutError "Request timed out.");
                           answer "  {one plan} " 20]).
  assert (Hclient : client_available w).
  { right. exists "sk-test". split; [reflexivity | discriminate]. }
  destruct (@generate_json_object_retry_policy example_environment
              "gpt-4.1-mini" "system" "user" 1 None w ltac:(lia) Hclient)
    as (_ & Hfirst_success & _).
  apply (Hfirst_success 1%nat).
  - lia.
  - intros j Hj. assert (j = 0%nat) as -> by lia. exact I.
  - vm_compute. reflexivity.
Defined.

(** An answer that validates but plans no spreadsheet: the run fails and
    the file system is untouched. *)
Lemma no_excel_outputs_fails_before_any_artifact_witness :
  let run := @generate_loader_artifacts example_environment agreement_path_ex
               [template_path_ex] "a1" "b1" "gpt-4.1-mini" no_plans_world in
  fst run
  = Raise (HTTPException 422
             "No excel_outputs were returned; cannot generate loader Excel files."
             None)
  /\ fs (snd run) = fs no_plans_world.
Proof.
  cbv zeta.
  assert (Hany : forall g wg,
            @generate_and_validate example_environment agreement_path_ex
              [template_path_ex] "gpt-4.1-mini" no_plans_world = (Ok g, wg) ->
            excel_outputs (gen_loader g) = [] ->
            fst (@generate_loader_artifacts example_environment
                   agreement_path_ex [template_path_ex] "a1" "b1"
                   "gpt-4.1-mini" no_plans_world)
            = Raise (HTTPException 422
                       "No excel_outputs were returned; cannot generate loader Excel files."
                       None)
            /\ fs (snd (@generate_loader_artifacts example_environment
                          agreement_path_ex [template_path_ex] "a1" "b1"
                          "gpt-4.1-mini" no_plans_world))
               = fs no_plans_world).
  { intros g wg Hgen Hempty.
    destruct (@no_excel_outputs_fails_before_any_artifact example_environment
                agreement_path_ex [template_path_ex] "a1" "b1" "gpt-4.1-mini"
                no_plans_world g wg Hgen Hempty) as (_ & Hrun & Hfs).
    rewrite Hrun. split; [reflexivity | exact Hfs]. }
  apply (Hany
           (ok_value no_generated
              (fst (@generate_and_validate example_environment agreement_path_ex
                      [template_path_ex] "gpt-4.1-mini" no_plans_world)))
           (snd (@generate_and_validate example_environment agreement_path_ex
                   [template_path_ex] "gpt-4.1-mini" no_plans_world)));
    by_evaluation.
Defined.



(** ** The reported usage never steers the run *)

Lemma same_but_usage_journal w1 w2 :
  same_but_usage w1 w2 -> same_but_journal_usage w1 w2.
Proof. intros [Hfs Hs]. unfold same_but_journal_usage. now rewrite Hfs. Qed.

Lemma same_service_with_fs w1 w2 fs1 fs2 :
  same_service w1 w2 -> same_service (with_fs w1 fs1) (with_fs w2 fs2).
Proof. intros H. exact H. Qed.

Lemma respects_ret {A} (a : A) : respects (ret a).
Proof. intros w1 w2 Hw. auto. Qed.

Lemma respects_raise {A} e : respects (@raise World A e).
Proof. intros w1 w2 Hw. auto. Qed.

Lemma respects_lift_result {A} (r : Result A) : respects (lift_result r).
Proof. intros w1 w2 Hw. auto. Qed.

Lemma respects_lift_fs {A} (m : FSM A) : respects (lift_fs m).
Proof.
  intros w1 w2 [Hfs Hs]. rewrite !lift_fs_run, Hfs. cbn [fst snd].
  split; [reflexivity|]. split; [reflexivity|]. exact Hs.
Qed.

Lemma respects_bind {A B} (m : M A) (k : A -> M B) :
  respects m -> (forall a, respects (k a)) -> respects (bind m k).
Proof.
  intros Hm Hk w1 w2 Hw. rewrite !bind_run.
  destruct (Hm w1 w2 Hw) as [Hr Hw']. rewrite Hr.
  destruct (fst (m w2)) as [a|e]; [now apply Hk | auto].
Qed.

(** The step of a lockstep proof: after a computation that respects the
    difference, the two continuations are compared on the same value. *)
Lemma agree_bind {A B} (m : M A) (k1 k2 : A -> M B) w1 w2 :
  respects m ->
  same_but_usage w1 w2 ->
  (forall a w1' w2', same_but_usage w1' w2' -> agree (k1 a w1') (k2 a w2')) ->
  agree (bind m k1 w1) (bind m k2 w2).
Proof.
  intros Hm Hw Hk. rewrite !bind_run.
  destruct (Hm w1 w2 Hw) as [Hr Hw']. rewrite Hr.
  destruct (fst (m w2)) as [a|e]; [now apply Hk|].
  split; [reflexivity | now apply same_but_usage_journal].
Qed.

Lemma agree_bind_lift_result {A B} (r : Result A) (k1 k2 : A -> M B) w1 w2 :
  same_but_journal_usage w1 w2 ->
  (forall a, agree (k1 a w1) (k2 a w2)) ->
  agree (bind (lift_result r) k1 w1) (bind (lift_result r) k2 w2).
Proof.
  intros Hw Hk. rewrite !bind_run. unfold lift_result. cbn [fst snd].
  destruct r as [a|e]; [apply Hk | split; [reflexivity | exact Hw]].
Qed.

Lemma agree_raise {A} e w1 w2 :
  same_but_usage w1 w2 -> agree (@raise World A e w1) (raise e w2).
Proof. intros Hw. split; [reflexivity | now apply same_but_usage_journal]. Qed.

Section Noninterference.
Context `{Environment}.

Lemma respects_utc_now : respects _utc_now.
Proof.
  intros w1 w2 (Hfs & Hk & Hc & Hl & Hg & Hclock & Ho). unfold _utc_now.
  cbn [fst snd]. rewrite Hclock. split; [reflexivity|].
  repeat split; simpl; congruence || exact Ho.
Qed.

Lemma respects_extract_or_422 p : respects (extract_or_422 p).
Proof.
  intros w1 w2 Hw. pose proof Hw as [Hfs _].
  unfold extract_or_422. rewrite Hfs.
  destruct (extract_text (fs w2) p) as [t|[]]; cbn [fst snd]; auto.
Qed.

Lemma respects_extract_standards paths acc : respects (extract_standards paths acc).
Proof.
  revert acc. induction paths as [|p rest IH]; intros acc; simpl.
  - apply respects_ret.
  - apply respects_bind; [apply respects_extract_or_422 | intros; apply IH].
Qed.

Lemma respects_prepare_inputs ap sps : respects (prepare_inputs ap sps).
Proof.
  unfold prepare_inputs.
  apply respects_bind; [apply respects_utc_now | intros].
  apply respects_bind; [apply respects_extract_or_422 | intros].
  apply respects_bind; [apply respects_extract_standards | intros].
  apply respects_ret.
Qed.

Lemma read_response_same_text r1 r2 :
  choices r1 = choices r2 -> same_text (read_response r1) (read_response r2).
Proof.
  unfold read_response. intros ->.
  destruct (choices r2); simpl; reflexivity.
Qed.

Lemma attempt_outcome_same_text w1 w2 req :
  same_but_usage w1 w2 ->
  same_text (attempt_outcome w1 req 0) (attempt_outcome w2 req 0).
Proof.
  intros (_ & _ & _ & Hl & _ & _ & Ho). unfold attempt_outcome.
  rewrite Hl. specialize (Ho (length (api_log w2) + 0)%nat req).
  destruct (api_oracle w1 _ req) as [r1|e1], (api_oracle w2 _ req) as [r2|e2];
    simpl in Ho; try discriminate.
  - apply read_response_same_text. now injection Ho.
  - injection Ho as ->. reflexivity.
Qed.

Lemma sent_one_same_but_usage w1 w2 req :
  same_but_usage w1 w2 ->
  same_but_usage
    (mkWorld (fs w1) (openai_api_key w1) (client_created w1) (api_oracle w1)
             (api_log w1 ++ [req]) (generation_log w1) (clock_reads w1))
    (mkWorld (fs w2) (openai_api_key w2) (client_created w2) (api_oracle w2)
             (api_log w2 ++ [req]) (generation_log w2) (clock_reads w2)).
Proof.
  intros (Hfs & Hk & Hc & Hl & Hg & Hclock & Ho).
  repeat split; simpl; congruence || exact Ho.
Qed.

Lemma generate_attempts_same_text req retries remaining :
  forall attempt last_error w1 w2,
    same_but_usage w1 w2 ->
    same_text
      (fst (generate_attempts req retries attempt remaining last_error w1))
      (fst (generate_attempts req retries attempt remaining last_error w2))
    /\ same_but_usage
         (snd (generate_attempts req retries attempt remaining last_error w1))
         (snd (generate_attempts req retries attempt remaining last_error w2)).
Proof.
  induction remaining as [|remaining IH]; intros attempt last_error w1 w2 Hw.
  - simpl. auto.
  - cbn [generate_attempts]. unfold try_except. rewrite !attempt_body_run.
    pose proof (attempt_outcome_same_text w1 w2 req Hw) as Hsame.
    pose proof (sent_one_same_but_usage w1 w2 req Hw) as Hw'.
    destruct (attempt_outcome w1 req 0) as [a1|e1],
             (attempt_outcome w2 req 0) as [a2|e2];
      simpl in Hsame; try contradiction.
    + cbn [fst snd]. auto.
    + subst e2. destruct (attempt <? retries).
      * now apply IH.
      * cbn [fst snd raise]. split; [reflexivity | exact Hw'].
Qed.

Lemma generate_json_object_same_text model system_prompt user_prompt retries
    timeout w1 w2 :
  same_but_usage w1 w2 ->
  let run1 :=
    generate_json_object model system_prompt user_prompt retries timeout w1 in
  let run2 :=
    generate_json_object model system_prompt user_prompt retries timeout w2 in
  same_text (fst run1) (fst run2) /\ same_but_usage (snd run1) (snd run2).
Proof.
  intros Hw. cbv zeta. pose proof Hw as (Hfs & Hk & Hc & Hl & Hg & Hclock & Ho).
  set (c := mkGenerationCall model system_prompt user_prompt retries).
  assert (Hentered : same_but_usage (entered w1 c) (entered w2 c)).
  { repeat split; simpl; congruence || exact Ho. }
  destruct (client_available_dec w1) as [H1|H1].
  - assert (H2 : client_available w2).
    { unfold client_available in *. rewrite <- Hc, <- Hk. exact H1. }
    rewrite !generate_json_object_run by assumption.
    now apply generate_attempts_same_text.
  - assert (H2 : ~ client_available w2).
    { unfold client_available in *. rewrite <- Hc, <- Hk. exact H1. }
    rewrite !generate_json_object_no_client by assumption. cbn [fst snd].
    split; [reflexivity|]. repeat split; simpl; congruence || exact Ho.
Qed.

Lemma obtain_loader_same_validated model user_prompt w1 w2 :
  same_but_usage w1 w2 ->
  same_validated (fst (obtain_loader model user_prompt w1))
                 (fst (obtain_loader model user_prompt w2))
  /\ same_but_usage (snd (obtain_loader model user_prompt w1))
                    (snd (obtain_loader model user_prompt w2)).
Proof.
  intros Hw. unfold obtain_loader. rewrite !bind_run.
  destruct (generate_json_object_same_text model SYSTEM_PROMPT user_prompt 2
              None w1 w2 Hw) as [Hsame Hw1].
  cbv zeta in Hsame, Hw1.
  destruct (generate_json_object model SYSTEM_PROMPT user_prompt 2 None w1)
    as [[[raw1 u1]|e1] w1'],
    (generate_json_object model SYSTEM_PROMPT user_prompt 2 None w2)
    as [[[raw2 u2]|e2] w2'];
    cbn [fst snd] in *; unfold same_text in Hsame; cbn [fst snd] in Hsame;
    try contradiction; [|subst; split; [reflexivity | assumption]].
  subst raw2.
  destruct (_parse_and_validate_loader_json raw1) as [loader|e] eqn:Hp.
  { unfold ret, same_validated. cbn [fst snd]. auto. }
  destruct (_parse_and_validate_loader_json_raises raw1 e Hp) as [err1 ->].
  rewrite !bind_run.
  destruct (generate_json_object_same_text model SYSTEM_PROMPT
              (fix_prompt raw1) 1 None w1' w2' Hw1) as [Hsame2 Hw2].
  cbv zeta in Hsame2, Hw2.
  destruct (generate_json_object model SYSTEM_PROMPT (fix_prompt raw1) 1 None w1')
    as [[[raw1' v1]|e1] w1''],
    (generate_json_object model SYSTEM_PROMPT (fix_prompt raw1) 1 None w2')
    as [[[raw2' v2]|e2] w2''];
    cbn [fst snd] in *; unfold same_text in Hsame2; cbn [fst snd] in Hsame2;
    try contradiction; [|subst; split; [reflexivity | assumption]].
  subst raw2'.
  destruct (_parse_and_validate_loader_json raw1') as [loader|e] eqn:Hp2.
  { unfold ret, same_validated. cbn [fst snd]. auto. }
  destruct (_parse_and_validate_loader_json_raises raw1' e Hp2) as [err2 ->].
  unfold raise, same_validated. cbn [fst snd]. auto.
Qed.

Lemma generate_and_validate_same_generated ap sps model w1 w2 :
  same_but_usage w1 w2 ->
  same_generated (fst (generate_and_validate ap sps model w1))
                 (fst (generate_and_validate ap sps model w2))
  /\ same_but_usage (snd (generate_and_validate ap sps model w1))
                    (snd (generate_and_validate ap sps model w2)).
Proof.
  intros Hw. unfold generate_and_validate. rewrite !bind_run.
  destruct (respects_prepare_inputs ap sps w1 w2 Hw) as [Hr Hw'].
  rewrite Hr.
  destruct (fst (prepare_inputs ap sps w2)) as [p|e];
    [|split; [exact eq_refl | exact Hw']].
  rewrite !bind_run.
  destruct (obtain_loader_same_validated model (user_prompt_of ap p) _ _ Hw')
    as [Hsame Hw''].
  destruct (fst (obtain_loader model (user_prompt_of ap p)
                   (snd (prepare_inputs ap sps w1)))) as [[[l1 r1] u1]|e1],
    (fst (obtain_loader model (user_prompt_of ap p)
            (snd (prepare_inputs ap sps w2)))) as [[[l2 r2] u2]|e2];
    unfold same_validated in Hsame; cbn [fst snd] in Hsame;
    try contradiction.
  - injection Hsame as -> ->. split; [exact eq_refl | exact Hw''].
  - subst e2. split; [exact eq_refl | exact Hw''].
Qed.

End Noninterference.

Section NoninterferenceOfTheRun.
Context `{Environment}.

(** Writing two journals that differ only in their usage. *)
Lemma agree_write_journal {B} p j1 j2 (k1 k2 : unit -> M B) w1 w2 :
  blind_journal j1 = blind_journal j2 ->
  same_but_usage w1 w2 ->
  (forall w1' w2', same_but_journal_usage w1' w2' ->
                   agree (k1 tt w1') (k2 tt w2')) ->
  agree (bind (lift_fs (write_file p (FJournal j1))) k1 w1)
        (bind (lift_fs (write_file p (FJournal j2))) k2 w2).
Proof.
  intros Hj [Hfs Hs] Hk. rewrite !bind_run, !lift_fs_run. cbn [fst snd].
  unfold write_file, bind, get_fs. rewrite Hfs.
  case_bool_decide as Hdir; cbn [fst snd put_fs raise].
  - split; [reflexivity|]. split; [reflexivity|]. split; [reflexivity|].
    exact Hs.
  - apply Hk. split; [reflexivity|]. split; [|exact Hs].
    cbn [fs with_fs files]. rewrite !fmap_insert. simpl. now rewrite Hj.
Qed.

Lemma write_artifacts_agree ap sps aid bid model g1 g2 w1 w2 :
  blind_generated g1 = blind_generated g2 ->
  same_but_usage w1 w2 ->
  agree (write_artifacts ap sps aid bid model g1 w1)
        (write_artifacts ap sps aid bid model g2 w2).
Proof.
  intros Hg Hw.
  destruct g1 as [started1 text1 standards1 trunc1 loader1 raw1 u1],
           g2 as [started2 text2 standards2 trunc2 loader2 raw2 u2].
  injection Hg as -> -> -> -> -> ->.
  unfold write_artifacts. cbn [gen_loader gen_raw_json gen_started_at
    gen_agreement_text gen_standards gen_trunc_meta gen_usage].
  destruct (excel_outputs loader2) as [|plan plans]; [now apply agree_raise|].
  apply agree_bind; [apply respects_lift_fs | exact Hw |].
  clear w1 w2 Hw. intros out_dir w1 w2 Hw.
  apply agree_bind; [apply respects_lift_result | exact Hw |].
  clear w1 w2 Hw. intros data w1 w2 Hw.
  apply agree_bind; [apply respects_lift_fs | exact Hw |].
  clear w1 w2 Hw. intros _ w1 w2 Hw.
  destruct sps as [|template_source rest]; [now apply agree_raise|].
  apply agree_bind; [apply respects_lift_fs | exact Hw |].
  clear w1 w2 Hw. intros paths w1 w2 Hw.
  apply agree_bind; [apply respects_utc_now | exact Hw |].
  clear w1 w2 Hw. intros finished_at w1 w2 Hw.
  apply agree_bind; [apply respects_lift_result | exact Hw |].
  clear w1 w2 Hw. intros j_dir w1 w2 Hw.
  apply agree_bind; [apply respects_lift_result | exact Hw |].
  clear w1 w2 Hw. intros j_json w1 w2 Hw.
  apply agree_bind; [apply respects_lift_result | exact Hw |].
  clear w1 w2 Hw. intros j_excel w1 w2 Hw.
  apply agree_bind; [apply respects_lift_result | exact Hw |].
  clear w1 w2 Hw. intros j_meta w1 w2 Hw.
  apply agree_write_journal; [reflexivity | exact Hw |].
  clear w1 w2 Hw. intros w1 w2 Hw.
  apply agree_bind_lift_result; [exact Hw | intros rel_dir].
  apply agree_bind_lift_result; [exact Hw | intros rel_json].
  apply agree_bind_lift_result; [exact Hw | intros rel_meta].
  apply agree_bind_lift_result; [exact Hw | intros rel_excel].
  split; [reflexivity | exact Hw].
Qed.

(** C9. Two runs from worlds that differ only in the usage the model
    reports take the same path: the first halves end in the same exception
    or in the same validated model, text and inputs; the runs return the
    same manifest (paths and summary) or raise the same exception; and the
    worlds they leave have the same directories, the same request and
    generation logs and the same files, except for the usage field of the
    journal. *)
Theorem usage_never_steers_the_run ap sps aid bid model w1 w2 :
  same_but_usage w1 w2 ->
  same_generated (fst (generate_and_validate ap sps model w1))
                 (fst (generate_and_validate ap sps model w2))
  /\ fst (generate_loader_artifacts ap sps aid bid model w1)
     = fst (generate_loader_artifacts ap sps aid bid model w2)
  /\ same_but_journal_usage
       (snd (generate_loader_artifacts ap sps aid bid model w1))
       (snd (generate_loader_artifacts ap sps aid bid model w2)).
Proof.
  intros Hw.
  destruct (generate_and_validate_same_generated ap sps model w1 w2 Hw)
    as [Hsame Hw'].
  split; [exact Hsame|].
  unfold generate_loader_artifacts. rewrite !bind_run.
  destruct (fst (generate_and_validate ap sps model w1)) as [g1|e1],
           (fst (generate_and_validate ap sps model w2)) as [g2|e2];
    simpl in Hsame; try contradiction.
  - now apply write_artifacts_agree.
  - subst e2. cbn [fst snd]. split; [reflexivity|].
    now apply same_but_usage_journal.
Qed.

End NoninterferenceOfTheRun.

(** A service that reports 10 tokens and one that reports 99 for the same
    answer: the runs return the same manifest. *)
Lemma usage_never_steers_the_run_witness :
  same_but_usage frugal_world lavish_world
  /\ fst (@generate_loader_artifacts example_environment agreement_path_ex
            [template_path_ex] "a1" "b1" "gpt-4.1-mini" frugal_world)
     = fst (@generate_loader_artifacts example_environment agreement_path_ex
              [template_path_ex] "a1" "b1" "gpt-4.1-mini" lavish_world).
Proof.
  assert (Hw : same_but_usage frugal_world lavish_world).
  { repeat split. intros n req. destruct n as [|n]; reflexivity. }
  split; [exact Hw|].
  exact (proj1 (proj2 (@usage_never_steers_the_run example_environment
                         agreement_path_ex [template_path_ex] "a1" "b1"
                         "gpt-4.1-mini" frugal_world lavish_world Hw))).
Defined.

(** The run of the frugal service completes: its manifest, and the usage
    in the journal it wrote. *)
Example frugal_run_completes :
  let run := @generate_loader_artifacts example_environment agreement_path_ex
               [template_path_ex] "a1" "b1" "gpt-4.1-mini" frugal_world in
  (match fst run with
   | Ok resp =>
       Some (output_dir resp, loader_excel_paths resp, meta_json_path resp,
             s_excel_files_count (summary resp))
   | Raise _ => None
   end,
   match files (fs (snd run)) !! "/srv/output/Agreement/meta.json" with
   | Some (FJournal j) => Some (j_openai_usage j)
   | _ => None
   end)
  = (Some ("output/Agreement",
           ["output/Agreement/ABCD_WXYZ_TI_20240101_20241231_D.xlsx"],
           "output/Agreement/meta.json", 1),
     Some (Some [("total_tokens", JInt 10)])).
Proof. cbv zeta. by_evaluation. Qed.

(** * Further properties of the code *)

(** ** Normalisation and truncation *)

Lemma remove_char_absent c s : ~ In c (chars (remove_char c s)).
Proof.
  induction s as [|d s IH]; simpl; [auto|].
  destruct (Ascii.eqb_spec d c) as [->|Hne]; [exact IH|].
  simpl. intros [He | Hin]; [congruence | auto].
Qed.

Lemma remove_char_id c s : ~ In c (chars s) -> remove_char c s = s.
Proof.
  induction s as [|d s IH]; simpl; [reflexivity|]. intros Hn.
  destruct (Ascii.eqb_spec d c) as [->|Hne]; [exfalso; auto|].
  f_equal. apply IH. auto.
Qed.

Lemma lstrip_by_chars p s c : In c (chars (lstrip_by p s)) -> In c (chars s).
Proof.
  induction s as [|d s IH]; simpl; [auto|].
  destruct (p d); simpl; auto.
Qed.

Lemma rstrip_by_chars p s c : In c (chars (rstrip_by p s)) -> In c (chars s).
Proof.
  induction s as [|d s IH]; simpl; [auto|].
  destruct (rstrip_by p s) as [|e r] eqn:Hr.
  - destruct (p d); simpl; [tauto | intros [H|[]]; auto].
  - simpl. intros [H|H]; [auto | right; apply IH; exact H].
Qed.

Lemma lstrip_by_first p s c :
  first_char (lstrip_by p s) = Some c -> p c = false.
Proof.
  induction s as [|d s IH]; simpl; [discriminate|].
  destruct (p d) eqn:Hd; [exact IH|]. simpl. intros [= <-]. exact Hd.
Qed.

Lemma lstrip_by_clean p s :
  (forall c, first_char s = Some c -> p c = false) -> lstrip_by p s = s.
Proof.
  destruct s as [|d s]; simpl; [reflexivity|]. intros H.
  now rewrite (H d eq_refl).
Qed.

Lemma rstrip_by_first p s c :
  (forall d, first_char s = Some d -> p d = false) ->
  first_char (rstrip_by p s) = Some c -> p c = false.
Proof.
  destruct s as [|d s]; simpl; [discriminate|]. intros H.
  specialize (H d eq_refl).
  destruct (rstrip_by p s) as [|e r].
  - rewrite H. simpl. now intros [= <-].
  - simpl. now intros [= <-].
Qed.

Lemma rstrip_by_last p s c :
  last_char (rstrip_by p s) = Some c -> p c = false.
Proof.
  induction s as [|d s IH]; simpl; [discriminate|].
  destruct (rstrip_by p s) as [|e r] eqn:Hr.
  - destruct (p d) eqn:Hd; simpl; [discriminate|]. now intros [= <-].
  - intros H. apply IH. exact H.
Qed.

Lemma rstrip_by_clean p s :
  (forall c, last_char s = Some c -> p c = false) -> rstrip_by p s = s.
Proof.
  induction s as [|d s IH]; [reflexivity|]. intros H.
  destruct s as [|e r].
  - simpl. now rewrite (H d eq_refl).
  - assert (Hs : rstrip_by p (String e r) = String e r) by (apply IH; exact H).
    change (rstrip_by p (String d (String e r)))
      with (match rstrip_by p (String e r) with
            | "" => if p d then "" else String d ""
            | r' => String d r'
            end).
    now rewrite Hs.
Qed.

Lemma strip_by_idempotent p s : strip_by p (strip_by p s) = strip_by p s.
Proof.
  unfold strip_by.
  rewrite (lstrip_by_clean p (rstrip_by p (lstrip_by p s))).
  - apply rstrip_by_clean. apply rstrip_by_last.
  - intros c. apply rstrip_by_first. apply lstrip_by_first.
Qed.

(** X1. The normalised text holds no NUL character, neither starts nor ends
    with white space, and normalising it again changes nothing. *)
Theorem normalize_text_normal_form text :
  let t := _normalize_text text in
  ~ In NUL (chars t)
  /\ (forall c, first_char t = Some c -> is_py_space c = false)
  /\ (forall c, last_char t = Some c -> is_py_space c = false)
  /\ _normalize_text t = t.
Proof.
  cbv zeta. unfold _normalize_text, strip.
  assert (Hnul : ~ In NUL (chars (strip_by is_py_space (remove_char NUL text)))).
  { intros Hin. unfold strip_by in Hin.
    apply rstrip_by_chars, lstrip_by_chars in Hin.
    exact (remove_char_absent NUL text Hin). }
  split; [exact Hnul|]. split; [|split].
  - intros c. unfold strip_by. apply rstrip_by_first. apply lstrip_by_first.
  - intros c. apply rstrip_by_last.
  - rewrite (remove_char_id NUL _ Hnul). apply strip_by_idempotent.
Qed.

Lemma take_eq_iff n s : take n s = s <-> (String.length s <= n)%nat.
Proof.
  split; [|apply take_all]. intros H.
  apply (f_equal String.length) in H. rewrite take_length in H. lia.
Qed.

(** X2. For a limit that is not negative, [_truncate] returns the first
    [min(len(text), limit)] characters; its flag is set exactly when the
    returned text differs from the input, and truncating the result again
    with the same limit changes nothing and sets no flag. *)
Theorem truncate_flag_iff_shortened text limit :
  0 <= limit ->
  let r := _truncate text limit in
  len (fst r) = Z.min (len text) limit
  /\ is_prefix (fst r) text
  /\ (snd r = true <-> fst r <> text)
  /\ _truncate (fst r) limit = (fst r, false).
Proof.
  intros Hl. cbv zeta.
  pose proof (_truncate_fst text limit Hl) as Hf.
  pose proof (_truncate_snd text limit) as Hs.
  rewrite Hf, Hs. split; [rewrite len_take; lia|].
  split; [apply take_is_prefix|]. split.
  - rewrite Z.ltb_lt. rewrite take_eq_iff. unfold len. lia.
  - apply _truncate_fits. rewrite len_take. lia.
Qed.

Lemma truncate_flag_iff_shortened_witness :
  _truncate "abcdef" 4 = ("abcd", true)
  /\ _truncate (fst (_truncate "abcdef" 4)) 4 = ("abcd", false).
Proof.
  destruct (truncate_flag_iff_shortened "abcdef" 4 ltac:(lia))
    as (_ & _ & _ & Hagain).
  split; [reflexivity | exact Hagain].
Defined.

(** ** The budgeter's guarantees to each standard *)

(** X3. No standard is starved: whichever branch runs, every standard
    comes back with at least [min(5000, n)] characters, where [n] is the
    length of its per-file-capped text; in particular a standard whose
    normalised text is not empty is not empty in the budgeted corpus. *)
Theorem budgeter_keeps_the_floor agreement_text standards :
  Forall2 (fun inp res =>
             fst res = fst inp
             /\ Z.min 5000 (len (per_file_capped (snd inp))) <= len (snd res)
             /\ (_normalize_text (snd inp) <> "" -> snd res <> ""))
          standards (snd (fst (_truncate_inputs agreement_text standards))).
Proof.
  assert (Hnonempty : forall t s : string,
            Z.min 5000 (len (per_file_capped t)) <= len s ->
            _normalize_text t <> "" -> s <> "").
  { intros t s Hle Hne ->. unfold per_file_capped in Hle.
    rewrite len_take in Hle. unfold MAX_CHARS_PER_FILE in Hle.
    change (len "") with 0 in Hle.
    destruct (_normalize_text t) as [|c r]; [contradiction|].
    unfold len in Hle. simpl String.length in Hle. lia. }
  rewrite _truncate_inputs_unfold. cbv zeta.
  destruct ((capped_total agreement_text standards <=? MAX_TOTAL_CHARS)
            || bool_decide (standards = [])); cbn [fst snd].
  - induction standards as [|[name text] rest IH]; constructor; [|exact IH].
    simpl. split; [reflexivity|]. split; [lia|].
    apply Hnonempty. lia.
  - set (budget := Z.max 5000 _).
    assert (Hb : 5000 <= budget) by (unfold budget; lia).
    clearbody budget.
    induction standards as [|[name text] rest IH]; constructor; [|exact IH].
    simpl. split; [reflexivity|].
    assert (Hlen : Z.min 5000 (len (per_file_capped text))
                   <= len (fst (_truncate (per_file_capped text) budget))).
    { rewrite _truncate_fst by lia. rewrite len_take. lia. }
    split; [exact Hlen|]. now apply Hnonempty.
Qed.

Lemma retruncate_standards_flags_other budget normalized flags final name :
  name ∉ map fst normalized ->
  fst (retruncate_standards budget normalized flags final) !! name
  = flags !! name.
Proof.
  revert flags final.
  induction normalized as [|[filename text] rest IH]; intros flags final Hn;
    simpl in *; [reflexivity|].
  rewrite (surjective_pairing (_truncate text budget)).
  apply not_elem_of_cons in Hn as [Hne Hn].
  rewrite IH by assumption. now apply lookup_insert_ne.
Qed.

Lemma retruncate_standards_flags budget normalized flags final i name text :
  NoDup (map fst normalized) ->
  normalized !! i = Some (name, text) ->
  fst (retruncate_standards budget normalized flags final) !! name
  = Some ((flags !!! name) || snd (_truncate text budget)).
Proof.
  revert flags final i.
  induction normalized as [|[filename t] rest IH]; intros flags final i Hnd Hi.
  - discriminate.
  - simpl. rewrite (surjective_pairing (_truncate t budget)).
    simpl in Hnd. apply NoDup_cons in Hnd as [Hfresh Hnd].
    destruct i as [|i]; simpl in Hi.
    + injection Hi as -> ->.
      rewrite retruncate_standards_flags_other by assumption.
      apply lookup_insert_eq.
    + rewrite (IH _ _ i Hnd Hi). do 2 f_equal.
      assert (Hne : filename <> name).
      { intros ->. apply Hfresh. apply list_elem_of_lookup. exists i.
        rewrite list_lookup_fmap. now rewrite Hi. }
      unfold lookup_total, map_lookup_total.
      now rewrite lookup_insert_ne.
Qed.

Lemma NoDup_no_later_name (l : list (string * string)) i name text :
  NoDup (map fst l) -> l !! i = Some (name, text) ->
  name ∉ map fst (drop (S i) l).
Proof.
  revert i. induction l as [|[n t] l IH]; intros i Hnd Hi; [discriminate|].
  simpl in Hnd. apply NoDup_cons in Hnd as [Hfresh Hnd].
  destruct i as [|i]; simpl in Hi.
  - injection Hi as -> ->. simpl. now rewrite drop_0.
  - simpl. now apply (IH i).
Qed.

Lemma take_take_eq_iff n m s :
  take n (take m s) = s <-> (String.length s <= n /\ String.length s <= m)%nat.
Proof.
  split.
  - intros H. apply (f_equal String.length) in H.
    rewrite !take_length in H. lia.
  - intros [Hn Hm]. rewrite (take_all m s Hm). now apply take_all.
Qed.

(** X4. The truncation report is truthful.  When the standards carry
    distinct file names, the report has one flag per standard, and a
    flag (of the agreement or of a standard) is set exactly when the text
    handed on differs from the normalised input. *)
Theorem truncation_report_is_truthful agreement_text standards :
  NoDup (map fst standards) ->
  let out := _truncate_inputs agreement_text standards in
  let meta := snd out in
  (truncated_agreement meta = true
   <-> fst (fst out) <> _normalize_text agreement_text)
  /\ dom (truncated_standards meta) = list_to_set (map fst standards)
  /\ forall i name text,
       standards !! i = Some (name, text) ->
       exists text',
         snd (fst out) !! i = Some (name, text')
         /\ (truncated_standards meta !! name = Some true
             <-> text' <> _normalize_text text)
         /\ (truncated_standards meta !! name = Some false
             <-> text' = _normalize_text text).
Proof.
  intros Hnd. cbv zeta. rewrite _truncate_inputs_unfold. cbv zeta.
  assert (Hcut : forall t, per_file_cut t = true
                           <-> per_file_capped t <> _normalize_text t).
  { intros t. unfold per_file_cut, per_file_capped.
    rewrite Z.ltb_lt, take_eq_iff. unfold len, MAX_CHARS_PER_FILE. lia. }
  assert (Hbool : forall (b : bool) (P : Prop),
            (b = true <-> ~ P) -> (P \/ ~ P) ->
            (Some b = Some true <-> ~ P) /\ (Some b = Some false <-> P)).
  { intros b P Hb Hdec. destruct b, Hdec as [HP | HnP];
      intuition (try discriminate; try congruence). }
  destruct ((capped_total agreement_text standards <=? MAX_TOTAL_CHARS)
            || bool_decide (standards = [])); cbn [fst snd truncated_agreement
                                                   truncated_standards].
  - split; [apply Hcut|]. split; [rewrite cap_standards_dom; set_solver|].
    intros i name text Hi. exists (per_file_capped text). split.
    + rewrite list_lookup_fmap, Hi. reflexivity.
    + pose proof (NoDup_no_later_name _ _ _ _ Hnd Hi) as Hlast.
      rewrite (cap_standards_flags _ _ _ _ _ _ Hi Hlast).
      apply Hbool; [apply Hcut|].
      destruct (string_dec (per_file_capped text) (_normalize_text text)); auto.
  - set (budget := Z.max 5000 _).
    assert (Hb : 5000 <= budget) by (unfold budget; lia).
    clearbody budget.
    split; [apply Hcut|].
    split; [rewrite retruncate_standards_dom, cap_standards_dom;
            rewrite map_map; simpl; set_solver|].
    intros i name text Hi.
    exists (fst (_truncate (per_file_capped text) budget)). split.
    + rewrite !list_lookup_fmap, Hi. reflexivity.
    + assert (Hnd' : NoDup (map fst (map cap_entry standards))).
      { rewrite map_map. exact Hnd. }
      assert (Hi' : map cap_entry standards !! i
                    = Some (name, per_file_capped text)).
      { rewrite list_lookup_fmap, Hi. reflexivity. }
      rewrite (retruncate_standards_flags _ _ _ _ _ _ _ Hnd' Hi').
      assert (Hflag : fst (cap_standards standards ∅ []) !!! name
                      = per_file_cut text).
      { pose proof (NoDup_no_later_name _ _ _ _ Hnd Hi) as Hlast.
        unfold lookup_total, map_lookup_total.
        now rewrite (cap_standards_flags _ _ _ _ _ _ Hi Hlast). }
      rewrite Hflag, _truncate_snd, _truncate_fst by lia.
      apply Hbool.
      * unfold per_file_cut, per_file_capped.
        rewrite take_take_eq_iff, orb_true_iff, !Z.ltb_lt, len_take.
        unfold len, MAX_CHARS_PER_FILE. lia.
      * destruct (string_dec (take (Z.to_nat budget) (per_file_capped text))
                             (_normalize_text text)); auto.
Qed.

Lemma truncation_report_is_truthful_witness :
  NoDup (map fst [("a.txt", " x "); ("b.txt", "y")])
  /\ truncated_standards
       (snd (_truncate_inputs "agreement" [("a.txt", " x "); ("b.txt", "y")]))
     !! "a.txt" = Some false.
Proof.
  assert (Hnd : NoDup (map fst [("a.txt", " x "); ("b.txt", "y")])).
  { simpl. apply NoDup_cons. split; [set_solver | apply NoDup_singleton]. }
  split; [exact Hnd|].
  destruct (truncation_report_is_truthful "agreement" _ Hnd) as (_ & _ & H).
  destruct (H 0%nat "a.txt" " x " eq_refl) as (text' & Hout & _ & Hfalse).
  apply Hfalse. vm_compute in Hout. injection Hout as <-. reflexivity.
Defined.

(** ** The user prompt *)

Lemma is_substring_refl s : is_substring s s.
Proof. exists "", "". now rewrite append_nil_l, append_nil_r. Qed.

Lemma is_substring_app_r sub a s : is_substring sub s -> is_substring sub (a ++ s).
Proof.
  intros (before & after & ->). exists (a ++ before), after.
  now rewrite append_assoc.
Qed.

Lemma is_substring_app_l sub s b : is_substring sub s -> is_substring sub (s ++ b).
Proof.
  intros (before & after & ->). exists before, (after ++ b).
  now rewrite !append_assoc.
Qed.

Lemma join_contains sep parts :
  Forall (fun p => is_substring p (join sep parts)) parts.
Proof.
  induction parts as [|p rest IH]; constructor.
  - destruct rest; [apply is_substring_refl|].
    apply is_substring_app_l, is_substring_refl.
  - destruct rest as [|q rest]; [constructor|].
    eapply Forall_impl; [exact IH|]. intros x Hx.
    change (join sep (p :: q :: rest)) with (p ++ sep ++ join sep (q :: rest)).
    now do 2 apply is_substring_app_r.
Qed.

(** X5. Nothing handed to the prompt builder is dropped: the prompt
    contains the agreement's file name, the agreement text, and for every
    standard its text directly under its own [--- STANDARD FILE: name ---]
    label. *)
Theorem build_user_prompt_contains_inputs
    agreement_filename agreement_text standards :
  let prompt := _build_user_prompt agreement_filename agreement_text standards in
  is_substring ("Agreement filename: " ++ agreement_filename ++ nl) prompt
  /\ is_substring ("Agreement text:" ++ nl ++ agreement_text ++ nl) prompt
  /\ Forall (fun p => is_substring (standard_block p) prompt) standards.
Proof.
  cbv zeta. unfold _build_user_prompt. split; [|split].
  - exists "". eexists. rewrite append_nil_l, !append_assoc. reflexivity.
  - do 4 apply is_substring_app_r.
    eexists "", _. rewrite append_nil_l, !append_assoc. reflexivity.
  - apply Forall_forall. intros p Hp.
    do 11 apply is_substring_app_r. apply is_substring_app_l.
    pose proof (join_contains (nl ++ nl) (map standard_block standards)) as Hj.
    rewrite Forall_forall in Hj. apply Hj.
    change (map standard_block standards) with (standard_block <$> standards).
    now apply list_elem_of_fmap_2.
Qed.

(** ** Accepted file names *)

Lemma all_chars_no_slash p s :
  p "/"%char = false -> all_chars p s -> ~ In "/"%char (chars s).
Proof.
  intros Hp Hall Hin. unfold all_chars in Hall.
  rewrite Forall_forall in Hall. apply list_elem_of_In in Hin.
  specialize (Hall _ Hin). congruence.
Qed.

Lemma filename_shape_no_slash s m :
  filename_shape s m -> ~ In "/"%char (chars s).
Proof.
  intros (tail & -> & Htail & _ & Hc & _ & Hp & Hd & _ & Hs & _ & He).
  rewrite !chars_append, !in_app_iff.
  pose proof (all_chars_no_slash is_alnum _ eq_refl Hc).
  pose proof (all_chars_no_slash is_alnum _ eq_refl Hp).
  pose proof (all_chars_no_slash is_digit _ eq_refl Hs).
  pose proof (all_chars_no_slash is_digit _ eq_refl He).
  assert (~ In "/"%char (chars (g_direction m))).
  { destruct Hd as [-> | ->]; simpl; intuition discriminate. }
  assert (~ In "/"%char (chars tail)).
  { destruct Htail as [-> | ->]; simpl; intuition discriminate. }
  simpl. intuition discriminate.
Qed.

Lemma split_last_slash_no_slash s :
  ~ In "/"%char (chars s) -> split_last_slash s = None.
Proof.
  induction s as [|c s IH]; [reflexivity|]. simpl. intros Hn.
  rewrite IH by tauto.
  destruct (Ascii.eqb_spec c "/") as [->|_]; [exfalso; tauto | reflexivity].
Qed.

Lemma split_last_slash_join parent name :
  ~ In "/"%char (chars name) ->
  split_last_slash (path_join parent name) = Some (parent, name).
Proof.
  intros Hn. unfold path_join.
  induction parent as [|c parent IH].
  - rewrite append_nil_l. change ("/" ++ name) with (String "/" name).
    simpl. now rewrite split_last_slash_no_slash.
  - rewrite append_cons. simpl. now rewrite IH.
Qed.

Lemma accepted_filename_no_slash plan m :
  filename_validation plan = Ok m -> ~ In "/"%char (chars (filename plan)).
Proof.
  intros Hok. apply filename_validation_ok in Hok as (Hm & _).
  eapply filename_shape_no_slash, FILENAME_PATTERN_match_sound, Hm.
Qed.

(** An accepted file name is one path component, so
    [output_dir / plan.filename] is the output directory, a slash and the
    name. *)
Lemma accepted_filename_plain plan m :
  filename_validation plan = Ok m -> plain_name (filename plan).
Proof.
  intros Hok. pose proof (accepted_filename_no_slash _ _ Hok) as Hn.
  apply filename_validation_ok in Hok as (Hm & _).
  apply FILENAME_PATTERN_match_sound in Hm as (tail & Hs & _).
  assert (Hin : In "_"%char (chars (filename plan))).
  { rewrite Hs, !chars_append, !in_app_iff. simpl. tauto. }
  repeat split; try exact Hn; intros Heq; rewrite Heq in Hin;
    simpl in Hin; intuition discriminate.
Qed.

Lemma path_div_dest_of output_dir plan m :
  filename_validation plan = Ok m ->
  path_div output_dir (filename plan) = dest_of output_dir plan.
Proof.
  intros Hok. apply path_div_plain. eapply accepted_filename_plain, Hok.
Qed.

Lemma path_parent_dest_of output_dir plan m :
  filename_validation plan = Ok m ->
  path_parent (dest_of output_dir plan) = output_dir.
Proof.
  intros Hok. unfold path_parent, dest_of.
  now rewrite split_last_slash_join by (eapply accepted_filename_no_slash, Hok).
Qed.

(** X6. A file name the templater accepts holds no slash (nor is it empty),
    so the workbook of an accepted plan lies directly in the output
    directory: the parent of [output_dir / plan.filename] is [output_dir]
    and its last component is the file name itself. *)
Theorem accepted_filename_stays_in_output_dir plan m output_dir :
  filename_validation plan = Ok m ->
  ~ In "/"%char (chars (filename plan))
  /\ filename plan <> ""
  /\ path_parent (path_join output_dir (filename plan)) = output_dir
  /\ path_name (path_join output_dir (filename plan)) = filename plan.
Proof.
  intros Hok.
  pose proof (accepted_filename_no_slash _ _ Hok) as Hn.
  split; [exact Hn|]. split.
  - apply filename_validation_ok in Hok as (Hm & _).
    apply FILENAME_PATTERN_match_sound in Hm
      as (tail & Hs & _ & Hc & _). rewrite Hs.
    destruct (g_client m); [contradiction|]. rewrite append_cons. discriminate.
  - unfold path_parent, path_name.
    rewrite (split_last_slash_join _ _ Hn). auto.
Qed.

Lemma accepted_filename_stays_in_output_dir_witness :
  filename_validation scenario_C_plan
    = Ok (mkMatch "ABCD" "WXYZ" "TI" "20240101" "20241231")
  /\ path_parent (path_join "/srv/output/agreement" (filename scenario_C_plan))
     = "/srv/output/agreement".
Proof.
  assert (Hv : filename_validation scenario_C_plan
               = Ok (mkMatch "ABCD" "WXYZ" "TI" "20240101" "20241231"))
    by (vm_compute; reflexivity).
  split; [exact Hv|].
  exact (proj1 (proj2 (proj2
    (accepted_filename_stays_in_output_dir _ _ "/srv/output/agreement" Hv)))).
Defined.

Lemma remove_char_append c a b :
  remove_char c (a ++ b) = remove_char c a ++ remove_char c b.
Proof.
  induction a as [|x a IH]; [now rewrite !append_nil_l|].
  rewrite append_cons. simpl. destruct (Ascii.eqb x c); [exact IH|].
  rewrite append_cons. now rewrite IH.
Qed.

Lemma all_chars_app p a b :
  all_chars p a -> all_chars p b -> all_chars p (a ++ b).
Proof.
  unfold all_chars. fold (chars (a ++ b)) (chars a) (chars b).
  rewrite chars_append. apply Forall_app_2.
Qed.

Lemma remove_dash_digits s :
  all_chars is_digit s -> remove_char "-" s = s.
Proof.
  intros Hall. apply remove_char_id. intros Hin.
  unfold all_chars in Hall. rewrite Forall_forall in Hall.
  apply list_elem_of_In in Hin. specialize (Hall _ Hin). discriminate.
Qed.

(** Stripping the dashes of a date of the schema's shape leaves eight
    digits. *)
Lemma iso_date_digits s :
  iso_date s ->
  String.length (remove_char "-" s) = 8%nat
  /\ all_chars is_digit (remove_char "-" s).
Proof.
  intros (y & m & d & -> & Hy & Hya & Hm & Hma & Hd & Hda).
  rewrite !remove_char_append.
  rewrite (remove_dash_digits y Hya), (remove_dash_digits m Hma),
    (remove_dash_digits d Hda).
  change (remove_char "-" "-") with "". rewrite !append_nil_l. split.
  - apply Nat2Z.inj. fold (len (y ++ m ++ d)). rewrite !len_append.
    unfold len. lia.
  - now repeat apply all_chars_app.
Qed.

(** X7. The naming convention is always accepted.  For a plan whose dates
    have the schema's shape [dddd-dd-dd], the file name made of any two
    non-empty alphanumeric TADIGs, the plan's direction and the plan's
    dates without dashes, ended by [_D.xlsx], passes the validation, and the
    groups read back are the parts it was made of. *)
Theorem conventional_filename_is_accepted plan client partner :
  client <> "" -> all_chars is_alnum client ->
  partner <> "" -> all_chars is_alnum partner ->
  iso_date (start_date plan) -> iso_date (end_date plan) ->
  filename plan = expected_filename client partner plan ->
  filename_validation plan
  = Ok (mkMatch client partner (direction_str (direction plan))
          (remove_char "-" (start_date plan))
          (remove_char "-" (end_date plan))).
Proof.
  intros Hc Hca Hp Hpa Hs He Hname.
  apply iso_date_digits in Hs as [Hsl Hsd], He as [Hel Hed].
  apply filename_validation_ok. cbn [g_direction g_start g_end].
  split; [|auto]. apply FILENAME_PATTERN_match_complete.
  exists "". cbn [g_client g_partner g_direction g_start g_end].
  rewrite Hname. unfold expected_filename.
  repeat split; auto.
  destruct (direction plan); auto.
Qed.

Lemma conventional_filename_is_accepted_witness :
  filename_validation scenario_C_plan
  = Ok (mkMatch "ABCD" "WXYZ" "TI" "20240101" "20241231").
Proof.
  assert (Hd : forall y m d : string,
            String.length y = 4%nat -> all_chars is_digit y ->
            String.length m = 2%nat -> all_chars is_digit m ->
            String.length d = 2%nat -> all_chars is_digit d ->
            iso_date (y ++ "-" ++ m ++ "-" ++ d)).
  { intros y m d ? ? ? ? ? ?. exists y, m, d. auto 10. }
  assert (Hall : forall p s, forallb p (chars s) = true -> all_chars p s).
  { intros p s Hb. unfold all_chars. apply Forall_forall. intros c Hc.
    rewrite forallb_forall in Hb. apply Hb. now apply list_elem_of_In. }
  apply (conventional_filename_is_accepted scenario_C_plan "ABCD" "WXYZ").
  - discriminate.
  - now apply Hall.
  - discriminate.
  - now apply Hall.
  - apply (Hd "2024" "01" "01"); auto.
  - apply (Hd "2024" "12" "31"); auto.
  - reflexivity.
Defined.

(** ** When the templater succeeds, and what a run over several plans leaves *)

Lemma mkdir_exist_ok_inv p fs0 u fs1 :
  mkdir_exist_ok p fs0 = (Ok u, fs1) ->
  files fs0 !! p = None /\ fs1 = mkFS ({[p]} ∪ dirs fs0) (files fs0).
Proof.
  unfold mkdir_exist_ok, bind, get_fs, put_fs, raise.
  destruct (bool_decide (is_Some (files fs0 !! p))) eqn:Hb; [discriminate|].
  intros [= _ <-]. split; [|reflexivity].
  apply bool_decide_eq_false in Hb. now apply eq_None_not_Some.
Qed.

Lemma write_file_inv p f fs0 u fs1 :
  write_file p f fs0 = (Ok u, fs1) ->
  p ∉ dirs fs0 /\ fs1 = mkFS (dirs fs0) (<[p := f]> (files fs0)).
Proof.
  unfold write_file, bind, get_fs, put_fs, raise.
  destruct (bool_decide (p ∈ dirs fs0)) eqn:Hb; [discriminate|].
  intros [= _ <-]. split; [|reflexivity]. now apply bool_decide_eq_false in Hb.
Qed.

Lemma load_workbook_inv p fs0 ws fs1 :
  load_workbook p fs0 = (Ok ws, fs1) ->
  supported_format p = true
  /\ files fs0 !! p = Some (FWorkbook ws) /\ fs1 = fs0.
Proof.
  unfold load_workbook.
  destruct (supported_format p); cbn [negb]; [|discriminate].
  unfold bind, get_fs, ret, raise.
  destruct (files fs0 !! p) as [[ws'| | |]|]; try discriminate.
  - intros [= -> <-]. auto.
  - destruct (bool_decide (p ∈ dirs fs0)); discriminate.
Qed.

Lemma shutil_copy_inv src dst fs0 u fs1 :
  shutil_copy src dst fs0 = (Ok u, fs1) ->
  exists content target,
    files fs0 !! src = Some content
    /\ target = (if bool_decide (dst ∈ dirs fs0)
                 then path_join dst (path_name src) else dst)
    /\ target <> src /\ target ∉ dirs fs0
    /\ fs1 = mkFS (dirs fs0) (<[target := content]> (files fs0)).
Proof.
  unfold shutil_copy, bind at 1, get_fs.
  destruct (files fs0 !! src) as [content|].
  - set (target := if bool_decide (dst ∈ dirs fs0) then _ else _).
    destruct (bool_decide (target = src)) eqn:Hsame; [discriminate|].
    intros Hw. apply write_file_inv in Hw as [Hnd ->].
    exists content, target. apply bool_decide_eq_false in Hsame. auto 6.
  - destruct (bool_decide (src ∈ dirs fs0)); discriminate.
Qed.

Lemma _generate_excel_from_template_inv_full
    template_path dest_path plan fs0 u fs1 :
  _generate_excel_from_template template_path dest_path plan fs0 = (Ok u, fs1) ->
  exists m ws0,
    filename_validation plan = Ok m
    /\ files fs0 !! template_path = Some (FWorkbook ws0)
    /\ files fs0 !! path_parent dest_path = None
    /\ dest_path ∉ dirs fs0
    /\ dest_path <> path_parent dest_path
    /\ dest_path <> template_path
    /\ supported_format dest_path = true
    /\ cells_accepted plan
    /\ fs1 = templated_fs fs0 dest_path (populate_sheet ws0 plan).
Proof.
  unfold _generate_excel_from_template. intros Hrun.
  unfold bind at 1, lift_result in Hrun.
  destruct (filename_validation plan) as [m|e] eqn:Hv; [|discriminate].
  unfold bind at 1 in Hrun.
  destruct (mkdir_exist_ok _ fs0) as [[[]|e] fsa] eqn:Hmk; [|discriminate].
  apply mkdir_exist_ok_inv in Hmk as [Hparent ->].
  unfold bind at 1 in Hrun.
  destruct (shutil_copy _ _ _) as [[[]|e] fsb] eqn:Hcp; [|discriminate].
  apply shutil_copy_inv in Hcp
    as (content & target & Hsrc & Htarget & Hne & Hnd & ->).
  cbn [dirs files] in *.
  unfold bind at 1 in Hrun.
  destruct (load_workbook _ _) as [[ws|e] fsc] eqn:Hld; [|discriminate].
  apply load_workbook_inv in Hld as (Hfmt & Hdest & ->).
  unfold bind at 1, lift_result in Hrun.
  rewrite sheet_after_write_plan_cells in Hrun.
  destruct (has_illegal_char (cell_text (partner_tadig plan))) eqn:Hlp;
    [discriminate|].
  destruct (has_illegal_char (cell_text (currency plan))) eqn:Hlc;
    [discriminate|].
  unfold save_workbook in Hrun. apply write_file_inv in Hrun as [Hdd ->].
  cbn [dirs files] in *.
  rewrite bool_decide_eq_false_2 in Htarget by exact Hdd. subst target.
  rewrite lookup_insert_eq in Hdest. injection Hdest as ->.
  exists m, ws. repeat split; try assumption.
  - intros Hin. apply Hdd. set_solver.
  - intros Heq. apply Hdd. rewrite <- Heq. set_solver.
  - unfold templated_fs. now rewrite insert_insert_eq.
Qed.

Lemma _generate_excel_from_template_inv template_path dest_path plan fs0 u fs1 :
  _generate_excel_from_template template_path dest_path plan fs0 = (Ok u, fs1) ->
  exists m ws0,
    filename_validation plan = Ok m
    /\ files fs0 !! template_path = Some (FWorkbook ws0)
    /\ files fs0 !! path_parent dest_path = None
    /\ dest_path ∉ dirs fs0
    /\ dest_path <> path_parent dest_path
    /\ dest_path <> template_path
    /\ fs1 = templated_fs fs0 dest_path (populate_sheet ws0 plan).
Proof.
  intros Hrun. apply _generate_excel_from_template_inv_full in Hrun
    as (m & ws0 & Hv & Ht & Hp & Hd & Hdp & Hdt & _ & _ & Hfs).
  exists m, ws0. auto 10.
Qed.



(** One turn of the loop.  A rejected file name raises before the path is
    used. *)
Lemma write_excel_files_cons template_source output_dir plan rest acc fs0 :
  write_excel_files template_source output_dir (plan :: rest) acc fs0
  = (_generate_excel_from_template template_source (dest_of output_dir plan)
       plan ;;;
     write_excel_files template_source output_dir rest
       (acc ++ [dest_of output_dir plan])) fs0.
Proof.
  cbn [write_excel_files].
  destruct (filename_validation plan) as [m|e] eqn:Hv.
  - now rewrite (path_div_dest_of _ _ _ Hv).
  - cbv zeta. unfold bind.
    now rewrite !(rejected_plan_touches_nothing _ _ _ _ _ Hv).
Qed.

Lemma write_excel_files_app template_source output_dir plans1 plans2 acc fs0 :
  write_excel_files template_source output_dir (plans1 ++ plans2) acc fs0
  = bind (write_excel_files template_source output_dir plans1 acc)
         (write_excel_files template_source output_dir plans2) fs0.
Proof.
  revert acc fs0. induction plans1 as [|plan rest IH]; intros acc fs0.
  - reflexivity.
  - cbn [app write_excel_files]. unfold bind.
    destruct (_generate_excel_from_template _ _ _ fs0) as [[[]|e] fsa];
      [rewrite IH|]; reflexivity.
Qed.

Lemma append_inv_head (a b c : string) : a ++ b = a ++ c -> b = c.
Proof.
  induction a as [|x a IH]; [now rewrite !append_nil_l|].
  rewrite !append_cons. intros [= H]. auto.
Qed.

Lemma dest_of_inj output_dir plan1 plan2 :
  dest_of output_dir plan1 = dest_of output_dir plan2 ->
  filename plan1 = filename plan2.
Proof.
  unfold dest_of, path_join. intros H.
  now do 2 apply append_inv_head in H.
Qed.

Lemma written_files_cons output_dir ws0 plan rest fm :
  written_files output_dir ws0 (plan :: rest) fm
  = written_files output_dir ws0 rest
      (<[dest_of output_dir plan := FWorkbook (populate_sheet ws0 plan)]> fm).
Proof. reflexivity. Qed.

Lemma written_files_other output_dir ws0 plans fm p :
  p ∉ map (dest_of output_dir) plans ->
  written_files output_dir ws0 plans fm !! p = fm !! p.
Proof.
  revert fm. induction plans as [|plan rest IH]; intros fm Hp; [reflexivity|].
  simpl in Hp. apply not_elem_of_cons in Hp as [Hne Hp].
  rewrite written_files_cons.
  rewrite IH by assumption. now apply lookup_insert_ne.
Qed.

(** Under a name, the workbook of the last plan of that name. *)
Lemma written_files_last output_dir ws0 plans fm i plan :
  plans !! i = Some plan ->
  (forall j plan', (i < j)%nat -> plans !! j = Some plan' ->
                   filename plan' <> filename plan) ->
  written_files output_dir ws0 plans fm !! dest_of output_dir plan
  = Some (FWorkbook (populate_sheet ws0 plan)).
Proof.
  revert fm i. induction plans as [|q rest IH]; intros fm i Hi Hlater;
    [discriminate|].
  rewrite written_files_cons.
  destruct i as [|i]; simpl in Hi.
  - injection Hi as ->. rewrite written_files_other.
    + apply lookup_insert_eq.
    + intros Hin. apply list_elem_of_lookup in Hin as [j Hj].
      change (map (dest_of output_dir) rest) with (dest_of output_dir <$> rest) in Hj.
      rewrite list_lookup_fmap in Hj.
      destruct (rest !! j) as [plan'|] eqn:Hrj; [|discriminate].
      injection Hj as Hj. symmetry in Hj. apply dest_of_inj in Hj.
      apply (Hlater (S j) plan'); [lia | exact Hrj | congruence].
  - apply (IH _ i Hi). intros j plan' Hlt Hj.
    apply (Hlater (S j) plan'); [lia | exact Hj].
Qed.

Lemma written_files_workbooks output_dir ws0 plans fm :
  Forall (fun plan =>
            exists ws, written_files output_dir ws0 plans fm
                       !! dest_of output_dir plan = Some (FWorkbook ws))
         plans.
Proof.
  revert fm. induction plans as [|q rest IH]; intros fm; constructor.
  - rewrite written_files_cons.
    destruct (decide (dest_of output_dir q ∈ map (dest_of output_dir) rest))
      as [Hin | Hnin].
    + specialize (IH (<[dest_of output_dir q
                        := FWorkbook (populate_sheet ws0 q)]> fm)).
      rewrite Forall_forall in IH.
      change (map (dest_of output_dir) rest) with (dest_of output_dir <$> rest) in Hin.
      apply list_elem_of_fmap in Hin as (plan' & Heq & Hin').
      destruct (IH plan' Hin') as [ws Hws]. exists ws.
      rewrite <- Heq in Hws. exact Hws.
    + rewrite written_files_other by assumption.
      rewrite lookup_insert_eq. eauto.
  - apply IH.
Qed.

Lemma write_excel_files_inv template_source output_dir plans acc fs0 paths fs1 :
  write_excel_files template_source output_dir plans acc fs0 = (Ok paths, fs1) ->
  paths = (acc ++ map (dest_of output_dir) plans)%list
  /\ Forall (fun plan => exists m, filename_validation plan = Ok m) plans
  /\ (plans = [] -> fs1 = fs0)
  /\ (plans <> [] ->
      exists ws0,
        files fs0 !! template_source = Some (FWorkbook ws0)
        /\ template_source ∉ map (dest_of output_dir) plans
        /\ fs1 = mkFS ({[output_dir]} ∪ dirs fs0)
                      (written_files output_dir ws0 plans (files fs0))).
Proof.
  revert acc fs0. induction plans as [|plan rest IH]; intros acc fs0 Hrun.
  - injection Hrun as <- <-. rewrite app_nil_r. split; [reflexivity|].
    split; [constructor|]. split; congruence.
  - rewrite write_excel_files_cons in Hrun. unfold bind at 1 in Hrun.
    destruct (_generate_excel_from_template _ _ _ fs0) as [[[]|e] fsa] eqn:Hgen;
      [|discriminate].
    apply _generate_excel_from_template_inv in Hgen
      as (m & ws0 & Hv & Ht & _ & _ & _ & Hne & ->).
    unfold templated_fs in Hrun.
    rewrite (path_parent_dest_of _ _ _ Hv) in Hrun.
    apply IH in Hrun as (-> & Hall & Hnil & Hrest).
    split; [now rewrite <- app_assoc|]. split; [constructor; eauto|].
    split; [discriminate|].
    intros _. exists ws0. split; [exact Ht|].
    rewrite written_files_cons.
    destruct rest as [|q rest'].
    + rewrite (Hnil eq_refl). split; [|reflexivity].
      simpl. intros Hin%list_elem_of_singleton. congruence.
    + destruct Hrest as (ws1 & Ht1 & Hnin & ->); [discriminate|].
      cbn [files dirs] in *.
      rewrite lookup_insert_ne in Ht1 by exact Hne.
      rewrite Ht in Ht1. injection Ht1 as <-. split.
      * intros [Heq | Hin]%elem_of_cons; [congruence | contradiction].
      * f_equal. set_solver.
Qed.

(** X9. What a completed run of the loop over the plans leaves.  The
    returned list is the given one followed by [output_dir / plan.filename]
    for every plan in order, so it has one entry per plan.  Every workbook is
    made from the template as it was before the loop; where several plans
    share a file name there is one file, holding the sheet of the last of
    them.  The template and every other file are untouched, and the only
    directory made is the output directory. *)
Theorem write_excel_files_completed
    template_source output_dir plans acc fs0 paths fs1 :
  write_excel_files template_source output_dir plans acc fs0 = (Ok paths, fs1) ->
  plans <> [] ->
  paths = (acc ++ map (fun plan => path_join output_dir (filename plan)) plans)%list
  /\ length paths = (length acc + length plans)%nat
  /\ exists ws0,
       files fs0 !! template_source = Some (FWorkbook ws0)
       /\ files fs1 !! template_source = Some (FWorkbook ws0)
       /\ (forall i plan,
             plans !! i = Some plan ->
             (forall j plan', (i < j)%nat -> plans !! j = Some plan' ->
                              filename plan' <> filename plan) ->
             files fs1 !! path_join output_dir (filename plan)
             = Some (FWorkbook (populate_sheet ws0 plan)))
       /\ (forall p,
             p ∉ map (fun plan => path_join output_dir (filename plan)) plans ->
             files fs1 !! p = files fs0 !! p)
       /\ dirs fs1 = {[output_dir]} ∪ dirs fs0.
Proof.
  intros Hrun Hne.
  apply write_excel_files_inv in Hrun as (-> & _ & _ & Hrest).
  destruct (Hrest Hne) as (ws0 & Ht & Hnin & ->). cbn [files dirs].
  split; [reflexivity|]. split; [now rewrite length_app, length_map|].
  exists ws0. split; [exact Ht|]. split; [|split; [|split]].
  - now rewrite written_files_other.
  - intros i plan Hi Hlater. now apply (written_files_last _ _ _ _ i).
  - intros p Hp. now apply written_files_other.
  - reflexivity.
Qed.

Lemma write_excel_files_completed_witness :
  let run := write_excel_files template_path_ex "/srv/output/agreement"
               [scenario_C_plan; scenario_C_plan_mt] [] template_fs in
  fst run = Ok [dest_path_ex scenario_C_plan; dest_path_ex scenario_C_plan]
  /\ files (snd run) !! dest_path_ex scenario_C_plan
     = Some (FWorkbook (populate_sheet template_sheet scenario_C_plan_mt)).
Proof.
  cbv zeta.
  assert (Hany : forall paths fs1,
            write_excel_files template_path_ex "/srv/output/agreement"
              [scenario_C_plan; scenario_C_plan_mt] [] template_fs
            = (Ok paths, fs1) ->
            files fs1 !! dest_path_ex scenario_C_plan
            = Some (FWorkbook (populate_sheet template_sheet scenario_C_plan_mt))).
  { intros paths fs1 Hrun.
    destruct (write_excel_files_completed _ _ _ _ _ _ _ Hrun ltac:(discriminate))
      as (_ & _ & ws0 & Ht & _ & Hlast & _).
    assert (Hws : ws0 = template_sheet).
    { assert (Hex : files template_fs !! template_path_ex
                     = Some (FWorkbook template_sheet)) by by_evaluation.
      rewrite Hex in Ht. now injection Ht. }
    rewrite <- Hws. apply (Hlast 1%nat scenario_C_plan_mt eq_refl).
    intros [|[|j]] plan' Hlt Hj; [lia | lia | discriminate Hj]. }
  split; [by_evaluation|].
  apply (Hany
           (ok_value []
              (fst (write_excel_files template_path_ex "/srv/output/agreement"
                      [scenario_C_plan; scenario_C_plan_mt] [] template_fs)))
           (snd (write_excel_files template_path_ex "/srv/output/agreement"
                   [scenario_C_plan; scenario_C_plan_mt] [] template_fs))).
  by_evaluation.
Defined.

(** X10. Nothing is rolled back.  When the plans before a rejected one
    were written, the loop ends with the rejected plan's error in the state
    those plans left: their workbooks stay in the output directory, and no
    later plan is looked at. *)
Theorem write_excel_files_keeps_earlier_workbooks
    template_source output_dir good bad rest acc fs0 paths fs1 e :
  write_excel_files template_source output_dir good acc fs0 = (Ok paths, fs1) ->
  filename_validation bad = Raise e ->
  write_excel_files template_source output_dir (good ++ bad :: rest) acc fs0
  = (Raise e, fs1)
  /\ Forall (fun plan =>
               exists ws, files fs1 !! path_join output_dir (filename plan)
                          = Some (FWorkbook ws))
            good.
Proof.
  intros Hgood Hbad. split.
  - rewrite write_excel_files_app. unfold bind at 1. rewrite Hgood.
    rewrite write_excel_files_cons. unfold bind at 1.
    now rewrite (rejected_plan_touches_nothing _ _ _ _ _ Hbad).
  - apply write_excel_files_inv in Hgood as (_ & _ & _ & Hrest).
    destruct good as [|plan good']; [constructor|].
    destruct Hrest as (ws0 & _ & _ & ->); [discriminate|].
    apply written_files_workbooks.
Qed.

Lemma write_excel_files_keeps_earlier_workbooks_witness :
  let run := write_excel_files template_path_ex "/srv/output/agreement"
               [scenario_C_plan; scenario_D_plan; scenario_C_plan_mt] []
               template_fs in
  (exists detail, fst run = Raise (HTTPException 422 detail None))
  /\ files (snd run) !! dest_path_ex scenario_C_plan
     = Some (FWorkbook (populate_sheet template_sheet scenario_C_plan)).
Proof.
  cbv zeta.
  assert (Hany : forall paths fs1 e,
            write_excel_files template_path_ex "/srv/output/agreement"
              [scenario_C_plan] [] template_fs = (Ok paths, fs1) ->
            filename_validation scenario_D_plan = Raise e ->
            write_excel_files template_path_ex "/srv/output/agreement"
              [scenario_C_plan; scenario_D_plan; scenario_C_plan_mt] []
              template_fs = (Raise e, fs1)).
  { intros paths fs1 e Hgood Hbad.
    exact (proj1 (write_excel_files_keeps_earlier_workbooks _ _
                    [scenario_C_plan] scenario_D_plan [scenario_C_plan_mt]
                    _ _ _ _ _ Hgood Hbad)). }
  rewrite (Hany [dest_path_ex scenario_C_plan]
             (templated_fs template_fs (dest_path_ex scenario_C_plan)
                (populate_sheet template_sheet scenario_C_plan))
             (HTTPException 422 (direction_mismatch_detail
                (mkMatch "ABCD" "WXYZ" "TO" "20240101" "20241231")
                scenario_D_plan) None)); [|by_evaluation|by_evaluation].
  split; [eexists; reflexivity | by_evaluation].
Defined.

(** ** The run: failures before the generation, and what a run may send *)

Section Run.
Context `{Environment}.

Lemma extract_or_422_ok p w text :
  extract_text (fs w) p = Ok text -> extract_or_422 p w = (Ok text, w).
Proof. unfold extract_or_422. now intros ->. Qed.

Lemma extract_or_422_fails p w msg :
  extract_text (fs w) p = Raise (TextExtractionError msg) ->
  extract_or_422 p w
  = (Raise (HTTPException 422 msg (Some (TextExtractionError msg))), w).
Proof. unfold extract_or_422. now intros ->. Qed.

Lemma extract_standards_stops good bad rest acc w msg :
  Forall (fun p => exists text, extract_text (fs w) p = Ok text) good ->
  extract_text (fs w) bad = Raise (TextExtractionError msg) ->
  extract_standards (good ++ bad :: rest) acc w
  = (Raise (HTTPException 422 msg (Some (TextExtractionError msg))), w).
Proof.
  intros Hgood Hbad. revert acc.
  induction Hgood as [|p good [text Hp] _ IH]; intros acc.
  - cbn [app extract_standards]. unfold bind.
    now rewrite (extract_or_422_fails _ _ _ Hbad).
  - cbn [app extract_standards]. unfold bind at 1.
    rewrite (extract_or_422_ok _ _ _ Hp). apply IH.
Qed.

(** X11. A file that cannot be read ends the run before anything else
    happens.  When the agreement or a standard (the first, in the order
    agreement, standards) fails with a [TextExtractionError], the run raises
    422 with that error's message and cause; later files are not read, no
    generation call is made, no request is sent and no file or directory is
    written: only the clock was read. *)
Theorem extraction_failure_ends_the_run
    agreement_path standard_paths agreement_id batch_id model w
    good bad rest msg :
  (agreement_path :: standard_paths = good ++ bad :: rest)%list ->
  Forall (fun p => exists text, extract_text (fs w) p = Ok text) good ->
  extract_text (fs w) bad = Raise (TextExtractionError msg) ->
  generate_loader_artifacts agreement_path standard_paths agreement_id
    batch_id model w
  = (Raise (HTTPException 422 msg (Some (TextExtractionError msg))),
     clock_read w).
Proof.
  intros Hsplit Hgood Hbad.
  assert (Hprep : prepare_inputs agreement_path standard_paths w
                  = (Raise (HTTPException 422 msg
                              (Some (TextExtractionError msg))),
                     clock_read w)).
  { unfold prepare_inputs. unfold bind at 1. unfold _utc_now at 1.
    fold (clock_read w). unfold bind at 1.
    destruct good as [|first good'].
    - injection Hsplit as -> _.
      now rewrite (extract_or_422_fails _ (clock_read w) msg Hbad).
    - injection Hsplit as -> ->.
      apply Forall_cons in Hgood as [[text Hfirst] Hgood].
      rewrite (extract_or_422_ok _ (clock_read w) _ Hfirst).
      unfold bind at 1.
      now rewrite (extract_standards_stops good' bad rest [] (clock_read w) msg). }
  unfold generate_loader_artifacts, generate_and_validate.
  rewrite !bind_run, Hprep. reflexivity.
Qed.

Lemma sends_at_most_keeps_api {A} P (m : M A) :
  keeps_api m -> sends_at_most P 0 m.
Proof.
  intros Hk w. exists []. destruct (Hk w) as (_ & -> & _).
  rewrite app_nil_r. auto.
Qed.

Lemma sends_at_most_weaken {A} P n n' (m : M A) :
  (n <= n')%nat -> sends_at_most P n m -> sends_at_most P n' m.
Proof.
  intros Hle Hm w. destruct (Hm w) as (l & Hl & Hlen & HP).
  exists l. repeat split; [assumption | lia | assumption].
Qed.

Lemma sends_at_most_bind {A B} P n1 n2 (m : M A) (k : A -> M B) :
  sends_at_most P n1 m -> (forall a, sends_at_most P n2 (k a)) ->
  sends_at_most P (n1 + n2) (bind m k).
Proof.
  intros Hm Hk w. rewrite bind_run.
  destruct (Hm w) as (l1 & Hl1 & Hlen1 & HP1).
  destruct (m w) as [[a|e] w1]; cbn [fst snd] in *.
  - destruct (Hk a w1) as (l2 & Hl2 & Hlen2 & HP2).
    exists (l1 ++ l2)%list. rewrite Hl2, Hl1, app_assoc, length_app.
    repeat split; [lia | now apply Forall_app].
  - exists l1. repeat split; [assumption | lia | assumption].
Qed.

Lemma sends_at_most_generate_json_object model user_prompt retries :
  sends_at_most (request_of_run model) (Z.to_nat (retries + 1))
    (generate_json_object model SYSTEM_PROMPT user_prompt retries None).
Proof.
  intros w.
  destruct (generate_json_object_call_bound model SYSTEM_PROMPT user_prompt
              retries None w) as (calls & Hle & Hlog).
  exists (replicate calls (request_of model SYSTEM_PROMPT user_prompt None)).
  rewrite length_replicate. repeat split; [exact Hlog | exact Hle |].
  apply Forall_replicate. repeat split.
Qed.

Lemma sends_at_most_obtain_loader model user_prompt :
  sends_at_most (request_of_run model) 5 (obtain_loader model user_prompt).
Proof.
  unfold obtain_loader. change 5%nat with (3 + 2)%nat.
  apply sends_at_most_bind;
    [apply (sends_at_most_generate_json_object model user_prompt 2)|].
  intros first.
  destruct (_parse_and_validate_loader_json (fst first)) as [loader|e].
  - apply (sends_at_most_weaken _ 0); [lia|].
    apply sends_at_most_keeps_api, keeps_api_ret.
  - destruct e;
      try (apply (sends_at_most_weaken _ 0); [lia|];
           apply sends_at_most_keeps_api, keeps_api_raise).
    change 2%nat with (2 + 0)%nat.
    apply sends_at_most_bind;
      [apply (sends_at_most_generate_json_object model _ 1)|].
    intros second. apply sends_at_most_keeps_api.
    destruct (_parse_and_validate_loader_json (fst second)) as [loader|[]];
      (apply keeps_api_ret || apply keeps_api_raise).
Qed.

(** X12. A run is frugal and uniform: whatever the files, the answers and
    the outcome, it sends at most five requests to the model (three for the
    generation, two for the repair), and every one of them names the
    caller's model, temperature 0, the fixed system prompt, the JSON-object
    response format and the default time-out. *)
Theorem run_sends_at_most_five_requests
    agreement_path standard_paths agreement_id batch_id model w :
  exists requests,
    api_log (snd (generate_loader_artifacts agreement_path standard_paths
                    agreement_id batch_id model w))
    = (api_log w ++ requests)%list
    /\ (length requests <= 5)%nat
    /\ Forall (fun req =>
                 req_model req = model
                 /\ req_temperature req = 0
                 /\ req_system req = SYSTEM_PROMPT
                 /\ req_response_format req = "json_object"
                 /\ req_timeout req = _DEFAULT_TIMEOUT)
              requests.
Proof.
  assert (Hrun : sends_at_most (request_of_run model) (0 + (5 + 0) + 0)
                   (generate_loader_artifacts agreement_path standard_paths
                      agreement_id batch_id model)).
  { unfold generate_loader_artifacts, generate_and_validate.
    apply sends_at_most_bind.
    - apply sends_at_most_bind.
      + apply sends_at_most_keeps_api, keeps_api_prepare_inputs.
      + intros p. apply sends_at_most_bind; [apply sends_at_most_obtain_loader|].
        intros v. apply sends_at_most_keeps_api, keeps_api_ret.
    - intros g. apply sends_at_most_keeps_api, keeps_api_write_artifacts. }
  exact (Hrun w).
Qed.

Lemma client_available_keeps_api {A} (m : M A) w :
  keeps_api m -> client_available (snd (m w)) <-> client_available w.
Proof.
  intros Hk. destruct (Hk w) as (_ & _ & _ & Hkey & Hclient).
  unfold client_available. now rewrite Hkey, Hclient.
Qed.

(** X13. Without an API key (and without a client made earlier) the run
    reads the files, builds the prompt and then fails with the
    [RuntimeError] of [get_openai_client], which is no HTTP error: nothing is
    sent to the model and nothing is written. *)
Theorem missing_key_stops_the_run
    agreement_path standard_paths agreement_id batch_id model w p wp :
  prepare_inputs agreement_path standard_paths w = (Ok p, wp) ->
  ~ client_available w ->
  exists w',
    generate_loader_artifacts agreement_path standard_paths agreement_id
      batch_id model w
    = (Raise missing_key_error, w')
    /\ api_log w' = api_log w
    /\ fs w' = fs w
    /\ generation_log w'
       = (generation_log w
          ++ [mkGenerationCall model SYSTEM_PROMPT
                (user_prompt_of agreement_path p) 2])%list.
Proof.
  intros Hprep Hno.
  pose proof (keeps_api_prepare_inputs agreement_path standard_paths w) as Hapi.
  pose proof (keeps_fs_prepare_inputs agreement_path standard_paths w) as Hfs.
  pose proof (client_available_keeps_api _ w
                (keeps_api_prepare_inputs agreement_path standard_paths)) as Hca.
  rewrite Hprep in Hapi, Hfs, Hca. cbn [snd] in Hapi, Hfs, Hca.
  destruct Hapi as (Hgl & Hal & _).
  assert (Hno' : ~ client_available wp) by now rewrite Hca.
  pose proof (generate_json_object_no_client model SYSTEM_PROMPT
                (user_prompt_of agreement_path p) 2 None wp Hno') as Hgen.
  eexists. split.
  - unfold generate_loader_artifacts. rewrite bind_run.
    unfold generate_and_validate. rewrite bind_run, Hprep. cbn [fst snd].
    rewrite bind_run. unfold obtain_loader. rewrite bind_run, Hgen.
    reflexivity.
  - cbn. rewrite Hal, Hfs, Hgl. auto.
Qed.

(** X14. The line after the loop can be reached: with a negative [retries]
    the loop body never runs, so [generate_json_object] sends nothing and
    raises 502 with the detail [OpenAI call failed: None] and no cause. *)
Theorem negative_retries_send_nothing
    model system_prompt user_prompt retries timeout w :
  retries < 0 ->
  client_available w ->
  generate_json_object model system_prompt user_prompt retries timeout w
  = (Raise (HTTPException 502 "OpenAI call failed: None" None),
     entered w (mkGenerationCall model system_prompt user_prompt retries))
  /\ api_log (entered w (mkGenerationCall model system_prompt user_prompt
                           retries))
     = api_log w.
Proof.
  intros Hneg Hca. split; [|reflexivity].
  rewrite (generate_json_object_run _ _ _ _ _ _ Hca).
  replace (Z.to_nat (retries + 1)) with 0%nat by lia. reflexivity.
Qed.

End Run.

Lemma extraction_failure_ends_the_run_witness :
  @generate_loader_artifacts example_environment agreement_path_ex
    [template_path_ex; "/srv/uploads/standards/b1/notes.pdf"] "a1" "b1"
    "gpt-4.1-mini" (example_world [])
  = (Raise (HTTPException 422 "Failed to read PDF file: notes.pdf"
              (Some (TextExtractionError "Failed to read PDF file: notes.pdf"))),
     clock_read (example_world [])).
Proof.
  apply (@extraction_failure_ends_the_run example_environment _ _ _ _ _ _
           [agreement_path_ex; template_path_ex]
           "/srv/uploads/standards/b1/notes.pdf" []).
  - reflexivity.
  - constructor; [exists "  agreement text "; by_evaluation|].
    constructor; [exists "SMS MO 0.5 EUR"; by_evaluation | constructor].
  - by_evaluation.
Defined.

Lemma missing_key_stops_the_run_witness :
  let w := mkWorld example_fs None false (scripted []) [] [] 0 in
  exists w',
    @generate_loader_artifacts example_environment agreement_path_ex
      [template_path_ex] "a1" "b1" "gpt-4.1-mini" w
    = (Raise missing_key_error, w')
    /\ api_log w' = [] /\ fs w' = example_fs.
Proof.
  cbv zeta.
  assert (Hany : forall p wp,
            @prepare_inputs example_environment agreement_path_ex
              [template_path_ex]
              (mkWorld example_fs None false (scripted []) [] [] 0)
            = (Ok p, wp) ->
            exists w',
              @generate_loader_artifacts example_environment agreement_path_ex
                [template_path_ex] "a1" "b1" "gpt-4.1-mini"
                (mkWorld example_fs None false (scripted []) [] [] 0)
              = (Raise missing_key_error, w')
              /\ api_log w' = [] /\ fs w' = example_fs).
  { intros p wp Hprep.
    destruct (@missing_key_stops_the_run example_environment agreement_path_ex
                [template_path_ex] "a1" "b1" "gpt-4.1-mini" _ p wp Hprep)
      as (w' & Hrun & Hlog & Hfs & _).
    - intros [Hc | (key & Hk & _)]; discriminate.
    - exists w'. auto. }
  apply (Hany
           (ok_value no_prepared
              (fst (@prepare_inputs example_environment agreement_path_ex
                      [template_path_ex]
                      (mkWorld example_fs None false (scripted []) [] [] 0))))
           (snd (@prepare_inputs example_environment agreement_path_ex
                   [template_path_ex]
                   (mkWorld example_fs None false (scripted []) [] [] 0)))).
  by_evaluation.
Defined.

Lemma negative_retries_send_nothing_witness :
  @generate_json_object example_environment "gpt-4.1-mini" "system" "user"
    (-1) None (example_world [])
  = (Raise (HTTPException 502 "OpenAI call failed: None" None),
     entered (example_world [])
       (mkGenerationCall "gpt-4.1-mini" "system" "user" (-1))).
Proof.
  destruct (@negative_retries_send_nothing example_environment
              "gpt-4.1-mini" "system" "user" (-1) None (example_world []))
    as [Hrun _].
  - lia.
  - right. exists "sk-test". split; [reflexivity | discriminate].
  - exact Hrun.
Defined.

(** ** What a completed run leaves, and what a run without standards leaves *)

Lemma path_join_assoc a b c :
  path_join (path_join a b) c = path_join a (path_join b c).
Proof. unfold path_join. now rewrite !append_assoc. Qed.

Lemma relative_to_join base r : relative_to base (path_join base r) = Ok r.
Proof.
  unfold relative_to.
  rewrite (proj2 (String.eqb_neq _ _) (path_join_ne_parent base r)).
  assert (He : expect (base ++ "/") (path_join base r) = Some r).
  { apply expect_spec. unfold path_join. now rewrite append_assoc. }
  now rewrite He.
Qed.

Lemma is_absolute_head c x y :
  is_absolute (String c x) = is_absolute (String c y).
Proof. destruct c as [[] [] [] [] [] [] [] []]; reflexivity. Qed.

Lemma is_absolute_join base r x :
  is_absolute (path_join base (path_join r x)) = is_absolute (path_join base r).
Proof.
  unfold path_join. destruct base as [|c base].
  - rewrite !append_nil_l. reflexivity.
  - rewrite !append_cons. apply is_absolute_head.
Qed.

Lemma squash_unsafe_safe in_run s :
  all_chars is_safe_char (squash_unsafe in_run s).
Proof.
  unfold all_chars. revert in_run.
  induction s as [|c s IH]; intros in_run; simpl; [constructor|].
  destruct (is_safe_char c) eqn:Hc.
  - simpl. constructor; [exact Hc | apply IH].
  - destruct in_run; [apply IH|]. simpl. constructor; [reflexivity | apply IH].
Qed.

Lemma strip_by_all_chars p q s :
  all_chars q s -> all_chars q (strip_by p s).
Proof.
  unfold all_chars. fold (chars s) (chars (strip_by p s)).
  rewrite !Forall_forall. intros Hall c Hc. apply Hall.
  apply list_elem_of_In. apply list_elem_of_In in Hc.
  unfold strip_by in Hc. now apply rstrip_by_chars, lstrip_by_chars in Hc.
Qed.

Lemma safe_chars_no_slash s :
  all_chars is_safe_char s -> ~ In "/"%char (chars s).
Proof. now apply all_chars_no_slash. Qed.

Lemma safe_agreement_base_name_plain stored_filename agreement_id :
  plain_name (safe_agreement_base_name stored_filename agreement_id).
Proof.
  unfold safe_agreement_base_name.
  set (original := if startswith _ _ then _ else _). clearbody original.
  set (stem := strip_by is_trim_char (squash_unsafe false (path_stem original))).
  assert (Hsafe : all_chars is_safe_char stem).
  { apply strip_by_all_chars, squash_unsafe_safe. }
  assert (Hfirst : forall c, first_char stem = Some c -> is_trim_char c = false).
  { intros c. unfold stem, strip_by. apply rstrip_by_first, lstrip_by_first. }
  clearbody stem.
  destruct (String.eqb_spec stem "") as [->|Hne].
  - repeat split; try discriminate. simpl. intuition discriminate.
  - repeat split; try assumption.
    + intros ->. specialize (Hfirst "."%char eq_refl). discriminate.
    + intros ->. specialize (Hfirst "."%char eq_refl). discriminate.
    + now apply safe_chars_no_slash.
Qed.

Lemma create_versioned_output_dir_inv parent base_name fs0 p fs1 :
  plain_name base_name ->
  create_versioned_output_dir parent base_name fs0 = (Ok p, fs1) ->
  exists name,
    p = path_join parent name
    /\ path_exists fs0 p = false
    /\ fs1 = mkFS ({[p]} ∪ ({[parent]} ∪ dirs fs0)) (files fs0).
Proof.
  intros Hplain. destruct (files fs0 !! parent) as [f|] eqn:Hfile.
  { unfold create_versioned_output_dir, ensure_dir, bind.
    rewrite mkdir_exist_ok_fail by (rewrite Hfile; eauto). discriminate. }
  rewrite create_versioned_output_dir_run by assumption.
  destruct (first_free fs0 parent (version_candidates base_name)) as [name|] eqn:Hf;
    [|discriminate].
  intros [= <- <-]. exists name.
  pose proof (first_free_in _ _ _ _ Hf) as Hin.
  apply version_candidates_plain in Hplain. rewrite Forall_forall in Hplain.
  apply first_free_some in Hf as (earlier & later & _ & _ & Hn).
  unfold taken in Hn. rewrite path_div_plain in Hn by auto.
  split; [reflexivity|]. split; [|reflexivity].
  now destruct (path_exists fs0 _).
Qed.

Lemma lift_fs_ok {A} (m : FSM A) w a w' :
  lift_fs m w = (Ok a, w') ->
  exists fs1, m (fs w) = (Ok a, fs1) /\ w' = with_fs w fs1.
Proof.
  rewrite lift_fs_run. destruct (m (fs w)) as [r fs1]. cbn [fst snd].
  intros [= -> <-]. eauto.
Qed.

Lemma lift_result_world {A} (r : Result A) (w : World) a w' :
  lift_result r w = (Ok a, w') -> r = Ok a /\ w' = w.
Proof. unfold lift_result. intros [= -> ->]. auto. Qed.

Section Manifest.
Context `{Environment}.

Lemma rel_or_self_under_base r x r0 :
  rel_or_self (path_join BASE_DIR r) = Ok r0 ->
  rel_or_self (path_join (path_join BASE_DIR r) x) = Ok (path_join r0 x).
Proof.
  unfold rel_or_self. rewrite path_join_assoc, is_absolute_join.
  destruct (is_absolute (path_join BASE_DIR r)).
  - rewrite !relative_to_join. now intros [= <-].
  - intros [= <-]. now rewrite path_join_assoc.
Qed.

Lemma rel_or_self_all_under_base r r0 (names : list string) :
  rel_or_self (path_join BASE_DIR r) = Ok r0 ->
  rel_or_self_all (map (path_join (path_join BASE_DIR r)) names)
  = Ok (map (path_join r0) names).
Proof.
  intros Hr. induction names as [|x names IH]; [reflexivity|].
  cbn [map rel_or_self_all].
  now rewrite (rel_or_self_under_base _ x _ Hr), IH.
Qed.

Lemma write_artifacts_inv ap sps aid bid model g w resp w' :
  write_artifacts ap sps aid bid model g w = (Ok resp, w') ->
  exists plan plans template_source rest out_dir fs1 data paths fs3 j,
    excel_outputs (gen_loader g) = plan :: plans
    /\ sps = template_source :: rest
    /\ create_versioned_output_dir OUTPUT_DIR
         (safe_agreement_base_name (path_name ap) aid) (fs w)
       = (Ok out_dir, fs1)
    /\ json_loads (gen_raw_json g) = inr data
    /\ path_join out_dir "loader.json" ∉ dirs fs1
    /\ write_excel_files template_source out_dir (plan :: plans) []
         (mkFS (dirs fs1)
               (<[path_join out_dir "loader.json" := FJson data]> (files fs1)))
       = (Ok paths, fs3)
    /\ path_join out_dir "meta.json" ∉ dirs fs3
    /\ fs w' = mkFS (dirs fs3)
                    (<[path_join out_dir "meta.json" := FJournal j]> (files fs3))
    /\ rel_or_self out_dir = Ok (output_dir resp)
    /\ rel_or_self (path_join out_dir "loader.json") = Ok (loader_json_path resp)
    /\ rel_or_self (path_join out_dir "meta.json") = Ok (meta_json_path resp)
    /\ rel_or_self_all paths = Ok (loader_excel_paths resp)
    /\ loader_txt_path resp = None
    /\ s_excel_files_count (summary resp) = Z.of_nat (length paths).
Proof.
  unfold write_artifacts. intros Hrun.
  destruct (excel_outputs (gen_loader g)) as [|plan plans] eqn:Hplans;
    [discriminate|].
  bind_inv Hrun. rename a into out_dir.
  apply lift_fs_ok in E as (fs1 & Halloc & ->).
  bind_inv Hrun. rename a into data.
  apply lift_result_world in E as [Hdata ->].
  bind_inv Hrun.
  apply lift_fs_ok in E as (fs2 & Hjson & ->).
  apply write_file_inv in Hjson as [Hnd1 ->].
  destruct sps as [|template_source rest]; [discriminate|].
  bind_inv Hrun. rename a0 into paths.
  apply lift_fs_ok in E as (fs3 & Hexcel & ->).
  bind_inv Hrun. injection E as <- <-.
  do 4 (bind_inv Hrun; apply lift_result_world in E as [? ->]).
  bind_inv Hrun.
  apply lift_fs_ok in E as (fs4 & Hmeta & ->).
  apply write_file_inv in Hmeta as [Hnd3 ->].
  do 4 (bind_inv Hrun; apply lift_result_world in E as [? ->]).
  injection Hrun as <- <-.
  exists plan, plans, template_source, rest, out_dir, fs1, data, paths, fs3.
  eexists.
  split; [reflexivity|]. split; [reflexivity|]. split; [exact Halloc|].
  split.
  { destruct (json_loads (gen_raw_json g)); [discriminate|]. congruence. }
  split; [exact Hnd1|]. split; [exact Hexcel|]. split; [exact Hnd3|].
  split; [reflexivity|].
  cbn [output_dir loader_json_path meta_json_path loader_excel_paths
       loader_txt_path summary s_excel_files_count].
  auto 10.
Qed.

Lemma path_join_inj parent a b : path_join parent a = path_join parent b -> a = b.
Proof. unfold path_join. intros Hj. now do 2 apply append_inv_head in Hj. Qed.

(** A name the pattern rejects is the destination of no accepted plan. *)
Lemma not_a_destination out_dir plans name :
  Forall (fun plan => exists m, filename_validation plan = Ok m) plans ->
  FILENAME_PATTERN_match name = None ->
  path_join out_dir name ∉ map (dest_of out_dir) plans.
Proof.
  intros Hall Hname Hin.
  change (map (dest_of out_dir) plans) with (dest_of out_dir <$> plans) in Hin.
  apply list_elem_of_fmap in Hin as (plan & Heq & Hin).
  rewrite Forall_forall in Hall. destruct (Hall plan Hin) as [m Hm].
  apply filename_validation_ok in Hm as [Hm _].
  apply path_join_inj in Heq. congruence.
Qed.

(** X15. The manifest of a completed run is consistent: there was at least
    one plan and one standard, [loader.json] and [meta.json] are listed
    directly under the listed output directory, no text loader is listed,
    the workbooks are listed in the order of the plans, each as
    [output_dir/filename], and the summary counts one workbook per plan. *)
Theorem completed_run_manifest
    agreement_path standard_paths agreement_id batch_id model g w resp w' :
  write_artifacts agreement_path standard_paths agreement_id batch_id model g w
  = (Ok resp, w') ->
  excel_outputs (gen_loader g) <> []
  /\ standard_paths <> []
  /\ loader_json_path resp = path_join (output_dir resp) "loader.json"
  /\ meta_json_path resp = path_join (output_dir resp) "meta.json"
  /\ loader_txt_path resp = None
  /\ loader_excel_paths resp
     = map (fun plan => path_join (output_dir resp) (filename plan))
           (excel_outputs (gen_loader g))
  /\ s_excel_files_count (summary resp)
     = Z.of_nat (length (excel_outputs (gen_loader g)))
  /\ 1 <= s_excel_files_count (summary resp).
Proof.
  intros Hrun.
  apply write_artifacts_inv in Hrun
    as (plan & plans & template_source & rest & out_dir & fs1 & data & paths
        & fs3 & j & Hplans & -> & Halloc & _ & _ & Hexcel & _ & _
        & Hdir & Hjson & Hmeta & Hpaths & Htxt & Hcount).
  rewrite Hplans.
  apply create_versioned_output_dir_inv in Halloc as (name & -> & _);
    [|apply safe_agreement_base_name_plain].
  assert (Hout : path_join OUTPUT_DIR name
                 = path_join BASE_DIR (path_join "output" name))
    by apply path_join_assoc.
  rewrite Hout in Hdir, Hjson, Hmeta, Hexcel. clear Hout.
  apply write_excel_files_inv in Hexcel as (-> & _).
  rewrite app_nil_l in Hpaths, Hcount.
  rewrite (rel_or_self_under_base _ _ _ Hdir) in Hjson.
  rewrite (rel_or_self_under_base _ _ _ Hdir) in Hmeta.
  assert (Hmap : map (dest_of (path_join BASE_DIR (path_join "output" name)))
                     (plan :: plans)
                 = map (path_join (path_join BASE_DIR (path_join "output" name)))
                       (map filename (plan :: plans))).
  { now rewrite map_map. }
  rewrite Hmap, (rel_or_self_all_under_base _ _ _ Hdir), map_map in Hpaths.
  rewrite length_map in Hcount.
  injection Hjson as <-. injection Hmeta as <-. injection Hpaths as <-.
  rewrite Hcount. cbn [length].
  repeat split; try discriminate; auto. lia.
Qed.

(** X16. What a completed run leaves on disk.  The output directory is new
    and listed in the manifest; it holds [loader.json] with the parsed
    answer, [meta.json] with the journal and one workbook per plan.  Every
    other path holds what it held before, and the only directories made are
    the output root and the output directory. *)
Theorem completed_run_artifacts
    agreement_path standard_paths agreement_id batch_id model g w resp w' :
  write_artifacts agreement_path standard_paths agreement_id batch_id model g w
  = (Ok resp, w') ->
  exists out_dir data j,
    rel_or_self out_dir = Ok (output_dir resp)
    /\ path_exists (fs w) out_dir = false
    /\ dirs (fs w') = {[out_dir]} ∪ ({[OUTPUT_DIR]} ∪ dirs (fs w))
    /\ json_loads (gen_raw_json g) = inr data
    /\ files (fs w') !! path_join out_dir "loader.json" = Some (FJson data)
    /\ files (fs w') !! path_join out_dir "meta.json" = Some (FJournal j)
    /\ Forall (fun plan =>
                 exists ws, files (fs w') !! path_join out_dir (filename plan)
                            = Some (FWorkbook ws))
              (excel_outputs (gen_loader g))
    /\ forall p,
         p <> path_join out_dir "loader.json" ->
         p <> path_join out_dir "meta.json" ->
         p ∉ map (fun plan => path_join out_dir (filename plan))
               (excel_outputs (gen_loader g)) ->
         files (fs w') !! p = files (fs w) !! p.
Proof.
  intros Hrun.
  apply write_artifacts_inv in Hrun
    as (plan & plans & template_source & rest & out_dir & fs1 & data & paths
        & fs3 & j & Hplans & -> & Halloc & Hdata & _ & Hexcel & _ & Hfs
        & Hdir & _).
  rewrite Hplans. exists out_dir, data, j.
  apply create_versioned_output_dir_inv in Halloc as (name & Hout & Hfree & ->);
    [|apply safe_agreement_base_name_plain].
  apply write_excel_files_inv in Hexcel as (_ & Hall & _ & Hrest).
  destruct Hrest as (ws0 & _ & _ & ->); [discriminate|].
  rewrite Hfs. cbn [files dirs].
  pose proof (not_a_destination out_dir _ "loader.json" Hall eq_refl) as Hl.
  pose proof (not_a_destination out_dir _ "meta.json" Hall eq_refl) as Hm.
  assert (Hne : path_join out_dir "meta.json" <> path_join out_dir "loader.json").
  { intros Heq%path_join_inj. discriminate. }
  split; [exact Hdir|]. split; [exact Hfree|]. split; [set_solver|].
  split; [exact Hdata|]. split; [|split; [|split]].
  - rewrite lookup_insert_ne by exact Hne.
    rewrite written_files_other by exact Hl. apply lookup_insert_eq.
  - apply lookup_insert_eq.
  - pose proof (written_files_workbooks out_dir ws0 (plan :: plans)
                  (<[path_join out_dir "loader.json" := FJson data]>
                     (files (fs w)))) as Hw.
    rewrite Forall_forall in Hw |- *. intros q Hq.
    destruct (Hw q Hq) as [ws Hws]. exists ws.
    rewrite lookup_insert_ne; [exact Hws|].
    intros Heq. apply Hm. rewrite Heq.
    exact (list_elem_of_fmap_2 (dest_of out_dir) _ _ Hq).
  - intros p Hpl Hpm Hpd.
    rewrite lookup_insert_ne by congruence.
    rewrite written_files_other by exact Hpd.
    now rewrite lookup_insert_ne by congruence.
Qed.

Lemma write_artifacts_without_standards ap aid bid model g w :
  write_artifacts ap [] aid bid model g w =
  match excel_outputs (gen_loader g) with
  | [] => (Raise no_excel_outputs, w)
  | _ :: _ =>
      match create_versioned_output_dir OUTPUT_DIR
              (safe_agreement_base_name (path_name ap) aid) (fs w) with
      | (Raise e, fs1) => (Raise e, with_fs w fs1)
      | (Ok out_dir, fs1) =>
          match json_loads (gen_raw_json g) with
          | inl exc => (Raise (ValueError exc), with_fs w fs1)
          | inr data =>
              match write_file (path_join out_dir "loader.json") (FJson data)
                      fs1 with
              | (Ok _, fs2) => (Raise no_template, with_fs w fs2)
              | (Raise e, fs2) => (Raise e, with_fs w fs2)
              end
          end
      end
  end.
Proof.
  unfold write_artifacts.
  destruct (excel_outputs (gen_loader g)) as [|plan plans]; [reflexivity|].
  unfold bind at 1. unfold lift_fs at 1.
  destruct (create_versioned_output_dir OUTPUT_DIR _ (fs w))
    as [[out_dir|e] fs1]; [|reflexivity].
  unfold bind at 1. unfold lift_result at 1.
  destruct (json_loads (gen_raw_json g)) as [exc|data]; [reflexivity|].
  unfold bind at 1. unfold lift_fs at 1. cbn [fs with_fs].
  destruct (write_file _ _ fs1) as [[[]|e] fs2]; reflexivity.
Qed.

Lemma create_versioned_output_dir_error parent base_name fs0 e fs1 :
  create_versioned_output_dir parent base_name fs0 = (Raise e, fs1) ->
  e = FileExistsError parent \/ e = allocation_failure.
Proof.
  unfold create_versioned_output_dir, ensure_dir. rewrite bind_run.
  destruct (files fs0 !! parent) as [f|] eqn:Hfile.
  - rewrite mkdir_exist_ok_fail by (rewrite Hfile; eauto). cbn [fst snd].
    intros [= <- _]. now left.
  - rewrite mkdir_exist_ok_run by assumption. cbn [fst snd].
    rewrite try_candidates_run. destruct (first_free _ _ _); [discriminate|].
    intros [= <- _]. now right.
Qed.

Lemma write_file_error p f fs0 e fs1 :
  write_file p f fs0 = (Raise e, fs1) -> e = IsADirectoryError p.
Proof.
  unfold write_file, bind, get_fs, raise, put_fs.
  destruct (bool_decide _); [|discriminate]. now intros [= <- _].
Qed.

(** X17. Without a standard there is no template, but the run finds that
    out late: when the model planned a workbook and no standard path was
    given, the run never completes, and when it ends with the 400 error
    [No standard template available ...] it has already made a new output
    directory and written [loader.json] into it; both stay. *)
Theorem no_standards_fails_after_writing
    agreement_path agreement_id batch_id model g w :
  excel_outputs (gen_loader g) <> [] ->
  let run := write_artifacts agreement_path [] agreement_id batch_id model g w in
  (exists e, fst run = Raise e)
  /\ (fst run = Raise no_template ->
      exists out_dir data,
        path_exists (fs w) out_dir = false
        /\ out_dir ∈ dirs (fs (snd run))
        /\ json_loads (gen_raw_json g) = inr data
        /\ files (fs (snd run)) !! path_join out_dir "loader.json"
           = Some (FJson data)).
Proof.
  intros Hplans. cbv zeta. rewrite write_artifacts_without_standards.
  destruct (excel_outputs (gen_loader g)) as [|plan plans]; [contradiction|].
  destruct (create_versioned_output_dir OUTPUT_DIR _ (fs w))
    as [[out_dir|e] fs1] eqn:Halloc.
  2:{ cbn [fst snd]. split; [eexists; reflexivity|]. intros [= ->].
      apply create_versioned_output_dir_error in Halloc as [?|?];
        discriminate. }
  apply create_versioned_output_dir_inv in Halloc as (name & Hout & Hfree & ->);
    [|apply safe_agreement_base_name_plain].
  destruct (json_loads (gen_raw_json g)) as [exc|data].
  { cbn [fst snd]. split; [eexists; reflexivity | discriminate]. }
  destruct (write_file (path_join out_dir "loader.json") (FJson data) _)
    as [[[]|e] fs2] eqn:Hw; cbn [fst snd].
  - apply write_file_inv in Hw as [_ ->]. split; [eexists; reflexivity|].
    intros _. exists out_dir, data. cbn [fs with_fs files dirs].
    split; [exact Hfree|].
    split; [apply elem_of_union_l, elem_of_singleton; reflexivity|].
    split; [reflexivity|]. apply lookup_insert_eq.
  - split; [eexists; reflexivity|]. intros [= ->].
    apply write_file_error in Hw. discriminate.
Qed.

End Manifest.

Lemma completed_run_manifest_witness :
  let run := @write_artifacts example_environment agreement_path_ex
               [template_path_ex] "a1" "b1" "gpt-4.1-mini" one_plan_generated
               (example_world []) in
  exists resp,
    fst run = Ok resp
    /\ loader_json_path resp = path_join (output_dir resp) "loader.json"
    /\ loader_excel_paths resp
       = [path_join (output_dir resp) "ABCD_WXYZ_TI_20240101_20241231_D.xlsx"]
    /\ s_excel_files_count (summary resp) = 1.
Proof.
  cbv zeta.
  assert (Hany : forall resp w',
            @write_artifacts example_environment agreement_path_ex
              [template_path_ex] "a1" "b1" "gpt-4.1-mini" one_plan_generated
              (example_world []) = (Ok resp, w') ->
            loader_json_path resp = path_join (output_dir resp) "loader.json"
            /\ loader_excel_paths resp
               = [path_join (output_dir resp)
                    "ABCD_WXYZ_TI_20240101_20241231_D.xlsx"]
            /\ s_excel_files_count (summary resp) = 1).
  { intros resp w' Hrun.
    destruct (@completed_run_manifest example_environment _ _ _ _ _ _ _ _ _ Hrun)
      as (_ & _ & Hjson & _ & _ & Hexcel & Hcount & _).
    auto. }
  exists (ok_value no_response
            (fst (@write_artifacts example_environment agreement_path_ex
                    [template_path_ex] "a1" "b1" "gpt-4.1-mini"
                    one_plan_generated (example_world [])))).
  split; [by_evaluation|].
  apply (Hany _ (snd (@write_artifacts example_environment agreement_path_ex
                        [template_path_ex] "a1" "b1" "gpt-4.1-mini"
                        one_plan_generated (example_world [])))).
  by_evaluation.
Defined.

Lemma completed_run_artifacts_witness :
  let run := @write_artifacts example_environment agreement_path_ex
               [template_path_ex] "a1" "b1" "gpt-4.1-mini" one_plan_generated
               (example_world []) in
  exists out_dir data j,
    @rel_or_self example_environment out_dir = Ok "output/Agreement"
    /\ path_exists example_fs out_dir = false
    /\ files (fs (snd run)) !! path_join out_dir "loader.json"
       = Some (FJson data)
    /\ files (fs (snd run)) !! path_join out_dir "meta.json"
       = Some (FJournal j).
Proof.
  cbv zeta.
  assert (Hany : forall resp w',
            @write_artifacts example_environment agreement_path_ex
              [template_path_ex] "a1" "b1" "gpt-4.1-mini" one_plan_generated
              (example_world []) = (Ok resp, w') ->
            output_dir resp = "output/Agreement" ->
            exists out_dir data j,
              @rel_or_self example_environment out_dir = Ok "output/Agreement"
              /\ path_exists example_fs out_dir = false
              /\ files (fs w') !! path_join out_dir "loader.json"
                 = Some (FJson data)
              /\ files (fs w') !! path_join out_dir "meta.json"
                 = Some (FJournal j)).
  { intros resp w' Hrun Hrel.
    destruct (@completed_run_artifacts example_environment _ _ _ _ _ _ _ _ _ Hrun)
      as (out_dir & data & j & Hdir & Hfree & _ & _ & Hjson & Hmeta & _).
    rewrite Hrel in Hdir. exists out_dir, data, j. auto. }
  apply (Hany
           (ok_value no_response
              (fst (@write_artifacts example_environment agreement_path_ex
                      [template_path_ex] "a1" "b1" "gpt-4.1-mini"
                      one_plan_generated (example_world []))))
           (snd (@write_artifacts example_environment agreement_path_ex
                   [template_path_ex] "a1" "b1" "gpt-4.1-mini"
                   one_plan_generated (example_world [])))).
  - by_evaluation.
  - by_evaluation.
Defined.

Lemma no_standards_fails_after_writing_witness :
  let run := @write_artifacts example_environment agreement_path_ex [] "a1" "b1"
               "gpt-4.1-mini" one_plan_generated (example_world []) in
  fst run = Raise no_template
  /\ exists out_dir data,
       path_exists example_fs out_dir = false
       /\ out_dir ∈ dirs (fs (snd run))
       /\ @json_loads example_environment "{one plan}" = inr data
       /\ files (fs (snd run)) !! path_join out_dir "loader.json"
          = Some (FJson data).
Proof.
  cbv zeta.
  assert (Hfails : fst (@write_artifacts example_environment agreement_path_ex
                          [] "a1" "b1" "gpt-4.1-mini" one_plan_generated
                          (example_world []))
                   = Raise no_template) by by_evaluation.
  split; [exact Hfails|].
  exact (proj2 (@no_standards_fails_after_writing example_environment
                  agreement_path_ex "a1" "b1" "gpt-4.1-mini" one_plan_generated
                  (example_world []) ltac:(discriminate))
               Hfails).
Defined.

(** ** Names made by [files.py] *)

(** X18. The base name of the output directory is always a plain, safe
    directory name: it is not empty, it is made of letters, digits, dots,
    underscores and hyphens only (so it holds no slash), and it neither
    starts nor ends with a dot, an underscore or a hyphen (so it is neither
    [.] nor [..]), whatever the stored file name and the agreement id are. *)
Theorem safe_agreement_base_name_is_safe stored_filename agreement_id :
  let base := safe_agreement_base_name stored_filename agreement_id in
  base <> ""
  /\ all_chars is_safe_char base
  /\ ~ In "/"%char (chars base)
  /\ (forall c, first_char base = Some c -> is_trim_char c = false)
  /\ (forall c, last_char base = Some c -> is_trim_char c = false).
Proof.
  cbv zeta. unfold safe_agreement_base_name.
  set (original := if startswith _ _ then _ else _). clearbody original.
  set (stem := strip_by is_trim_char (squash_unsafe false (path_stem original))).
  assert (Hsafe : all_chars is_safe_char stem).
  { apply strip_by_all_chars, squash_unsafe_safe. }
  assert (Hfirst : forall c, first_char stem = Some c -> is_trim_char c = false).
  { intros c. unfold stem, strip_by. apply rstrip_by_first, lstrip_by_first. }
  assert (Hlast : forall c, last_char stem = Some c -> is_trim_char c = false).
  { intros c. apply rstrip_by_last. }
  clearbody stem.
  destruct (String.eqb_spec stem "") as [->|Hne].
  - split; [discriminate|]. split.
    { unfold all_chars. simpl. repeat constructor. }
    split; [simpl; intuition discriminate|].
    split; intros c [= <-]; reflexivity.
  - split; [exact Hne|]. split; [exact Hsafe|].
    split; [now apply safe_chars_no_slash|]. auto.
Qed.

Lemma is_hex_digit_safe c : is_hex_digit c = true -> is_safe_char c = true.
Proof. destruct c as [[] [] [] [] [] [] [] []]; vm_compute; congruence. Qed.

Lemma all_chars_impl (p q : ascii -> bool) s :
  (forall c, p c = true -> q c = true) -> all_chars p s -> all_chars q s.
Proof.
  intros Hpq. unfold all_chars. intros Hall.
  eapply Forall_impl; [exact Hall | exact Hpq].
Qed.

Lemma all_chars_take p n s : all_chars p s -> all_chars p (take n s).
Proof.
  unfold all_chars. revert s. induction n as [|n IH]; intros [|c s] Hall;
    simpl; try constructor.
  - now inversion Hall.
  - apply IH. now inversion Hall.
Qed.

Lemma drop_unsafe_safe s : all_chars is_safe_char (drop_unsafe s).
Proof.
  unfold all_chars. induction s as [|c s IH]; simpl; [constructor|].
  destruct (is_safe_char c) eqn:Hc; [|exact IH]. simpl. now constructor.
Qed.

Lemma drop_unsafe_id s : all_chars is_safe_char s -> drop_unsafe s = s.
Proof.
  unfold all_chars. induction s as [|c s IH]; simpl; [reflexivity|].
  intros Hall. inversion Hall as [|? ? Hc Hs]; subst.
  rewrite Hc. f_equal. auto.
Qed.

Lemma replace_space_id s :
  all_chars is_safe_char s -> replace_char " " "_" s = s.
Proof.
  unfold all_chars. induction s as [|c s IH]; simpl; [reflexivity|].
  intros Hall. inversion Hall as [|? ? Hc Hs]; subst.
  destruct (Ascii.eqb_spec c " ") as [->|_]; [discriminate Hc|].
  f_equal. auto.
Qed.

Lemma pathlib_name_plain s :
  ~ In "/"%char (chars s) -> s <> "" -> s <> "." -> pathlib_name s = s.
Proof.
  intros Hn He Hd. unfold pathlib_name.
  now rewrite components_plain by assumption.
Qed.

Lemma take_short_ne n s (t : string) :
  s <> t -> (String.length t < n)%nat -> take n s <> t.
Proof.
  intros Hne Hlt Heq.
  destruct (Nat.le_gt_cases (String.length s) n) as [Hle|Hgt].
  - rewrite take_all in Heq by assumption. contradiction.
  - apply (f_equal String.length) in Heq. rewrite take_length in Heq. lia.
Qed.

Lemma slice_to_180 s : slice_to s 180 = take 180 s.
Proof. reflexivity. Qed.

(** X19. The sanitised name of an upload is always a plain, safe file
    name: not empty, not [.] or [..], at most 180 characters of
    letters, digits, dots, underscores and hyphens, hence without a slash
    and equal to its own last path component; sanitising it again changes
    nothing. *)
Theorem sanitize_filename_is_safe fresh_hex filename :
  uuid_hex fresh_hex ->
  let name := sanitize_filename fresh_hex filename in
  name <> "" /\ name <> "." /\ name <> ".."
  /\ all_chars is_safe_char name
  /\ (String.length name <= 180)%nat
  /\ ~ In "/"%char (chars name)
  /\ pathlib_name name = name
  /\ forall h, sanitize_filename h name = name.
Proof.
  intros [Hlen Hhex]. cbv zeta.
  assert (Hgoal : forall name,
            name <> "" -> name <> "." -> name <> ".." ->
            all_chars is_safe_char name -> (String.length name <= 180)%nat ->
            name <> "" /\ name <> "." /\ name <> ".."
            /\ all_chars is_safe_char name
            /\ (String.length name <= 180)%nat
            /\ ~ In "/"%char (chars name)
            /\ pathlib_name name = name
            /\ forall h, sanitize_filename h name = name).
  { intros name He Hd Hdd Hsafe Hshort.
    assert (Hns : ~ In "/"%char (chars name)) by now apply safe_chars_no_slash.
    assert (Hpl : pathlib_name name = name) by now apply pathlib_name_plain.
    repeat (split; [assumption|]).
    intros h. unfold sanitize_filename.
    rewrite Hpl, (replace_space_id _ Hsafe), (drop_unsafe_id _ Hsafe).
    apply String.eqb_neq in He, Hd, Hdd. rewrite He, Hd, Hdd. cbn [orb].
    rewrite slice_to_180. now apply take_all. }
  unfold sanitize_filename.
  set (name := drop_unsafe (replace_char " " "_" (pathlib_name filename))).
  assert (Hsafe : all_chars is_safe_char name) by apply drop_unsafe_safe.
  clearbody name.
  destruct (String.eqb_spec name "") as [->|He]; simpl.
  { apply Hgoal; try (rewrite append_cons; discriminate).
    - repeat apply all_chars_app;
        [unfold all_chars; simpl; repeat constructor
        | eapply all_chars_impl; [apply is_hex_digit_safe | exact Hhex]
        | unfold all_chars; simpl; repeat constructor].
    - apply Nat2Z.inj_le. fold (len ("file_" ++ fresh_hex ++ ".bin")).
      rewrite !len_append. unfold len. rewrite Hlen. simpl. lia. }
  destruct (String.eqb_spec name ".") as [->|Hd]; simpl.
  { apply Hgoal; try (rewrite append_cons; discriminate).
    - repeat apply all_chars_app;
        [unfold all_chars; simpl; repeat constructor
        | eapply all_chars_impl; [apply is_hex_digit_safe | exact Hhex]
        | unfold all_chars; simpl; repeat constructor].
    - apply Nat2Z.inj_le. fold (len ("file_" ++ fresh_hex ++ ".bin")).
      rewrite !len_append. unfold len. rewrite Hlen. simpl. lia. }
  destruct (String.eqb_spec name "..") as [->|Hdd]; simpl.
  { apply Hgoal; try (rewrite append_cons; discriminate).
    - repeat apply all_chars_app;
        [unfold all_chars; simpl; repeat constructor
        | eapply all_chars_impl; [apply is_hex_digit_safe | exact Hhex]
        | unfold all_chars; simpl; repeat constructor].
    - apply Nat2Z.inj_le. fold (len ("file_" ++ fresh_hex ++ ".bin")).
      rewrite !len_append. unfold len. rewrite Hlen. simpl. lia. }
  rewrite slice_to_180.
  apply Hgoal.
  - apply take_short_ne; [assumption | simpl; lia].
  - apply take_short_ne; [assumption | simpl; lia].
  - apply take_short_ne; [assumption | simpl; lia].
  - now apply all_chars_take.
  - rewrite take_length. lia.
Qed.

Lemma sanitize_filename_is_safe_witness :
  uuid_hex "0123456789abcdef0123456789abcdef"
  /\ sanitize_filename "0123456789abcdef0123456789abcdef" "../.."
     = "file_0123456789abcdef0123456789abcdef.bin"
  /\ ~ In "/"%char
        (chars (sanitize_filename "0123456789abcdef0123456789abcdef" "../..")).
Proof.
  assert (Hu : uuid_hex "0123456789abcdef0123456789abcdef").
  { split; [reflexivity|]. unfold all_chars. simpl. repeat constructor. }
  split; [exact Hu|]. split; [reflexivity|].
  destruct (sanitize_filename_is_safe _ "../.." Hu)
    as (_ & _ & _ & _ & _ & Hslash & _).
  exact Hslash.
Defined.

(** ** The upload gate and the extractor *)

Lemma path_suffix_name p : path_suffix p = name_suffix (path_name p).
Proof. reflexivity. Qed.

Section Gate.
Context `{Environment}.

Lemma extract_text_reader fs0 p suffix reader :
  lower (path_suffix p) = suffix ->
  reader_for suffix = Some reader ->
  extract_text fs0 p = reader fs0 p.
Proof.
  intros <-. unfold extract_text, reader_for.
  destruct (String.eqb _ ".txt"); [now intros [= <-]|].
  destruct (String.eqb _ ".docx"); [now intros [= <-]|].
  destruct (String.eqb _ ".pdf"); [now intros [= <-]|].
  destruct (String.eqb _ ".xlsx"); [now intros [= <-]|].
  discriminate.
Qed.

Lemma allowed_has_reader suffix :
  existsb (String.eqb suffix) ALLOWED_EXTENSIONS = true <->
  exists reader, reader_for suffix = Some reader.
Proof.
  unfold ALLOWED_EXTENSIONS, reader_for. cbn [existsb].
  destruct (String.eqb suffix ".txt"), (String.eqb suffix ".docx"),
    (String.eqb suffix ".pdf"), (String.eqb suffix ".xlsx"); cbn [orb];
    split; intros Hx; eauto; try discriminate;
    destruct Hx as [? Hx]; discriminate.
Qed.

(** X20. The upload gate and the extractor support the same file types.
    For a path whose last component is the upload's name, the extension
    check accepts the name exactly when [extract_text] hands the file to one
    of its four readers, and rejects it with 400 exactly when
    [extract_text] raises its [Unsupported file type] error. *)
Theorem upload_gate_agrees_with_extractor filename p fs0 :
  path_name p = pathlib_name filename ->
  match validate_extension filename with
  | Ok suffix =>
      suffix = lower (path_suffix p)
      /\ exists reader,
           reader_for suffix = Some reader
           /\ extract_text fs0 p = reader fs0 p
  | Raise e =>
      (exists detail, e = HTTPException 400 detail None)
      /\ extract_text fs0 p
         = Raise (TextExtractionError
                    ("Unsupported file type for text extraction: "
                     ++ path_suffix p))
  end.
Proof.
  intros Hname. unfold validate_extension.
  rewrite <- Hname, <- path_suffix_name.
  destruct (existsb _ ALLOWED_EXTENSIONS) eqn:Hallowed.
  - split; [reflexivity|].
    apply allowed_has_reader in Hallowed as [reader Hreader].
    exists reader. split; [exact Hreader|].
    now apply (extract_text_reader _ _ (lower (path_suffix p))).
  - split; [eauto|].
    assert (Hnone : reader_for (lower (path_suffix p)) = None).
    { destruct (reader_for (lower (path_suffix p))) as [reader|] eqn:Hr;
        [|reflexivity].
      assert (Ht : existsb (String.eqb (lower (path_suffix p)))
                     ALLOWED_EXTENSIONS = true)
        by (apply allowed_has_reader; eauto).
      congruence. }
    unfold reader_for in Hnone. unfold extract_text.
    destruct (String.eqb _ ".txt"); [discriminate|].
    destruct (String.eqb _ ".docx"); [discriminate|].
    destruct (String.eqb _ ".pdf"); [discriminate|].
    destruct (String.eqb _ ".xlsx"); [discriminate|].
    reflexivity.
Qed.

End Gate.

Lemma upload_gate_agrees_with_extractor_witness :
  validate_extension "Agreement.TXT" = Ok ".txt"
  /\ @extract_text example_environment example_fs "/srv/uploads/Agreement.TXT"
     = @_extract_txt example_environment example_fs "/srv/uploads/Agreement.TXT".
Proof.
  split; [reflexivity|].
  pose proof (@upload_gate_agrees_with_extractor example_environment
                "Agreement.TXT" "/srv/uploads/Agreement.TXT" example_fs
                eq_refl) as Hagree.
  change (validate_extension "Agreement.TXT") with (@Ok string ".txt") in Hagree.
  destruct Hagree as (_ & reader & Hreader & Hrun).
  injection Hreader as <-. exact Hrun.
Defined.

(** ** The stored name of an accepted upload *)

Lemma split_last_dot_none s :
  ~ In "."%char (chars s) -> split_last_dot s = None.
Proof.
  induction s as [|c s IH]; [reflexivity|]. simpl. intros Hn.
  rewrite IH by tauto.
  destruct (Ascii.eqb_spec c ".") as [->|_]; [exfalso; tauto | reflexivity].
Qed.

Lemma split_last_dot_spec s a b :
  split_last_dot s = Some (a, b) ->
  s = a ++ "." ++ b /\ ~ In "."%char (chars b).
Proof.
  revert a. induction s as [|c s IH]; intros a; [discriminate|]. simpl.
  destruct (split_last_dot s) as [[a' b']|] eqn:Hs.
  - intros [= <- <-]. destruct (IH a' eq_refl) as [-> Hb].
    rewrite append_cons. auto.
  - destruct (Ascii.eqb_spec c ".") as [->|_]; [|discriminate].
    intros [= <- <-]. rewrite append_nil_l. split; [reflexivity|].
    clear IH. induction s as [|d s IHs]; [simpl; tauto|].
    simpl in Hs. destruct (split_last_dot s) as [[? ?]|]; [discriminate|].
    destruct (Ascii.eqb_spec d ".") as [->|Hd]; [discriminate|].
    simpl. intros [Heq | Hin]; [congruence | now apply IHs].
Qed.

Lemma split_last_dot_app a b :
  ~ In "."%char (chars b) -> split_last_dot (a ++ "." ++ b) = Some (a, b).
Proof.
  intros Hb. induction a as [|c a IH].
  - rewrite append_nil_l. change ("." ++ b) with (String "." b). simpl.
    now rewrite split_last_dot_none.
  - rewrite append_cons. simpl. now rewrite IH.
Qed.

Lemma name_suffix_spec name sfx :
  name_suffix name = sfx -> sfx <> "" ->
  exists a b, name = a ++ "." ++ b /\ sfx = "." ++ b
              /\ a <> "" /\ b <> "" /\ ~ In "."%char (chars b).
Proof.
  unfold name_suffix.
  destruct (split_last_dot name) as [[a b]|] eqn:Hs; [|congruence].
  apply split_last_dot_spec in Hs as [-> Hb].
  destruct (String.eqb_spec a "") as [->|Ha]; [simpl; congruence|].
  destruct (String.eqb_spec b "") as [->|Hb']; [simpl; congruence|].
  simpl. intros <- _. exists a, b. auto 6.
Qed.

Lemma name_suffix_app a b :
  a <> "" -> b <> "" -> ~ In "."%char (chars b) ->
  name_suffix (a ++ "." ++ b) = "." ++ b.
Proof.
  intros Ha Hb Hdot. unfold name_suffix. rewrite split_last_dot_app by assumption.
  apply String.eqb_neq in Ha, Hb. now rewrite Ha, Hb.
Qed.

Lemma lower_char_letter c :
  in_range "a" "z" (lower_char c) = true -> is_alnum c = true.
Proof. destruct c as [[] [] [] [] [] [] [] []]; vm_compute; congruence. Qed.

Lemma lower_letters s :
  all_chars (in_range "a" "z") (lower s) -> all_chars is_alnum s.
Proof.
  unfold all_chars. induction s as [|c s IH]; simpl; [constructor|].
  intros Hall. inversion Hall as [|? ? Hc Hs]; subst.
  constructor; [now apply lower_char_letter | auto].
Qed.

Lemma is_alnum_safe c : is_alnum c = true -> is_safe_char c = true.
Proof. unfold is_safe_char. now intros ->. Qed.

Lemma replace_char_append a b s t :
  replace_char a b (s ++ t) = replace_char a b s ++ replace_char a b t.
Proof.
  induction s as [|c s IH]; [now rewrite !append_nil_l|].
  rewrite append_cons. simpl. rewrite append_cons. now rewrite IH.
Qed.

Lemma drop_unsafe_append s t :
  drop_unsafe (s ++ t) = drop_unsafe s ++ drop_unsafe t.
Proof.
  induction s as [|c s IH]; [now rewrite !append_nil_l|].
  rewrite append_cons. simpl. destruct (is_safe_char c); [|exact IH].
  rewrite append_cons. now rewrite IH.
Qed.

(** An accepted extension is a dot and letters. *)
Lemma allowed_suffix_letters b :
  existsb (String.eqb (lower ("." ++ b))) ALLOWED_EXTENSIONS = true ->
  all_chars is_alnum b.
Proof.
  intros Hallowed. apply lower_letters.
  change (lower ("." ++ b)) with (String "." (lower b)) in Hallowed.
  unfold ALLOWED_EXTENSIONS in Hallowed. cbn [existsb] in Hallowed.
  repeat (apply orb_prop in Hallowed as [Hallowed | Hallowed]);
    try discriminate;
    apply String.eqb_eq in Hallowed; injection Hallowed as ->;
    unfold all_chars; simpl; repeat constructor.
Qed.

Section StoredName.
Context `{Environment}.

(** X21. An accepted upload keeps its extension, if its name is not too
    long.  When the extension check accepts the upload's name, the
    sanitised name has at most 180 characters and the prefix holds no slash,
    the file is stored directly in the destination directory under a name
    with the same extension, and [extract_text] hands the stored file to the
    reader of that extension.  (A longer sanitised name is cut at 180
    characters, extension included.) *)
Theorem stored_upload_keeps_its_extension
    name_hex prefix_hex filename id_prefix dest_dir suffix :
  validate_extension filename = Ok suffix ->
  (String.length (drop_unsafe (replace_char " " "_" (pathlib_name filename)))
   <= 180)%nat ->
  ~ In "/"%char (chars (unique_prefix_of prefix_hex id_prefix)) ->
  let stored_name := stored_name_of name_hex prefix_hex filename id_prefix in
  let dest_path := path_div dest_dir stored_name in
  dest_path = path_join dest_dir stored_name
  /\ path_name dest_path = stored_name
  /\ path_parent dest_path = dest_dir
  /\ lower (path_suffix dest_path) = suffix
  /\ exists reader,
       reader_for suffix = Some reader
       /\ forall fs0, extract_text fs0 dest_path = reader fs0 dest_path.
Proof.
  intros Hvalid Hshort Hprefix. cbv zeta.
  unfold validate_extension in Hvalid.
  destruct (existsb _ ALLOWED_EXTENSIONS) eqn:Hallowed; [|discriminate].
  injection Hvalid as <-.
  destruct (name_suffix_spec (pathlib_name filename) _ eq_refl)
    as (a & b & Hname & Hsfx & Ha & Hb & Hdot).
  { intros Hempty. rewrite Hempty in Hallowed. discriminate. }
  rewrite Hsfx in Hallowed |- *.
  pose proof (allowed_suffix_letters b Hallowed) as Hletters.
  assert (Hbsafe : all_chars is_safe_char b).
  { eapply all_chars_impl; [apply is_alnum_safe | exact Hletters]. }
  set (x := drop_unsafe (replace_char " " "_" a)).
  assert (Hsan : drop_unsafe (replace_char " " "_" (pathlib_name filename))
                 = x ++ "." ++ b).
  { rewrite Hname, !replace_char_append, !drop_unsafe_append.
    rewrite (replace_space_id b Hbsafe), (drop_unsafe_id b Hbsafe).
    reflexivity. }
  assert (Hsafe_name : sanitize_filename name_hex filename = x ++ "." ++ b).
  { unfold sanitize_filename. rewrite Hsan in Hshort |- *.
    assert (Hlen2 : (2 <= String.length (x ++ "." ++ b))%nat).
    { apply Nat2Z.inj_le. fold (len (x ++ "." ++ b)). rewrite !len_append.
      destruct b; [contradiction|]. pose proof (len_nonneg x).
      unfold len. simpl. lia. }
    assert (He : (x ++ "." ++ b =? "")%string = false).
    { apply String.eqb_neq. intros Heq. rewrite Heq in Hlen2. simpl in Hlen2. lia. }
    assert (Hd : (x ++ "." ++ b =? ".")%string = false).
    { apply String.eqb_neq. intros Heq. rewrite Heq in Hlen2. simpl in Hlen2. lia. }
    assert (Hdd : (x ++ "." ++ b =? "..")%string = false).
    { apply String.eqb_neq. intros Heq.
      apply (f_equal chars) in Heq. rewrite !chars_append in Heq.
      destruct b as [|d b']; [contradiction|].
      change (chars (String d b')) with (d :: chars b') in Heq.
      destruct (chars x) as [|c1 l]; simpl in Heq.
      - injection Heq as Heq _. apply Hdot. simpl. auto.
      - apply (f_equal length) in Heq. simpl in Heq.
        rewrite length_app in Heq. simpl in Heq. lia. }
    rewrite He, Hd, Hdd. cbn [orb]. rewrite slice_to_180.
    now apply take_all. }
  set (prefix := unique_prefix_of prefix_hex id_prefix) in *.
  assert (Hstored : stored_name_of name_hex prefix_hex filename id_prefix
                    = (prefix ++ "__" ++ x) ++ "." ++ b).
  { unfold stored_name_of. fold prefix. rewrite Hsafe_name.
    now rewrite !append_assoc. }
  assert (Hnoslash : ~ In "/"%char
                       (chars (stored_name_of name_hex prefix_hex filename
                                 id_prefix))).
  { rewrite Hstored, !chars_append, !in_app_iff.
    pose proof (safe_chars_no_slash x (drop_unsafe_safe _)).
    pose proof (safe_chars_no_slash b Hbsafe).
    simpl. intuition discriminate. }
  assert (Hdest : path_div dest_dir
                    (stored_name_of name_hex prefix_hex filename id_prefix)
                  = path_join dest_dir
                      (stored_name_of name_hex prefix_hex filename id_prefix)).
  { apply path_div_plain.
    assert (Hin : In "_"%char
                    (chars (stored_name_of name_hex prefix_hex filename
                              id_prefix))).
    { rewrite Hstored, !chars_append, !in_app_iff. simpl. tauto. }
    repeat split; try exact Hnoslash; intros Heq; rewrite Heq in Hin;
      simpl in Hin; intuition discriminate. }
  rewrite Hdest.
  assert (Hpn : path_name (path_join dest_dir
                  (stored_name_of name_hex prefix_hex filename id_prefix))
                = stored_name_of name_hex prefix_hex filename id_prefix).
  { unfold path_name. now rewrite split_last_slash_join. }
  assert (Hsuffix : path_suffix (path_join dest_dir
                      (stored_name_of name_hex prefix_hex filename id_prefix))
                    = "." ++ b).
  { rewrite path_suffix_name, Hpn, Hstored. apply name_suffix_app; auto.
    intros Heq. apply (f_equal len) in Heq. rewrite !len_append in Heq.
    pose proof (len_nonneg prefix). pose proof (len_nonneg x).
    change (len "__") with 2 in Heq. change (len "") with 0 in Heq. lia. }
  split; [reflexivity|]. split; [exact Hpn|].
  split; [unfold path_parent; now rewrite split_last_slash_join|].
  split; [now rewrite Hsuffix|].
  apply allowed_has_reader in Hallowed as [reader Hreader].
  exists reader. split; [exact Hreader|]. intros fs0.
  apply (extract_text_reader _ _ (lower ("." ++ b))); [|exact Hreader].
  now rewrite Hsuffix.
Qed.

End StoredName.

Lemma stored_upload_keeps_its_extension_witness :
  validate_extension "My Report.PDF" = Ok ".pdf"
  /\ path_name (path_div "/srv/uploads/agreements"
                  (stored_name_of "" "" "My Report.PDF" (Some "a1")))
     = "a1__My_Report.PDF"
  /\ lower (path_suffix (path_div "/srv/uploads/agreements"
                           (stored_name_of "" "" "My Report.PDF" (Some "a1"))))
     = ".pdf".
Proof.
  assert (Hv : validate_extension "My Report.PDF" = Ok ".pdf") by reflexivity.
  split; [exact Hv|].
  destruct (@stored_upload_keeps_its_extension example_environment "" ""
              "My Report.PDF" (Some "a1") "/srv/uploads/agreements" ".pdf" Hv)
    as (_ & Hname & _ & Hsuffix & _).
  - vm_compute. lia.
  - simpl. intuition discriminate.
  - split; [rewrite Hname; reflexivity | exact Hsuffix].
Defined.

(** The bound of 180 characters matters: a name of 181 characters passes
    the extension check and is stored without its extension, so that the
    extractor will not read it. *)
Example long_upload_name_loses_its_extension :
  let filename := repeat_char 177 "x" ++ ".pdf" in
  let dest_path := path_div "/srv/uploads/agreements"
                     (stored_name_of "" "" filename (Some "a1")) in
  validate_extension filename = Ok ".pdf"
  /\ path_suffix dest_path = ".pd"
  /\ @extract_text example_environment example_fs dest_path
     = Raise (TextExtractionError
                "Unsupported file type for text extraction: .pd").
Proof. cbv zeta. repeat split; by_evaluation. Qed.

(** ** Storing an upload *)


Lemma path_exists_file fs0 p f :
  files fs0 !! p = Some f -> path_exists fs0 p = true.
Proof.
  intros Hf. unfold path_exists. rewrite (bool_decide_eq_true_2 (is_Some _)).
  - apply orb_true_r.
  - rewrite Hf. eauto.
Qed.

Lemma unlink_missing_ok_run p fs0 :
  p ∉ dirs fs0 ->
  unlink_missing_ok p fs0 = (Ok tt, mkFS (dirs fs0) (delete p (files fs0))).
Proof.
  intros Hp. unfold unlink_missing_ok, bind, get_fs, put_fs.
  now rewrite bool_decide_eq_false_2.
Qed.

Lemma open_wb_run p fs0 :
  p ∉ dirs fs0 ->
  open_wb p fs0 = (Ok tt, mkFS (dirs fs0) (<[p := FOther ""]> (files fs0))).
Proof.
  intros Hp. unfold open_wb, bind, get_fs, put_fs.
  now rewrite bool_decide_eq_false_2.
Qed.

(** The [try] statement of lines 78-100 when the destination can be
    opened: the size, with the bytes in the file, or the error, with the file
    removed. *)
Lemma store_gen dest_path (received : Result Z * string) fs1 handler_500 :
  dest_path ∉ dirs fs1 ->
  try_except
    (open_wb dest_path ;;;
     close_file dest_path (snd received) ;;;
     lift_result (fst received))
    (fun exc =>
       unlink_if_exists dest_path ;;;
       match exc with
       | HTTPException _ _ _ => raise exc
       | _ => raise (handler_500 exc)
       end) fs1
  = match fst received with
    | Ok size =>
        (Ok size,
         mkFS (dirs fs1) (<[dest_path := FOther (snd received)]> (files fs1)))
    | Raise exc =>
        (Raise match exc with
               | HTTPException _ _ _ => exc
               | _ => handler_500 exc
               end,
         mkFS (dirs fs1) (delete dest_path (files fs1)))
    end.
Proof.
  intros Hdir.
  unfold try_except, bind at 1. rewrite (open_wb_run _ _ Hdir).
  unfold bind at 1, close_file, bind at 1, get_fs, put_fs, lift_result.
  cbn [dirs files]. rewrite insert_insert_eq.
  destruct (fst received) as [size|exc]; [reflexivity|].
  unfold bind, unlink_if_exists, bind, get_fs.
  rewrite (path_exists_file _ dest_path (FOther (snd received)))
    by apply lookup_insert_eq.
  rewrite unlink_missing_ok_run by exact Hdir.
  cbn [dirs files]. rewrite delete_insert_eq. now destruct exc.
Qed.

(** The same statement when the destination is a directory: opening
    fails, and so does the removal in the handler. *)
Lemma store_blocked dest_path (received : Result Z * string) fs1 handler_500 :
  dest_path ∈ dirs fs1 ->
  try_except
    (open_wb dest_path ;;;
     close_file dest_path (snd received) ;;;
     lift_result (fst received))
    (fun exc =>
       unlink_if_exists dest_path ;;;
       match exc with
       | HTTPException _ _ _ => raise exc
       | _ => raise (handler_500 exc)
       end) fs1
  = (Raise (IsADirectoryError dest_path), fs1).
Proof.
  intros Hdir.
  unfold try_except, bind at 1, open_wb, bind at 1, get_fs.
  rewrite bool_decide_eq_true_2 by exact Hdir. unfold raise at 1.
  unfold bind, unlink_if_exists, bind, get_fs, path_exists.
  rewrite (bool_decide_eq_true_2 (dest_path ∈ dirs fs1)) by exact Hdir.
  cbn [orb]. unfold unlink_missing_ok, bind, get_fs.
  now rewrite bool_decide_eq_true_2 by exact Hdir.
Qed.




Lemma mkdir_exist_ok_cases p fs0 :
  mkdir_exist_ok p fs0 = (Ok tt, mkFS ({[p]} ∪ dirs fs0) (files fs0))
  \/ mkdir_exist_ok p fs0 = (Raise (FileExistsError p), fs0).
Proof.
  destruct (files fs0 !! p) as [f|] eqn:Hf.
  - right. apply mkdir_exist_ok_fail. rewrite Hf. eauto.
  - left. now apply mkdir_exist_ok_run.
Qed.

(** X23. A failed upload leaves nothing behind.  However the upload fails
    (no name, a rejected extension, a destination directory that cannot be
    made, a destination that cannot be opened, too many bytes, no bytes),
    every file present afterwards was present before with the same content:
    no partial file stays, and no directory besides the destination
    directory is made. *)
Theorem failed_upload_leaves_no_file
    name_hex prefix_hex upload_file dest_dir id_prefix max_bytes fs0 e fs1 :
  save_multipart_upload name_hex prefix_hex upload_file dest_dir id_prefix
    max_bytes fs0 = (Raise e, fs1) ->
  files fs1 ⊆ files fs0
  /\ dirs fs0 ⊆ dirs fs1
  /\ dirs fs1 ⊆ {[dest_dir]} ∪ dirs fs0.
Proof.
  unfold save_multipart_upload.
  assert (Hsame : forall e0, (Raise e0, fs0) = (@Raise string e, fs1) ->
                    files fs1 ⊆ files fs0 /\ dirs fs0 ⊆ dirs fs1
                    /\ dirs fs1 ⊆ {[dest_dir]} ∪ dirs fs0).
  { intros e0 [= _ <-]. split; [reflexivity|]. split; set_solver. }
  destruct (upload_filename upload_file) as [[|c r]|];
    [apply Hsame | | apply Hsame].
  cbv zeta. unfold bind at 1, lift_result at 1.
  destruct (validate_extension (String c r)) as [suffix|e0]; [|apply Hsame].
  unfold bind at 1, ensure_dir.
  destruct (mkdir_exist_ok_cases dest_dir fs0) as [-> | ->]; [|apply Hsame].
  set (dest_path := path_div dest_dir _).
  unfold bind at 1.
  destruct (decide (dest_path ∈ dirs (mkFS ({[dest_dir]} ∪ dirs fs0) (files fs0))))
    as [Hin | Hnin].
  - rewrite (store_blocked dest_path _ _
               (fun exc => HTTPException 500
                             ("Failed to store upload: " ++ exc_str exc)
                             (Some exc)) Hin).
    intros [= _ <-]. cbn [dirs files]. split; [reflexivity|]. split; set_solver.
  - rewrite (store_gen dest_path _ _
               (fun exc => HTTPException 500
                             ("Failed to store upload: " ++ exc_str exc)
                             (Some exc)) Hnin).
    cbn [dirs files].
    destruct (fst (receive _ _ _ _)) as [size|exc].
    + destruct (size =? 0); [|discriminate].
      unfold bind. rewrite unlink_missing_ok_run by exact Hnin.
      cbn [dirs files]. intros [= _ <-]. cbn [dirs files].
      rewrite delete_insert_eq.
      split; [apply delete_subseteq|]. split; set_solver.
    + intros [= _ <-]. cbn [dirs files].
      split; [apply delete_subseteq|]. split; set_solver.
Qed.

Lemma failed_upload_leaves_no_file_witness :
  let run := save_multipart_upload "" ""
               (mkUpload (Some "a b.txt") ["he"; "llo"])
               "/srv/uploads/agreements" (Some "a1") 4 (mkFS ∅ ∅) in
  fst run = Raise (too_large 4) /\ files (snd run) ⊆ ∅.
Proof.
  cbv zeta.
  assert (Hany : forall e fs1,
            save_multipart_upload "" "" (mkUpload (Some "a b.txt") ["he"; "llo"])
              "/srv/uploads/agreements" (Some "a1") 4 (mkFS ∅ ∅)
            = (Raise e, fs1) ->
            files fs1 ⊆ ∅).
  { intros e fs1 Hrun.
    exact (proj1 (failed_upload_leaves_no_file _ _ _ _ _ _ _ _ _ Hrun)). }
  split; [by_evaluation|].
  apply (Hany (too_large 4)). by_evaluation.
Defined.

(** ** Where the output directory lies *)

(** X24. The output directory of a run lies directly in the output root.
    The directory allocated for the base name made from a stored file name
    has the root as its parent, and its own name is that base name or the
    base name with a version suffix; it was not there before and is a
    directory afterwards. *)
Theorem output_dir_lies_in_the_root
    parent stored_filename agreement_id fs0 p fs1 :
  create_versioned_output_dir parent
    (safe_agreement_base_name stored_filename agreement_id) fs0 = (Ok p, fs1) ->
  path_parent p = parent
  /\ path_name p
     ∈ version_candidates (safe_agreement_base_name stored_filename agreement_id)
  /\ is_prefix (safe_agreement_base_name stored_filename agreement_id)
               (path_name p)
  /\ path_exists fs0 p = false
  /\ p ∈ dirs fs1.
Proof.
  intros Hrun.
  pose proof (create_versioned_output_dir_fresh _ _ _ _ _ Hrun)
    as (Hfree & Hdir & _).
  destruct (files fs0 !! parent) as [f|] eqn:Hfile.
  { unfold create_versioned_output_dir, ensure_dir, bind in Hrun.
    rewrite mkdir_exist_ok_fail in Hrun by (rewrite Hfile; eauto).
    discriminate. }
  rewrite create_versioned_output_dir_run in Hrun
    by (assumption || apply safe_agreement_base_name_plain).
  destruct (first_free fs0 parent _) as [name|] eqn:Hf; [|discriminate].
  injection Hrun as <- _. apply first_free_in in Hf.
  assert (Hbase : ~ In "/"%char
                    (chars (safe_agreement_base_name stored_filename
                              agreement_id))).
  { pose proof (squash_unsafe_safe false) as Hsq.
    unfold safe_agreement_base_name.
    destruct (String.eqb _ ""); [simpl; intuition discriminate|].
    apply safe_chars_no_slash, strip_by_all_chars, Hsq. }
  destruct (version_candidates_no_slash _ _ Hbase Hf) as [Hname Hprefix].
  unfold path_parent, path_name. rewrite (split_last_slash_join _ _ Hname).
  auto.
Qed.

Lemma output_dir_lies_in_the_root_witness :
  let run := create_versioned_output_dir "/srv/output"
               (safe_agreement_base_name "a1__My Agreement.txt" "a1")
               crowded_fs in
  fst run = Ok "/srv/output/My_Agreement"
  /\ path_parent (ok_value "" (fst run)) = "/srv/output".
Proof.
  cbv zeta.
  assert (Hany : forall p fs1,
            create_versioned_output_dir "/srv/output"
              (safe_agreement_base_name "a1__My Agreement.txt" "a1") crowded_fs
            = (Ok p, fs1) ->
            path_parent p = "/srv/output").
  { intros p fs1 Hrun.
    exact (proj1 (output_dir_lies_in_the_root _ _ _ _ _ _ Hrun)). }
  split; [by_evaluation|].
  apply (Hany _ (snd (create_versioned_output_dir "/srv/output"
                        (safe_agreement_base_name "a1__My Agreement.txt" "a1")
                        crowded_fs))).
  by_evaluation.
Defined.
